(** * ShekelSync reconciliation engine: a shallow embedding and its properties

    The development follows the three scripts of the repository:

    - [scripts/account_pairing_lab.py]: text evidence extraction, the bank
      account discoverer ([find_best_bank_account_app]), the cycle
      discrepancy classifier ([calculate_discrepancy_app]) and the bank-group
      allocator ([calculate_discrepancies_app_for_bank_group]);
    - [scripts/match_cc_transactions.py]: the transaction-level matcher
      ([match_repayment_to_expenses] and the driver loop of [main]).

    Modelling conventions.

    - Money.  The scripts hold amounts as Python floats read from a SQLite
      REAL column.  Amounts are modelled as integers counting hundredths of
      the currency unit (agorot): 1.0 is [100], 200.0 is [20000]; what the
      scripts report after [round(x, 2)] is such a number.  The scripts
      compare the doubles before they round them: module [Amount] says how
      these comparisons are modelled, and module [Doubles] evaluates a few
      of them in binary64 arithmetic.
    - Text.  A Python [str] is a [string]; non-ASCII text is carried as its
      UTF-8 bytes, on which substring tests agree with Python's.  [str.lower],
      [str.strip] and the regular-expression class [\d] are modelled on
      ASCII, and lengths and slices ([s[-4:]]) count bytes: they are
      Python's on ASCII text, which account numbers are.
    - Storage.  The SQLite database is a record of tables (lists of rows);
      every SQL statement of the scripts is a list comprehension over them.
    - Time.  [datetime.date] is a record of year, month and day with the
      proleptic Gregorian ordinal of the Python standard library; "today"
      is a parameter of the functions that read the clock.  A date that
      [dt.date] refuses to build is an outcome of its own of the function
      that asked for it. *)

From stdpp Require Import gmap strings list.
From Stdlib Require Import ZArith QArith Lia Ascii String List Permutation Sorted.
From Stdlib Require PrimFloat Uint63.
Import ListNotations.
Local Open Scope string_scope.
Local Open Scope Z_scope.

(** ** Comparisons of amounts

    The scripts compare amounts as binary doubles: sums and differences of
    the ledger's prices, never rounded before the test.  Two amounts that
    differ as decimals differ by a hundredth at least, far more than the
    rounding error of such doubles, and the doubles compare as the decimals
    do.  When the two sides are the same decimal amount the doubles may
    still differ in their last bits (2835.11 + 1896.33 is a double above
    4731.44), and the test can go either way.  The model decides the first
    case on the exact amounts and leaves the second to [bias], a parameter:
    [bias v] is how the double on the left compares with the double on the
    right when both sides stand for the amount [v].  What is proved below
    is proved for every [bias]. *)

Module Amount.

Class rounding := bias : Z -> comparison.

Section Comparisons.
Context {rnd : rounding}.

(** The comparison of the two doubles. *)
Definition compare (a b : Z) : comparison :=
  match a ?= b with
  | Eq => bias a
  | c => c
  end.

(** [a <= b]. *)
Definition le (a b : Z) : bool :=
  match compare a b with Gt => false | _ => true end.

(** [a < b]. *)
Definition lt (a b : Z) : bool :=
  match compare a b with Lt => true | _ => false end.

(** [a > b]. *)
Definition gt (a b : Z) : bool :=
  match compare a b with Gt => true | _ => false end.

End Comparisons.

(** Doubles that carry no rounding error: equal amounts compare equal. *)
Definition exact : rounding := fun _ => Eq.

End Amount.

#[global] Arguments Amount.compare : simpl never.
#[global] Arguments Amount.le : simpl never.
#[global] Arguments Amount.lt : simpl never.
#[global] Arguments Amount.gt : simpl never.

(** ** The doubles themselves

    Binary64 arithmetic, for the sample ledgers whose amounts lie exactly
    on a threshold: there the outcome of a test is read off the doubles the
    script compares. *)

Module Doubles.

(** The double of a price of [cents] hundredths, [0 <= cents < 2^53]: the
    one nearest to the decimal, as SQLite stores it and Python reads it. *)
Definition of_cents (cents : Z) : PrimFloat.float :=
  PrimFloat.div (PrimFloat.of_uint63 (Uint63.of_Z cents))
                (PrimFloat.of_uint63 (Uint63.of_Z 100)).

(** [total += amount] over the amounts in turn, from [0.0]. *)
Definition sum (amounts : list Z) : PrimFloat.float :=
  fold_left (fun total cents => PrimFloat.add total (of_cents cents)) amounts PrimFloat.zero.

(** [abs(x - y)]. *)
Definition distance (x y : PrimFloat.float) : PrimFloat.float :=
  PrimFloat.abs (PrimFloat.sub x y).

Definition compare (x y : PrimFloat.float) : comparison :=
  match PrimFloat.compare x y with
  | PrimFloat.FEq | PrimFloat.FNotComparable => Eq
  | PrimFloat.FLt => Lt
  | PrimFloat.FGt => Gt
  end.

(** The rounding of a run in which the tests of amounts equal to [v]
    compare the doubles [x] and [y]. *)
Definition rounding_at (v : Z) (x y : PrimFloat.float) : Amount.rounding :=
  fun a => if a =? v then compare x y else Eq.

End Doubles.

(** ** Generic helpers: Python's stable [sorted] and [sum] *)

Module Py.

(** [sorted(l, key=k)] with a strict order [lt] on keys: stable insertion. *)
Fixpoint insert_asc {A} (lt : A -> A -> bool) (x : A) (l : list A) : list A :=
  match l with
  | [] => [x]
  | y :: l' => if lt y x then y :: insert_asc lt x l' else x :: l
  end.

Definition sorted_asc {A} (lt : A -> A -> bool) (l : list A) : list A :=
  fold_right (insert_asc lt) [] l.

(** [sorted(l, key=k, reverse=True)]: descending, still stable (elements
    with equal keys keep their input order). *)
Fixpoint insert_desc {A} (lt : A -> A -> bool) (x : A) (l : list A) : list A :=
  match l with
  | [] => [x]
  | y :: l' => if lt x y then y :: insert_desc lt x l' else x :: l
  end.

Definition sorted_desc {A} (lt : A -> A -> bool) (l : list A) : list A :=
  fold_right (insert_desc lt) [] l.

Definition sum (l : list Z) : Z := fold_right Z.add 0 l.

(** SQL [LIMIT n]: a negative limit means no limit in SQLite. *)
Definition sql_limit {A} (n : Z) (l : list A) : list A :=
  if n <? 0 then l else firstn (Z.to_nat n) l.

(** Truthiness of an optional string: [None] and [""] are falsy. *)
Definition truthy (s : option string) : bool :=
  match s with
  | Some s' => negb (String.eqb s' "")
  | None => false
  end.

(** [s or d]. *)
Definition str_or (s : option string) (d : string) : string :=
  match s with
  | Some s' => if String.eqb s' "" then d else s'
  | None => d
  end.

Definition opt_str_eqb (a b : option string) : bool :=
  match a, b with
  | Some x, Some y => String.eqb x y
  | None, None => true
  | _, _ => false
  end.

End Py.

(** ** Text evidence extractor *)

Module Text.

Definition is_upper (c : ascii) : bool :=
  let n := N_of_ascii c in ((65 <=? n) && (n <=? 90))%N.

Definition lower_char (c : ascii) : ascii :=
  if is_upper c then ascii_of_N (N_of_ascii c + 32) else c.

(** [str.lower()] on the ASCII letters. *)
Fixpoint lower (s : string) : string :=
  match s with
  | EmptyString => EmptyString
  | String c s' => String (lower_char c) (lower s')
  end.

(** [needle in hay]. *)
Fixpoint contains (needle hay : string) : bool :=
  String.prefix needle hay ||
  match hay with
  | EmptyString => false
  | String _ hay' => contains needle hay'
  end.

Definition is_space (c : ascii) : bool :=
  let n := N_of_ascii c in (((9 <=? n) && (n <=? 13)) || ((28 <=? n) && (n <=? 32)))%N.

Fixpoint lstrip (s : string) : string :=
  match s with
  | EmptyString => EmptyString
  | String c s' => if is_space c then lstrip s' else s
  end.

Fixpoint rstrip (s : string) : string :=
  match s with
  | EmptyString => EmptyString
  | String c s' =>
      match rstrip s' with
      | EmptyString => if is_space c then EmptyString else String c EmptyString
      | r => String c r
      end
  end.

Definition strip (s : string) : string := rstrip (lstrip s).

(** [s[-4:]]. *)
Definition last_n (n : nat) (s : string) : string :=
  String.substring (String.length s - n) n s.

Definition VENDOR_KEYWORDS : list (string * list string) :=
  [ ("max", ["מקס"; "max"]);
    ("visaCal", ["כ.א.ל"; "cal"; "ויזה כאל"; "visa cal"]);
    ("isracard", ["ישראכרט"; "isracard"]);
    ("amex", ["אמקס"; "אמריקן אקספרס"; "amex"; "american express"]);
    ("leumi", ["לאומי כרט"; "leumi card"]);
    ("diners", ["דיינרס"; "diners"]) ].

(** [VENDOR_KEYWORDS.get(vendor, [])]. *)
Fixpoint keywords_in (table : list (string * list string)) (vendor : string) : list string :=
  match table with
  | [] => []
  | (v, kws) :: rest => if String.eqb v vendor then kws else keywords_in rest vendor
  end.

Definition vendor_keywords (vendor : string) : list string :=
  keywords_in VENDOR_KEYWORDS vendor.

Definition get_account_last4 (account_number : option string) : option string :=
  match account_number with
  | None => None
  | Some a =>
      if String.eqb a "" then None
      else
        let trimmed := strip a in
        if String.eqb trimmed "" then None
        else if (4 <? String.length trimmed)%nat then Some (last_n 4 trimmed)
        else Some trimmed
  end.

Definition is_digit (c : ascii) : bool :=
  let n := N_of_ascii c in ((48 <=? n) && (n <=? 57))%N.

(** Maximal runs of digits, left to right; [cur] is the run being read,
    reversed. *)
Fixpoint digit_runs (cur : list ascii) (s : string) : list string :=
  match s with
  | EmptyString =>
      match cur with [] => [] | _ => [string_of_list_ascii (rev cur)] end
  | String c s' =>
      if is_digit c then digit_runs (c :: cur) s'
      else
        match cur with
        | [] => digit_runs [] s'
        | _ => string_of_list_ascii (rev cur) :: digit_runs [] s'
        end
  end.

(** [re.findall(r"\d{4,}", text)]. *)
Definition findall_digits4 (text : string) : list string :=
  List.filter (fun m => (4 <=? String.length m)%nat) (digit_runs [] text).

Fixpoint dedup (seen : list string) (l : list string) : list string :=
  match l with
  | [] => []
  | x :: l' =>
      if existsb (String.eqb x) seen then dedup seen l'
      else x :: dedup (x :: seen) l'
  end.

Definition extract_digit_sequences (text : option string) : list string :=
  match text with
  | None => []
  | Some t =>
      if String.eqb t "" then []
      else
        let out :=
          flat_map (fun m => if (4 <? String.length m)%nat then [m; last_n 4 m] else [m])
                   (findall_digits4 t) in
        Py.sorted_asc String.ltb (dedup [] out)
  end.

Definition name_contains_vendor (name : option string) (cc_vendor : option string) : bool :=
  match name, cc_vendor with
  | Some n, Some v =>
      if String.eqb n "" || String.eqb v "" then false
      else
        let name_lower := lower n in
        existsb (fun kw => contains (lower kw) name_lower) (vendor_keywords v)
  | _, _ => false
  end.

(** The de-duplication loop of [build_match_patterns]: empty patterns are
    skipped, the first occurrence of each pattern is kept. *)
Fixpoint unique_patterns (seen : list string) (patterns : list string) : list string :=
  match patterns with
  | [] => []
  | p :: rest =>
      if String.eqb p "" then unique_patterns seen rest
      else if existsb (String.eqb p) seen then unique_patterns seen rest
      else p :: unique_patterns (p :: seen) rest
  end.

(** The list [patterns] of [build_match_patterns] before de-duplication. *)
Definition raw_match_patterns (cc_vendor : string) (cc_account_number : option string)
  : list string :=
  vendor_keywords cc_vendor ++
  match cc_account_number with
  | Some a =>
      if String.eqb a "" then []
      else
        a :: match get_account_last4 cc_account_number with
             | Some last4 => if String.eqb last4 a then [] else [last4]
             | None => []
             end
  | None => []
  end.

Definition build_match_patterns (cc_vendor : string) (cc_account_number : option string)
  : list string :=
  unique_patterns [] (raw_match_patterns cc_vendor cc_account_number).

End Text.


(** ** Calendar dates ([datetime.date]) *)

Module Calendar.

Record date := mkdate { year : Z; month : Z; day : Z }.

Definition is_leap (y : Z) : bool :=
  (y mod 4 =? 0) && (negb (y mod 100 =? 0) || (y mod 400 =? 0)).

(** [calendar.monthrange(year, month)[1]]. *)
Definition days_in_month (y m : Z) : Z :=
  if m =? 2 then (if is_leap y then 29 else 28)
  else if (m =? 4) || (m =? 6) || (m =? 9) || (m =? 11) then 30
  else 31.

Definition days_before_year (y : Z) : Z :=
  let p := y - 1 in p * 365 + p / 4 - p / 100 + p / 400.

Definition days_before_month (y m : Z) : Z :=
  Py.sum (List.map (fun k => days_in_month y (Z.of_nat k)) (seq 1 (Z.to_nat (m - 1)))).

(** [date.toordinal()]: 1 is 0001-01-01. *)
Definition toordinal (d : date) : Z :=
  days_before_year (year d) + days_before_month (year d) (month d) + day d.

(** [date.fromordinal(n)], after [_ord2ymd] of the standard library. *)
Definition fromordinal (n : Z) : date :=
  let n0 := n - 1 in
  let n400 := n0 / 146097 in
  let r400 := n0 mod 146097 in
  let n100 := r400 / 36524 in
  let r100 := r400 mod 36524 in
  let n4 := r100 / 1461 in
  let r4 := r100 mod 1461 in
  let n1 := r4 / 365 in
  let r := r4 mod 365 in
  let y := n400 * 400 + 1 + n100 * 100 + n4 * 4 + n1 in
  if (n1 =? 4) || (n100 =? 4) then mkdate (y - 1) 12 31
  else
    let leapyear := (n1 =? 3) && (negb (n4 =? 24) || (n100 =? 3)) in
    let m0 := Z.shiftr (r + 50) 5 in
    let before mm := days_before_month (if leapyear then 4 else 1) mm in
    let m := if r <? before m0 then m0 - 1 else m0 in
    mkdate y m (r - before m + 1).

(** [(a - b).days]. *)
Definition days_between (a b : date) : Z := toordinal a - toordinal b.

(** [d - timedelta(days=n)]. *)
Definition minus_days (d : date) (n : Z) : date := fromordinal (toordinal d - n).

Definition digit_char (n : Z) : ascii := ascii_of_N (Z.to_N (48 + n mod 10)).

(** [n] written with at least [width] decimal digits, zero padded. *)
Fixpoint zero_padded (width : nat) (n : Z) : string :=
  match width with
  | O => EmptyString
  | S w => String.append (zero_padded w (n / 10)) (String (digit_char n) EmptyString)
  end.

(** [date.isoformat()], also [strftime('%Y-%m-%d')]. *)
Definition isoformat (d : date) : string :=
  String.append (zero_padded 4 (year d))
    (String.append "-" (String.append (zero_padded 2 (month d))
       (String.append "-" (zero_padded 2 (day d))))).

Fixpoint parse_digits (acc : Z) (s : string) : option Z :=
  match s with
  | EmptyString => Some acc
  | String c s' =>
      if Text.is_digit c
      then parse_digits (acc * 10 + (Z.of_N (N_of_ascii c) - 48)) s'
      else None
  end.

Definition valid_date (y m d : Z) : bool :=
  (1 <=? y) && (y <=? 9999) && (1 <=? m) && (m <=? 12) && (1 <=? d) && (d <=? days_in_month y m).

(** The [YYYY-MM-DD] form of [date.fromisoformat]; [None] stands for the
    [ValueError] raised on anything else. *)
Definition fromisoformat (s : string) : option date :=
  if negb (String.length s =? 10)%nat then None
  else if negb (String.eqb (String.substring 4 1 s) "-" && String.eqb (String.substring 7 1 s) "-")
  then None
  else
    match parse_digits 0 (String.substring 0 4 s),
          parse_digits 0 (String.substring 5 2 s),
          parse_digits 0 (String.substring 8 2 s) with
    | Some y, Some m, Some d => if valid_date y m d then Some (mkdate y m d) else None
    | _, _, _ => None
    end.

Definition subtract_calendar_months (anchor : date) (months : Z) : date :=
  if months <=? 0 then anchor
  else
    let month0 := (year anchor * 12 + (month anchor - 1)) - months in
    let y := month0 / 12 in
    let m := month0 mod 12 + 1 in
    mkdate y m (Z.min (day anchor) (days_in_month y m)).

(** [subtract_calendar_months] builds its result with [dt.date(year, month,
    day)], which raises unless the year is in 1..9999: with [months > 0]
    reaching back before year 1 the call ends in that exception. *)
Definition subtract_raises (anchor : date) (months : Z) : bool :=
  if months <=? 0 then false
  else
    let r := subtract_calendar_months anchor months in
    negb (valid_date (year r) (month r) (day r)).

End Calendar.

(** ** The storage collaborator: tables of the SQLite database *)

Module Store.

(** A row of [transactions]. *)
Record transaction := mk_transaction {
  t_identifier : string;
  t_vendor : string;
  t_account_number : option string;
  t_date : string;
  t_processed_date : option string;
  t_name : option string;
  t_price : Z;
  t_status : string;
  t_category_definition_id : option Z
}.

(** A row of [category_definitions]. *)
Record category_definition := mk_category {
  cd_id : Z;
  cd_name : option string;
  cd_name_en : option string;
  cd_name_fr : option string
}.

(** A row of [account_pairings]; [p_match_patterns] is the JSON column
    after [json.loads], [None] when it does not hold a list of strings. *)
Record AccountPairing := mk_pairing {
  p_id : Z;
  credit_card_vendor : string;
  credit_card_account_number : option string;
  bank_vendor : string;
  bank_account_number : option string;
  p_match_patterns : option (list string);
  is_active : bool;
  discrepancy_acknowledged : bool
}.

(** A row of [credit_card_expense_matches], the persisted match table. *)
Record persisted_match := mk_persisted {
  pm_expense_txn_id : string;
  pm_expense_vendor : string
}.

Record database := mk_database {
  transactions : list transaction;
  category_definitions : list category_definition;
  account_pairings : list AccountPairing;
  (** whether [account_pairings] has the optional acknowledgement column *)
  has_ack_column : bool;
  credit_card_expense_matches : list persisted_match
}.

(** [substr(x, 1, 10)]. *)
Definition substr10 (s : string) : string := String.substring 0 10 s.

(** [substr(COALESCE(t.processed_date, t.date), 1, 10)]. *)
Definition billing_day (t : transaction) : string :=
  substr10 (match t_processed_date t with Some p => p | None => t_date t end).

Definition REPAYMENT_NAMES : list string := ["פרעון כרטיס אשראי"; "החזר כרטיס אשראי"].
Definition REPAYMENT_NAMES_EN : list string :=
  ["Credit Card Repayment"; "Card repayment"; "Credit card repayment"].
Definition REPAYMENT_NAMES_FR : list string := ["Remboursement de carte de crédit"].

Definition name_in (names : list string) (n : option string) : bool :=
  match n with
  | Some s => existsb (String.eqb s) names
  | None => false
  end.

(** The predicate built by [build_category_predicates]. *)
Definition repayment_category (cd : category_definition) : bool :=
  name_in REPAYMENT_NAMES (cd_name cd)
  || name_in REPAYMENT_NAMES_EN (cd_name_en cd)
  || name_in REPAYMENT_NAMES_FR (cd_name_fr cd).

(** [transactions t LEFT JOIN category_definitions cd ON cd.id =
    t.category_definition_id WHERE <predicate>]: one row per category row
    that joins and satisfies the predicate. *)
Definition join_repayment_category (db : database) (ts : list transaction) : list transaction :=
  flat_map
    (fun t =>
       List.map (fun _ => t)
         (List.filter
            (fun cd =>
               match t_category_definition_id t with
               | Some c => (cd_id cd =? c) && repayment_category cd
               | None => false
               end)
            (category_definitions db)))
    ts.

Definition get_cc_fees_category_id (db : database) : option Z :=
  match List.filter
          (fun cd => Py.opt_str_eqb (cd_name_en cd) (Some "Bank & Card Fees")
                     || Py.opt_str_eqb (cd_name cd) (Some "עמלות בנק וכרטיס"))
          (category_definitions db) with
  | cd :: _ => Some (cd_id cd)
  | [] => None
  end.

(** The [CASE] expression summed by the card-billing queries: a waived or
    discounted card fee offsets the total, anything else adds its negated
    price. *)
Definition billed_amount (fees_id : Z) (t : transaction) : Z :=
  let n := Text.lower (match t_name t with Some s => s | None => "" end) in
  if match t_category_definition_id t with Some c => c =? fees_id | None => false end
     && (t_price t <? 0)
     && Text.contains "דמי כרטיס" n
     && (Text.contains "פטור" n || Text.contains "הנחה" n)
  then t_price t
  else - t_price t.

Definition account_filter (acct : option string) (t : transaction) : bool :=
  if Py.truthy acct then Py.opt_str_eqb (t_account_number t) acct else true.

Definition min_string (l : list string) : option string :=
  match l with
  | [] => None
  | x :: rest => Some (fold_left (fun m y => if String.ltb y m then y else m) rest x)
  end.

Definition get_cc_earliest_cycle_date (db : database) (cc_vendor : string)
    (cc_account_number : option string) (cc_fees_category_id : option Z)
  : option Calendar.date :=
  let rows :=
    List.filter
      (fun t =>
         String.eqb (t_vendor t) cc_vendor
         && String.eqb (t_status t) "completed"
         && (t_price t <? 0)
         && account_filter cc_account_number t
         && match cc_fees_category_id with
            | Some f =>
                match t_category_definition_id t with
                | Some c => negb (c =? f)
                | None => true
                end
            | None => true
            end)
      (transactions db) in
  match min_string (List.map billing_day rows) with
  | None => None
  | Some s => if String.eqb s "" then None else Calendar.fromisoformat s
  end.

(** The bank-side repayment query shared by the classifier and the
    allocator. *)
Definition repayment_rows (db : database) (bank_vendor : string)
    (bank_account_number : option string) (start_date today : string) (limit : Z)
  : list transaction :=
  let selected :=
    List.filter
      (fun t =>
         String.eqb (t_vendor t) bank_vendor
         && String.leb start_date (substr10 (t_date t))
         && String.leb (substr10 (t_date t)) today
         && String.eqb (t_status t) "completed"
         && (t_price t <? 0)
         && account_filter bank_account_number t)
      (transactions db) in
  Py.sql_limit limit
    (Py.sorted_desc (fun a b => String.ltb (t_date a) (t_date b))
       (join_repayment_category db selected)).

End Store.

(** ** Cycle discrepancy classifier ([calculate_discrepancy_app]) *)

Module Classifier.
Import Store.

Section Rounded.
Context {rnd : Amount.rounding}.

Definition EPSILON : Z := 100.
Definition MAX_FEE_AMOUNT : Z := 20000.
Definition EARLY_GRACE_DAYS : Z := 14.
Definition RECENT_GRACE_DAYS : Z := 14.

Inductive cycle_status :=
| matched
| fee_candidate
| large_discrepancy
| cc_over_bank
| missing_cc_cycle
| incomplete_history.

Definition status_eqb (a b : cycle_status) : bool :=
  match a, b with
  | matched, matched | fee_candidate, fee_candidate
  | large_discrepancy, large_discrepancy | cc_over_bank, cc_over_bank
  | missing_cc_cycle, missing_cc_cycle | incomplete_history, incomplete_history => true
  | _, _ => false
  end.

(** Membership in [actionable_statuses]. *)
Definition actionable (s : cycle_status) : bool :=
  match s with
  | fee_candidate | large_discrepancy | cc_over_bank | missing_cc_cycle => true
  | matched | incomplete_history => false
  end.

(** An entry of a cycle's ["repayments"] list. *)
Record repayment := mk_repayment {
  r_identifier : string;
  r_vendor : string;
  r_accountNumber : option string;
  r_date : string;
  r_cycleDate : string;
  r_name : string;
  r_price : Z
}.

Definition repayment_of_row (t : transaction) : repayment :=
  {| r_identifier := t_identifier t;
     r_vendor := t_vendor t;
     r_accountNumber := t_account_number t;
     r_date := t_date t;
     r_cycleDate := substr10 (t_date t);
     r_name := Py.str_or (t_name t) "";
     r_price := t_price t |}.

Record bucket := mk_bucket {
  repaymentDate : string;
  b_repayments : list repayment;
  b_bankTotal : Z
}.

(** [repayments_by_date.setdefault(date_key, ...)] followed by the append
    and the running total; buckets keep their insertion order. *)
Fixpoint add_to_bucket (r : repayment) (buckets : list bucket) : list bucket :=
  match buckets with
  | [] => [ {| repaymentDate := r_cycleDate r;
               b_repayments := [r];
               b_bankTotal := 0 + Z.abs (r_price r) |} ]
  | b :: rest =>
      if String.eqb (repaymentDate b) (r_cycleDate r)
      then {| repaymentDate := repaymentDate b;
              b_repayments := b_repayments b ++ [r];
              b_bankTotal := b_bankTotal b + Z.abs (r_price r) |} :: rest
      else b :: add_to_bucket r rest
  end.

Definition repayments_by_date (rows : list transaction) : list bucket :=
  fold_left (fun bs t => add_to_bucket (repayment_of_row t) bs) rows [].

(** A row of the per-date card billing query, one per account number. *)
Record cc_row := mk_cc_row {
  cr_account_number : option string;
  cr_total : Z;
  cr_txn_count : Z
}.

Definition opt_ltb (a b : option string) : bool :=
  match a, b with
  | None, Some _ => true
  | Some x, Some y => String.ltb x y
  | _, _ => false
  end.

Fixpoint dedup_accounts (seen : list (option string)) (l : list (option string))
  : list (option string) :=
  match l with
  | [] => []
  | x :: l' =>
      if existsb (Py.opt_str_eqb x) seen then dedup_accounts seen l'
      else x :: dedup_accounts (x :: seen) l'
  end.

(** The card billing rows of one date, [GROUP BY t.account_number]; SQLite
    returns the groups in the order of the grouping key, NULL first. *)
Definition cc_rows (db : database) (fees_id : Z) (cc_vendor : string) (date_key : string)
    (cc_account_number : option string) : list cc_row :=
  let selected :=
    List.filter
      (fun t =>
         String.eqb (t_vendor t) cc_vendor
         && String.eqb (t_status t) "completed"
         && String.eqb (billing_day t) date_key
         && account_filter cc_account_number t)
      (transactions db) in
  let keys := Py.sorted_asc opt_ltb (dedup_accounts [] (List.map t_account_number selected)) in
  List.map
    (fun k =>
       let members := List.filter (fun t => Py.opt_str_eqb (t_account_number t) k) selected in
       {| cr_account_number := k;
          cr_total := Py.sum (List.map (billed_amount fees_id) members);
          cr_txn_count := Z.of_nat (List.length members) |})
    keys.

Definition row_total (r : cc_row) : Z := Z.max 0 (cr_total r).

(** What the classification of one cycle leaves behind:
    [cc_total], [matched_account] and [status]. *)
Record verdict := mk_verdict {
  v_cc_total : option Z;
  v_matched_account : option string;
  v_status : cycle_status
}.

Definition no_verdict : verdict :=
  {| v_cc_total := None; v_matched_account := None; v_status := missing_cc_cycle |}.

(** The loop [for cc_row in cc_rows]: the first row within [EPSILON] wins
    and ends the loop; a fee-sized shortfall is remembered meanwhile. *)
Fixpoint scan_rows (bank_total : Z) (rows : list cc_row) (v : verdict) : verdict :=
  match rows with
  | [] => v
  | r :: rest =>
      let rt := row_total r in
      let diff_abs := Z.abs (bank_total - rt) in
      if Amount.le diff_abs EPSILON
      then {| v_cc_total := Some rt;
              v_matched_account := cr_account_number r;
              v_status := matched |}
      else if Amount.le diff_abs MAX_FEE_AMOUNT && Amount.gt diff_abs EPSILON
              && Amount.gt bank_total rt
      then scan_rows bank_total rest
             {| v_cc_total := Some rt;
                v_matched_account := cr_account_number r;
                v_status := fee_candidate |}
      else scan_rows bank_total rest v
  end.

(** The rule comparing a bank total with a known card total. *)
Definition classify_diff (diff : Z) : cycle_status :=
  if Amount.le (Z.abs diff) EPSILON then matched
  else if Amount.gt diff 0 && Amount.le diff MAX_FEE_AMOUNT then fee_candidate
  else if Amount.gt diff MAX_FEE_AMOUNT then large_discrepancy
  else cc_over_bank.

Definition classify_bucket (bank_total : Z) (rows : list cc_row)
    (cc_account_number : option string) : verdict :=
  match rows with
  | [] => no_verdict
  | _ =>
      let v := scan_rows bank_total rows no_verdict in
      if status_eqb (v_status v) missing_cc_cycle && Py.truthy cc_account_number
      then
        match List.filter
                (fun r => Py.opt_str_eqb (Some (Py.str_or (cr_account_number r) ""))
                                         cc_account_number)
                rows with
        | r :: _ =>
            let rt := row_total r in
            {| v_cc_total := Some rt;
               v_matched_account := cc_account_number;
               v_status := classify_diff (bank_total - rt) |}
        | [] => v
        end
      else v
  end.

Record cycle := mk_cycle {
  cycleDate : string;
  bankTotal : Z;
  ccTotal : option Z;
  difference : option Z;
  repayments : list repayment;
  status : cycle_status;
  matchedAccount : option string
}.

Definition set_status (c : cycle) (s : cycle_status) : cycle :=
  {| cycleDate := cycleDate c; bankTotal := bankTotal c; ccTotal := ccTotal c;
     difference := difference c; repayments := repayments c; status := s;
     matchedAccount := matchedAccount c |}.

Definition cycle_of_bucket (db : database) (fees_id : Z) (cc_vendor : string)
    (cc_account_number : option string) (b : bucket) : cycle :=
  let v := classify_bucket (b_bankTotal b)
             (cc_rows db fees_id cc_vendor (repaymentDate b) cc_account_number)
             cc_account_number in
  {| cycleDate := repaymentDate b;
     bankTotal := b_bankTotal b;
     ccTotal := v_cc_total v;
     difference := match v_cc_total v with
                   | Some cc => Some (b_bankTotal b - cc)
                   | None => None
                   end;
     repayments := b_repayments b;
     status := v_status v;
     matchedAccount := v_matched_account v |}.

(** The grace-period pass over one cycle. *)
Definition grace_relabel (today : Calendar.date) (earliest : option Calendar.date)
    (c : cycle) : cycle :=
  if negb (actionable (status c)) then c
  else
    match Calendar.fromisoformat (cycleDate c) with
    | None => c
    | Some cycle_date =>
        if match earliest with
           | Some e => Calendar.days_between cycle_date e <=? EARLY_GRACE_DAYS
           | None => false
           end
        then set_status c incomplete_history
        else if (0 <=? Calendar.days_between today cycle_date)
                && (Calendar.days_between today cycle_date <=? RECENT_GRACE_DAYS)
        then set_status c incomplete_history
        else c
    end.

(** [round(a / b, 0)] for [b > 0], ties to even, as Python rounds. *)
Definition round_div (a b : Z) : Z :=
  let q := a / b in
  let r := a mod b in
  if 2 * r <? b then q
  else if b <? 2 * r then q + 1
  else if Z.even q then q else q + 1.

(** The aggregate part of a discrepancy record.  [differencePercentage]
    counts hundredths of a percent, as [round(.., 2)] leaves it. *)
Record discrepancy := mk_discrepancy {
  d_exists : bool;
  acknowledged : bool;
  totalBankRepayments : Z;
  totalCCExpenses : Z;
  d_difference : Z;
  differencePercentage : Z;
  periodMonths : Z;
  matchedCycleCount : Z;
  totalCycles : Z;
  cycles : list cycle
}.

Definition comparable (c : cycle) : bool :=
  match ccTotal c with
  | Some _ => negb (status_eqb (status c) incomplete_history)
  | None => false
  end.

Definition aggregate (acknowledged : bool) (months_back : Z) (cycles : list cycle)
  : discrepancy :=
  let cmp := List.filter comparable cycles in
  let total_bank := Py.sum (List.map bankTotal cmp) in
  let total_cc := Py.sum (List.map (fun c => match ccTotal c with Some x => x | None => 0 end) cmp) in
  let total_diff := total_bank - total_cc in
  let has_discrepancy := existsb (fun c => actionable (status c)) cycles in
  {| d_exists := has_discrepancy && negb acknowledged;
     acknowledged := acknowledged;
     totalBankRepayments := total_bank;
     totalCCExpenses := total_cc;
     d_difference := total_diff;
     differencePercentage :=
       if 0 <? total_cc then round_div (total_diff * 10000) total_cc else 0;
     periodMonths := months_back;
     matchedCycleCount :=
       Z.of_nat (List.length (List.filter (fun c => status_eqb (status c) matched) cycles));
     totalCycles := Z.of_nat (List.length cycles);
     cycles := cycles |}.

(** The three shapes of dictionary the function returns; [DateError] is
    the exception of [subtract_calendar_months] instead. *)
Inductive result :=
| NoVendor
| DateError
| NoRepayments (acknowledged : bool) (reason : string) (periodMonths : Z)
| Discrepancy (d : discrepancy).

Definition result_cycles (r : result) : list cycle :=
  match r with
  | Discrepancy d => cycles d
  | _ => []
  end.

Definition result_exists (r : result) : bool :=
  match r with
  | Discrepancy d => d_exists d
  | _ => false
  end.

Definition lookup_acknowledged (db : database) (pairing_id : option Z) : bool :=
  match pairing_id with
  | None => false
  | Some pid =>
      if has_ack_column db
      then match List.filter (fun p => p_id p =? pid) (account_pairings db) with
           | p :: _ => discrepancy_acknowledged p
           | [] => false
           end
      else false
  end.

Definition repayment_matches_cc (cc_vendor : string) (cc_account_number : option string)
    (name : string) : bool :=
  if String.eqb name "" then false
  else
    match Text.get_account_last4 cc_account_number with
    | Some last4 =>
        Text.contains last4 name
        || existsb (fun kw => Text.contains (Text.lower kw) (Text.lower name))
                   (Text.vendor_keywords cc_vendor)
    | None =>
        existsb (fun kw => Text.contains (Text.lower kw) (Text.lower name))
                (Text.vendor_keywords cc_vendor)
    end.

(** The cycles before the final sort and the grace-period pass. *)
Definition raw_cycles (db : database) (bank_vendor : string)
    (bank_account_number : option string) (cc_vendor : string)
    (cc_account_number : option string) (start_date today : string) (limit : Z)
  : list cycle :=
  let fees_id := match get_cc_fees_category_id db with Some f => f | None => -1 end in
  let rows := repayment_rows db bank_vendor bank_account_number start_date today limit in
  let matching :=
    List.filter (fun t => repayment_matches_cc cc_vendor cc_account_number
                            (Py.str_or (t_name t) "")) rows in
  List.map (cycle_of_bucket db fees_id cc_vendor cc_account_number)
           (repayments_by_date matching).

Definition calculate_discrepancy_app (db : database) (today : Calendar.date)
    (pairing_id : option Z) (bank_vendor : string) (bank_account_number : option string)
    (cc_vendor : string) (cc_account_number : option string) (months_back : Z) (limit : Z)
  : result :=
  if String.eqb bank_vendor "" || String.eqb cc_vendor "" then NoVendor
  else if Calendar.subtract_raises today months_back then DateError
  else
    let today_str := Calendar.isoformat today in
    let start_date_str :=
      Calendar.isoformat (Calendar.subtract_calendar_months today months_back) in
    let acknowledged := lookup_acknowledged db pairing_id in
    let earliest :=
      get_cc_earliest_cycle_date db cc_vendor cc_account_number (get_cc_fees_category_id db) in
    let rows := repayment_rows db bank_vendor bank_account_number start_date_str today_str limit in
    let matching :=
      List.filter (fun t => repayment_matches_cc cc_vendor cc_account_number
                              (Py.str_or (t_name t) "")) rows in
    match matching with
    | [] =>
        NoRepayments acknowledged
          (String.append "No bank repayments found matching this credit card ("
             (String.append cc_vendor
                (String.append " "
                   (String.append (Py.str_or (Text.get_account_last4 cc_account_number) "") ")"))))
          months_back
    | _ =>
        let unsorted :=
          raw_cycles db bank_vendor bank_account_number cc_vendor cc_account_number
                     start_date_str today_str limit in
        let sorted :=
          Py.sorted_desc (fun a b => String.ltb (cycleDate a) (cycleDate b)) unsorted in
        Discrepancy (aggregate acknowledged months_back
                       (List.map (grace_relabel today earliest) sorted))
    end.

(** What a status says about the two totals it was derived from: it is
    [matched] exactly when the test [abs(bank - total) <= EPSILON] on the
    doubles succeeds. *)
Definition status_agrees (bank : Z) (cc : option Z) (s : cycle_status) : Prop :=
  forall total, cc = Some total ->
    (s = matched <-> Amount.le (Z.abs (bank - total)) EPSILON = true)
    /\ (s = fee_candidate -> EPSILON <= bank - total <= MAX_FEE_AMOUNT).

Definition cycle_agrees (c : cycle) : Prop :=
  status_agrees (bankTotal c) (ccTotal c) (status c).

(** A verdict has no card total exactly when it still says
    [missing_cc_cycle]. *)
Definition verdict_linked (v : verdict) : Prop :=
  (v_cc_total v = None /\ v_status v = missing_cc_cycle)
  \/ ((exists t, v_cc_total v = Some t) /\ v_status v <> missing_cc_cycle).

End Rounded.

End Classifier.

(** ** Bank-group allocator ([calculate_discrepancies_app_for_bank_group]) *)

Module Allocator.
Import Store Classifier.

Section Rounded.
Context {rnd : Amount.rounding}.

(** The dictionary [cycle_date -> total] of one card, each total clamped
    at zero. *)
Definition get_cc_totals_for_date_range (db : database) (cc_vendor : string)
    (cc_account_number : option string) (start_date end_date : string) : gmap string Z :=
  let fees_id := match get_cc_fees_category_id db with Some f => f | None => -1 end in
  let selected :=
    List.filter
      (fun t =>
         String.eqb (t_vendor t) cc_vendor
         && String.eqb (t_status t) "completed"
         && String.leb start_date (billing_day t)
         && String.leb (billing_day t) end_date
         && account_filter cc_account_number t)
      (transactions db) in
  let sums : gmap string Z :=
    fold_left
      (fun m t => <[billing_day t := default 0 (m !! billing_day t) + billed_amount fees_id t]> m)
      selected ∅ in
  Z.max 0 <$> sums.

Definition repayment_name_match_strength (pairing : AccountPairing) (name : string) : Z :=
  let hints := Text.extract_digit_sequences (Some name) in
  let cc_account := credit_card_account_number pairing in
  if Py.truthy cc_account
     && existsb (fun h => Py.opt_str_eqb (Some h) cc_account) hints
  then 2
  else if match Text.get_account_last4 cc_account with
          | Some last4 => existsb (String.eqb last4) hints
          | None => false
          end
  then 2
  else if Text.name_contains_vendor (Some name) (Some (credit_card_vendor pairing)) then 1
  else 0.

(** The mutable state of one date bucket. *)
Record alloc_state := mk_alloc {
  assigned_total_by_id : gmap Z Z;
  assigned_txns_by_id : gmap Z (list repayment);
  unassigned : list repayment
}.

Definition initial_state (pairings : list AccountPairing) : alloc_state :=
  {| assigned_total_by_id := list_to_map (List.map (fun p => (p_id p, 0)) pairings);
     assigned_txns_by_id := list_to_map (List.map (fun p => (p_id p, [])) pairings);
     unassigned := [] |}.

(** The search for [best_pairing]: the candidate whose running total plus
    this amount lands closest to its billed total; a later candidate
    replaces the best so far when its double is smaller. *)
Fixpoint best_candidate (cc_total_of : Z -> option Z) (totals : gmap Z Z) (amount : Z)
    (candidates : list AccountPairing) (best : option (AccountPairing * Z))
  : option (AccountPairing * Z) :=
  match candidates with
  | [] => best
  | c :: rest =>
      match cc_total_of (p_id c) with
      | None => best_candidate cc_total_of totals amount rest best
      | Some cc_total =>
          let new_diff := Z.abs ((default 0 (totals !! p_id c) + amount) - cc_total) in
          let better := match best with
                        | None => true
                        | Some (_, best_new_diff) => Amount.lt new_diff best_new_diff
                        end in
          best_candidate cc_total_of totals amount rest
            (if better then Some (c, new_diff) else best)
      end
  end.

Definition assign (st : alloc_state) (pairing : AccountPairing) (r : repayment) : alloc_state :=
  let k := p_id pairing in
  {| assigned_total_by_id :=
       <[k := default 0 (assigned_total_by_id st !! k) + Z.abs (r_price r)]>
         (assigned_total_by_id st);
     assigned_txns_by_id :=
       <[k := (default [] (assigned_txns_by_id st !! k) ++ [r])%list]> (assigned_txns_by_id st);
     unassigned := unassigned st |}.

Definition leave_unassigned (st : alloc_state) (r : repayment) : alloc_state :=
  {| assigned_total_by_id := assigned_total_by_id st;
     assigned_txns_by_id := assigned_txns_by_id st;
     unassigned := (unassigned st ++ [r])%list |}.

(** One iteration of [for repayment in repayments_sorted]. *)
Definition allocate_one (pairings : list AccountPairing) (cc_total_of : Z -> option Z)
    (st : alloc_state) (r : repayment) : alloc_state :=
  let amount := Z.abs (r_price r) in
  let digit_candidates :=
    List.filter (fun p => repayment_name_match_strength p (r_name r) =? 2) pairings in
  let vendor_candidates :=
    List.filter (fun p => repayment_name_match_strength p (r_name r) =? 1) pairings in
  let '(candidates, has_signal) :=
    match digit_candidates, vendor_candidates with
    | _ :: _, _ => (digit_candidates, true)
    | [], _ :: _ => (vendor_candidates, true)
    | [], [] => (pairings, false)
    end in
  match best_candidate cc_total_of (assigned_total_by_id st) amount candidates None with
  | None =>
      if negb has_signal then leave_unassigned st r
      else match candidates with
           | c :: _ => assign st c r
           | [] => st
           end
  | Some (best_pairing, best_new_diff) =>
      if negb has_signal && Amount.gt best_new_diff EPSILON then leave_unassigned st r
      else assign st best_pairing r
  end.

Definition repayments_sorted (rs : list repayment) : list repayment :=
  Py.sorted_desc (fun a b => Z.abs (r_price a) <? Z.abs (r_price b)) rs.

Definition allocate_date (pairings : list AccountPairing) (cc_total_of : Z -> option Z)
    (rs : list repayment) : alloc_state :=
  fold_left (allocate_one pairings cc_total_of) (repayments_sorted rs) (initial_state pairings).

(** The grace-period test the allocator applies while it builds a cycle. *)
Definition grace_status (today : Calendar.date) (earliest : option Calendar.date)
    (date_key : string) (s : cycle_status) : cycle_status :=
  if actionable s then
    match Calendar.fromisoformat date_key with
    | None => s
    | Some cycle_date =>
        if match earliest with
           | Some e => Calendar.days_between cycle_date e <=? EARLY_GRACE_DAYS
           | None => false
           end
        then incomplete_history
        else if (0 <=? Calendar.days_between today cycle_date)
                && (Calendar.days_between today cycle_date <=? RECENT_GRACE_DAYS)
        then incomplete_history
        else s
    end
  else s.

(** The status of a pairing's cycle before the grace-period test. *)
Definition raw_status (bank_total : Z) (cc_total_raw : option Z) : cycle_status :=
  match cc_total_raw with
  | Some cc_total => classify_diff (bank_total - cc_total)
  | None => missing_cc_cycle
  end.

(** The cycle one pairing gets for one date, if it was assigned anything. *)
Definition cycle_for_pairing (today : Calendar.date) (earliest : option Calendar.date)
    (cc_total_raw : option Z) (date_key : string) (st : alloc_state) (p : AccountPairing)
  : option cycle :=
  let bank_total := default 0 (assigned_total_by_id st !! p_id p) in
  if bank_total <=? 0 then None
  else
    Some {| cycleDate := date_key;
            bankTotal := bank_total;
            ccTotal := cc_total_raw;
            difference := match cc_total_raw with
                          | Some cc_total => Some (bank_total - cc_total)
                          | None => None
                          end;
            repayments := default [] (assigned_txns_by_id st !! p_id p);
            status := grace_status today earliest date_key (raw_status bank_total cc_total_raw);
            matchedAccount := credit_card_account_number p |}.

(** [repayments_by_date]: a [defaultdict(list)] in insertion order. *)
Fixpoint add_to_date (r : repayment) (groups : list (string * list repayment))
  : list (string * list repayment) :=
  match groups with
  | [] => [(r_cycleDate r, [r])]
  | (d, rs) :: rest =>
      if String.eqb d (r_cycleDate r) then (d, (rs ++ [r])%list) :: rest
      else (d, rs) :: add_to_date r rest
  end.

Definition repayments_by_date (rows : list transaction) : list (string * list repayment) :=
  fold_left (fun g t => add_to_date (repayment_of_row t) g) rows [].

(** What the function leaves to its caller: the [ValueError] of its own
    check, the exception of [subtract_calendar_months], or a dictionary. *)
Inductive outcome :=
| ValueError (message : string)
| DateError
| Returned (discrepancies : gmap Z discrepancy).

Definition returned_discrepancies (o : outcome) : gmap Z discrepancy :=
  match o with
  | Returned ds => ds
  | _ => ∅
  end.

(** The precondition loop over [pairings[1:]]. *)
Definition same_bank (first p : AccountPairing) : bool :=
  String.eqb (bank_vendor p) (bank_vendor first)
  && Py.opt_str_eqb (bank_account_number p) (bank_account_number first).

Section Group.
Variable db : database.
Variable today : Calendar.date.
Variable pairings : list AccountPairing.
Variable months_back : Z.
Variable limit : Z.

Let today_str := Calendar.isoformat today.
Let start_date_str := Calendar.isoformat (Calendar.subtract_calendar_months today months_back).

Definition cc_totals_by_pairing_id : gmap Z (gmap string Z) :=
  fold_left
    (fun m p =>
       <[p_id p := get_cc_totals_for_date_range db (credit_card_vendor p)
                     (credit_card_account_number p) start_date_str today_str]> m)
    pairings ∅.

Definition earliest_cc_date_by_pairing_id : gmap Z (option Calendar.date) :=
  fold_left
    (fun m p =>
       <[p_id p := get_cc_earliest_cycle_date db (credit_card_vendor p)
                     (credit_card_account_number p) (get_cc_fees_category_id db)]> m)
    pairings ∅.

(** [cc_totals_by_pairing_id.get(id, {}).get(date_key)]. *)
Definition cc_total_at (date_key : string) (id : Z) : option Z :=
  match cc_totals_by_pairing_id !! id with
  | Some totals => totals !! date_key
  | None => None
  end.

Definition earliest_of (id : Z) : option Calendar.date :=
  match earliest_cc_date_by_pairing_id !! id with
  | Some e => e
  | None => None
  end.

(** The cycles of one date, appended pairing by pairing. *)
Definition emit_date (cycles_by_pairing_id : gmap Z (list cycle))
    (group : string * list repayment) : gmap Z (list cycle) :=
  let date_key := fst group in
  let st := allocate_date pairings (cc_total_at date_key) (snd group) in
  fold_left
    (fun m p =>
       match cycle_for_pairing today (earliest_of (p_id p)) (cc_total_at date_key (p_id p))
               date_key st p with
       | Some c => <[p_id p := (default [] (m !! p_id p) ++ [c])%list]> m
       | None => m
       end)
    pairings cycles_by_pairing_id.

Definition cycles_by_pairing_id : gmap Z (list cycle) :=
  let bank_vendor := match pairings with p :: _ => bank_vendor p | [] => "" end in
  let bank_account_number :=
    match pairings with p :: _ => bank_account_number p | [] => None end in
  fold_left emit_date
    (repayments_by_date
       (repayment_rows db bank_vendor bank_account_number start_date_str today_str limit))
    (list_to_map (List.map (fun p => (p_id p, [])) pairings)).

Definition discrepancy_for (p : AccountPairing) : discrepancy :=
  aggregate (discrepancy_acknowledged p) months_back
    (Py.sorted_desc (fun a b => String.ltb (cycleDate a) (cycleDate b))
       (default [] (cycles_by_pairing_id !! p_id p))).

Definition calculate_discrepancies_app_for_bank_group : outcome :=
  match pairings with
  | [] => Returned ∅
  | first :: rest =>
      if forallb (same_bank first) rest
      then
        if Calendar.subtract_raises today months_back then DateError
        else Returned
               (fold_left (fun m p => <[p_id p := discrepancy_for p]> m) pairings ∅)
      else ValueError "All pairings in a bank group must share bank_vendor + bank_account_number"
  end.
End Group.

(** The ids that key the dictionaries of a date bucket. *)
Definition pairing_ids (pairings : list AccountPairing) : list Z :=
  remove_dups (List.map p_id pairings).

Definition amounts (rs : list repayment) : Z :=
  Py.sum (List.map (fun r => Z.abs (r_price r)) rs).

(** Over all pairings: the totals assigned, and the repayments assigned. *)
Definition assigned_sum (ids : list Z) (st : alloc_state) : Z :=
  Py.sum (List.map (fun k => default 0 (assigned_total_by_id st !! k)) ids).

Definition assigned_all (ids : list Z) (st : alloc_state) : list repayment :=
  concat (List.map (fun k => default [] (assigned_txns_by_id st !! k)) ids).

(** The bookkeeping of a date bucket after some repayments [seen]. *)
Definition books_balance (ids : list Z) (st : alloc_state) (seen : list repayment) : Prop :=
  Permutation (unassigned st ++ assigned_all ids st) seen
  /\ assigned_sum ids st = amounts seen - amounts (unassigned st)
  /\ forall k, In k ids ->
       default 0 (assigned_total_by_id st !! k)
       = amounts (default [] (assigned_txns_by_id st !! k)).

(** A property of every cycle filed under a pairing id. *)
Definition all_cycles (Q : Z -> cycle -> Prop) (m : gmap Z (list cycle)) : Prop :=
  forall k l c, m !! k = Some l -> In c l -> Q k c.

(** The shape of a cycle the allocator files under pairing [k]. *)
Definition allocated_shape (db : database) (today : Calendar.date)
    (pairings : list AccountPairing) (k : Z) (c : cycle) : Prop :=
  0 < bankTotal c
  /\ status c = grace_status today (earliest_of db pairings k) (cycleDate c)
                  (raw_status (bankTotal c) (ccTotal c)).

End Rounded.

End Allocator.

(** ** Bank account discoverer ([find_best_bank_account_app]) *)

Module Discoverer.
Import Store.

(** An entry of a group's ["transactions"] list. *)
Record txn_entry := mk_entry {
  e_identifier : string;
  e_name : string;
  e_price : Z;
  e_date : string
}.

Record group := mk_group {
  bankVendor : string;
  bankAccountNumber : option string;
  g_transactions : list txn_entry;
  matchingLast4Count : Z;
  matchingVendorCount : Z
}.

(** [f"{vendor}|{account_number or 'null'}"]. *)
Definition group_key (vendor : string) (account_number : option string) : string :=
  String.append vendor (String.append "|" (Py.str_or account_number "null")).

Definition has_last4 (cc_last4 : option string) (name : string) : bool :=
  match cc_last4 with
  | Some l => negb (String.eqb name "") && Text.contains l name
  | None => false
  end.

(** The body of [for row in rows] applied to the group of the row. *)
Definition record_row (cc_last4 : option string) (credit_card_vendor : string)
    (t : transaction) (g : group) : group :=
  let name := Py.str_or (t_name t) "" in
  {| bankVendor := bankVendor g;
     bankAccountNumber := bankAccountNumber g;
     g_transactions :=
       g_transactions g ++ [ {| e_identifier := t_identifier t; e_name := name;
                                e_price := t_price t; e_date := t_date t |} ];
     matchingLast4Count :=
       if has_last4 cc_last4 name then matchingLast4Count g + 1 else matchingLast4Count g;
     matchingVendorCount :=
       if Text.name_contains_vendor (Some name) (Some credit_card_vendor)
       then matchingVendorCount g + 1 else matchingVendorCount g |}.

Definition empty_group (t : transaction) : group :=
  {| bankVendor := t_vendor t; bankAccountNumber := t_account_number t;
     g_transactions := []; matchingLast4Count := 0; matchingVendorCount := 0 |}.

(** [groups.setdefault(key, ...)] and the update of that group; the
    dictionary keeps its insertion order. *)
Fixpoint add_row (cc_last4 : option string) (credit_card_vendor : string)
    (t : transaction) (groups : list (string * group)) : list (string * group) :=
  match groups with
  | [] =>
      [ (group_key (t_vendor t) (t_account_number t),
         record_row cc_last4 credit_card_vendor t (empty_group t)) ]
  | (k, g) :: rest =>
      if String.eqb k (group_key (t_vendor t) (t_account_number t))
      then (k, record_row cc_last4 credit_card_vendor t g) :: rest
      else (k, g) :: add_row cc_last4 credit_card_vendor t rest
  end.

Definition build_groups (cc_last4 : option string) (credit_card_vendor : string)
    (rows : list transaction) : list (string * group) :=
  fold_left (fun gs t => add_row cc_last4 credit_card_vendor t gs) rows [].

(** The sort key of a candidate. *)
Definition rank (g : group) : Z * Z * Z :=
  (matchingLast4Count g, matchingVendorCount g, Z.of_nat (List.length (g_transactions g))).

(** Python's order on tuples of three integers. *)
Definition rank_ltb (a b : Z * Z * Z) : bool :=
  let '(a1, a2, a3) := a in
  let '(b1, b2, b3) := b in
  (a1 <? b1) || ((a1 =? b1) && ((a2 <? b2) || ((a2 =? b2) && (a3 <? b3)))).

(** The same order as a proposition: [a] is not below [b]. *)
Definition rank_ge (a b : Z * Z * Z) : Prop :=
  let '(a1, a2, a3) := a in
  let '(b1, b2, b3) := b in
  b1 < a1 \/ (a1 = b1 /\ (b2 < a2 \/ (a2 = b2 /\ b3 <= a3))).

Definition referenced (g : group) : bool :=
  (0 <? matchingLast4Count g) || (0 <? matchingVendorCount g).

Definition candidates_of (groups : list (string * group)) : list group :=
  Py.sorted_desc (fun a b => rank_ltb (rank a) (rank b))
                 (List.filter referenced (List.map snd groups)).

Record sample := mk_sample { s_name : string; s_price : Z; s_date : string }.

(** The loop collecting at most three illustrative transactions. *)
Fixpoint sample_transactions (cc_last4 : option string) (credit_card_vendor : string)
    (txns : list txn_entry) (collected : nat) : list sample :=
  match txns with
  | [] => []
  | t :: rest =>
      let has_l4 := match cc_last4 with
                    | Some l => Text.contains l (e_name t)
                    | None => false
                    end in
      if negb (has_l4 || Text.name_contains_vendor (Some (e_name t)) (Some credit_card_vendor))
      then sample_transactions cc_last4 credit_card_vendor rest collected
      else
        {| s_name := e_name t; s_price := e_price t; s_date := e_date t |}
        :: (if (3 <=? S collected)%nat then []
            else sample_transactions cc_last4 credit_card_vendor rest (S collected))
  end.

Record other_candidate := mk_other {
  o_bankVendor : string;
  o_bankAccountNumber : option string;
  o_transactionCount : Z
}.

Record suggestion := mk_suggestion {
  s_bankVendor : string;
  s_bankAccountNumber : option string;
  transactionCount : Z;
  s_matchingLast4Count : Z;
  s_matchingVendorCount : Z;
  matchPatterns : list string;
  sampleTransactions : list sample;
  otherCandidates : list other_candidate
}.

Inductive outcome :=
| ValueError (message : string)
| NotFound (reason : string)
| Found (s : suggestion).

Definition found (o : outcome) : bool :=
  match o with Found _ => true | _ => false end.

(** [sorted(VENDOR_KEYWORDS.keys())]. *)
Definition cc_vendors : list string :=
  Py.sorted_asc String.ltb (List.map fst Text.VENDOR_KEYWORDS).

(** The candidate rows: outgoing repayment-category transactions of
    vendors that are not credit-card vendors, newest first. *)
Definition candidate_rows (db : database) (bank_vendor_filter bank_account_filter : option string)
    (limit : Z) : list transaction :=
  let selected :=
    List.filter
      (fun t =>
         negb (existsb (String.eqb (t_vendor t)) cc_vendors)
         && (if Py.truthy bank_vendor_filter
             then Py.opt_str_eqb (Some (t_vendor t)) bank_vendor_filter else true)
         && account_filter bank_account_filter t
         && (t_price t <? 0))
      (transactions db) in
  Py.sql_limit limit
    (Py.sorted_desc (fun a b => String.ltb (t_date a) (t_date b))
       (join_repayment_category db selected)).

(** An entry of ["otherCandidates"]. *)
Definition summary (c : group) : other_candidate :=
  {| o_bankVendor := bankVendor c;
     o_bankAccountNumber := bankAccountNumber c;
     o_transactionCount := Z.of_nat (List.length (g_transactions c)) |}.

(** [candidates[1:3]]. *)
Definition runner_ups (candidates : list group) : list group :=
  firstn 2 (skipn 1 candidates).

Definition find_best_bank_account_app (db : database) (credit_card_vendor : string)
    (credit_card_account_number : option string)
    (bank_vendor_filter bank_account_filter : option string) (limit : Z) : outcome :=
  if String.eqb credit_card_vendor "" then ValueError "credit_card_vendor is required"
  else
    let cc_last4 := Text.get_account_last4 credit_card_account_number in
    match candidate_rows db bank_vendor_filter bank_account_filter limit with
    | [] => NotFound "No bank repayment transactions found"
    | rows =>
        match candidates_of (build_groups cc_last4 credit_card_vendor rows) with
        | [] =>
            NotFound
              (String.append "No bank repayments reference this credit card (last4: "
                 (String.append (Py.str_or cc_last4 "unknown") ")"))
        | (best :: _) as candidates =>
            Found
              {| s_bankVendor := bankVendor best;
                 s_bankAccountNumber := bankAccountNumber best;
                 transactionCount := Z.of_nat (List.length (g_transactions best));
                 s_matchingLast4Count := matchingLast4Count best;
                 s_matchingVendorCount := matchingVendorCount best;
                 matchPatterns :=
                   Text.build_match_patterns credit_card_vendor credit_card_account_number;
                 sampleTransactions :=
                   sample_transactions cc_last4 credit_card_vendor (g_transactions best) 0;
                 otherCandidates :=
                   List.map
                     (fun c => {| o_bankVendor := bankVendor c;
                                  o_bankAccountNumber := bankAccountNumber c;
                                  o_transactionCount :=
                                    Z.of_nat (List.length (g_transactions c)) |})
                     (runner_ups candidates) |}
        end
    end.

End Discoverer.

(** ** Transaction-level matcher ([match_cc_transactions.py]) *)

Module Matcher.
Import Store.

Section Rounded.
Context {rnd : Amount.rounding}.

Inductive match_method := sauvage_payment | auto_chronological | carryover.

(** A row of the match ledger. *)
Record ExpenseMatch := mk_match {
  repayment_txn_id : string;
  repayment_vendor : string;
  repayment_date : Calendar.date;
  repayment_amount : Z;
  card_number : string;
  expense_txn_id : string;
  expense_vendor : string;
  expense_date : string;
  expense_amount : Z;
  expense_name : option string;
  match_confidence : Q;
  match_method_of : match_method
}.

(** The statistics dictionary returned next to the matches. *)
Inductive stats :=
| unknown_card
| no_expenses (period_start period_end : Calendar.date)
| sauvage_stats (matched_sum : Z)
| period_stats (matched_count : Z) (matched_sum : Z) (difference : Z) (perfect_match : bool)
    (period_start period_end : Calendar.date) (had_carryover : bool).

(** [pd.to_datetime] on the ISO timestamps the ledger stores: the calendar
    day they start with; [None] stands for the exception raised on text
    that is not a date. *)
Definition to_datetime (s : string) : option Calendar.date :=
  Calendar.fromisoformat (substr10 s).

(** How [sqlite3] binds a [datetime] parameter: [isoformat(" ")]. *)
Definition adapt_datetime (d : Calendar.date) (time : string) : string :=
  String.append (Calendar.isoformat d) (String.append " " time).

(** The pair [(card_number, cc_vendor)]; [(None, None)] when no active
    pairing has a pattern occurring in the description. *)
Fixpoint first_pattern_hit (pairings : list AccountPairing) (repayment_name : option string)
  : option string * option string :=
  match pairings with
  | [] => (None, None)
  | p :: rest =>
      match p_match_patterns p, repayment_name with
      | Some patterns, Some name =>
          if existsb (fun pattern => Text.contains pattern name) patterns
          then (credit_card_account_number p, Some (credit_card_vendor p))
          else first_pattern_hit rest repayment_name
      | _, _ => first_pattern_hit rest repayment_name
      end
  end.

Definition get_card_from_repayment_name (db : database) (repayment_name : option string)
  : option string * option string :=
  first_pattern_hit (List.filter is_active (account_pairings db)) repayment_name.

(** The [WHERE] clause shared by the look-back queries: an outgoing
    transaction of the card dated in [[from, to]] whose amount is
    strictly within [slack] of the repayment's. *)
Definition near_expense (cc_vendor card_number : string) (from to : string)
    (repayment_amount slack : Z) (t : transaction) : bool :=
  String.eqb (t_vendor t) cc_vendor
  && Py.opt_str_eqb (t_account_number t) (Some card_number)
  && (t_price t <? 0)
  && String.leb from (t_date t)
  && String.leb (t_date t) to
  && Amount.lt (Z.abs (Z.abs (t_price t) - repayment_amount)) slack.

Definition is_sauvage_repayment (db : database) (repayment_row : transaction)
    (card_number cc_vendor : string) : option bool :=
  let repayment_amount := Z.abs (t_price repayment_row) in
  repayment_date ← to_datetime (t_date repayment_row);
  if 15 <? Calendar.day repayment_date then Some true
  else
    let lookback_str := Calendar.isoformat (Calendar.minus_days repayment_date 7) in
    let repayment_str := Calendar.isoformat repayment_date in
    let count slack :=
      List.length
        (List.filter (near_expense cc_vendor card_number lookback_str repayment_str
                        repayment_amount slack)
                     (transactions db)) in
    if (100000 <? repayment_amount) && (0 <? Z.of_nat (count 500)) then Some true
    else Some (0 <? Z.of_nat (count 100)).

(** [identifier NOT IN (SELECT expense_txn_id FROM
    credit_card_expense_matches WHERE expense_vendor = ?)]. *)
Definition not_persisted (db : database) (cc_vendor : string) (t : transaction) : bool :=
  negb (existsb
          (fun m => String.eqb (pm_expense_vendor m) cc_vendor
                    && String.eqb (pm_expense_txn_id m) (t_identifier t))
          (credit_card_expense_matches db)).

Definition check_immediate_payment (db : database) (repayment_amount : Z)
    (repayment_date : Calendar.date) (cc_vendor card_number : string) : option transaction :=
  let lookback_date_str := Calendar.isoformat (Calendar.minus_days repayment_date 7) in
  let repayment_date_str := Calendar.isoformat repayment_date in
  match Py.sorted_desc (fun a b => String.ltb (t_date a) (t_date b))
          (List.filter
             (fun t => near_expense cc_vendor card_number lookback_date_str
                         repayment_date_str repayment_amount 100 t
                       && not_persisted db cc_vendor t)
             (transactions db)) with
  | t :: _ => Some t
  | [] => None
  end.

(** The first and the last day of the calendar month before the
    repayment's. *)
Definition get_billing_period (payment_date : Calendar.date) : Calendar.date * Calendar.date :=
  let billing_month :=
    if Calendar.month payment_date =? 1 then 12 else Calendar.month payment_date - 1 in
  let billing_year :=
    if Calendar.month payment_date =? 1 then Calendar.year payment_date - 1
    else Calendar.year payment_date in
  let period_start := Calendar.mkdate billing_year billing_month 1 in
  let period_end :=
    if billing_month =? 12 then Calendar.mkdate billing_year 12 31
    else Calendar.minus_days (Calendar.mkdate billing_year (billing_month + 1) 1) 1 in
  (period_start, period_end).

Definition filter_already_matched (expenses : list transaction)
    (already_matched_expenses : gset (string * string)) : list transaction :=
  if decide (already_matched_expenses = ∅) then expenses
  else List.filter
         (fun t => bool_decide ((t_identifier t, t_vendor t) ∉ already_matched_expenses))
         expenses.

Definition TOLERANCE : Z := 200.

(** [ORDER BY date ASC, name ASC]; NULL names sort first. *)
Definition date_name_ltb (a b : transaction) : bool :=
  String.ltb (t_date a) (t_date b)
  || (String.eqb (t_date a) (t_date b)
      && match t_name a, t_name b with
         | None, Some _ => true
         | Some x, Some y => String.ltb x y
         | _, _ => false
         end).

(** The loop state of the greedy accumulation. *)
Record progress := mk_progress {
  running_sum : Z;
  matches : list ExpenseMatch
}.

(** [for idx, expense in expenses.iterrows()]: an expense is taken when it
    keeps the running sum within the repayment plus the tolerance; the
    loop ends once the sum is within the tolerance of the repayment. *)
Fixpoint accumulate (make : transaction -> ExpenseMatch) (repayment_amount : Z)
    (expenses : list transaction) (st : progress) : progress :=
  match expenses with
  | [] => st
  | expense :: rest =>
      let expense_amount := Z.abs (t_price expense) in
      if Amount.le (running_sum st + expense_amount) (repayment_amount + TOLERANCE)
      then
        let st' := {| running_sum := running_sum st + expense_amount;
                      matches := matches st ++ [make expense] |} in
        if Amount.le (Z.abs (running_sum st' - repayment_amount)) TOLERANCE then st'
        else accumulate make repayment_amount rest st'
      else accumulate make repayment_amount rest st
  end.

Definition matched_sum_of (ms : list ExpenseMatch) : Z :=
  Py.sum (List.map expense_amount ms).

Section Repayment.
Variable db : database.
Variable repayment_row : transaction.
Variable already_matched_expenses : gset (string * string).
Variable max_lookback_days : Z.

Definition make_match (repayment_date : Calendar.date) (card : string)
    (method : match_method) (expense : transaction) : ExpenseMatch :=
  {| repayment_txn_id := t_identifier repayment_row;
     repayment_vendor := "discount";
     repayment_date := repayment_date;
     repayment_amount := Z.abs (t_price repayment_row);
     card_number := card;
     expense_txn_id := t_identifier expense;
     expense_vendor := t_vendor expense;
     expense_date := t_date expense;
     expense_amount := Z.abs (t_price expense);
     expense_name := t_name expense;
     match_confidence := 1%Q;
     match_method_of := method |}.

(** The card's outgoing transactions that the persisted table does not
    list, for the window test [in_window]. *)
Definition unmatched_expenses (cc_vendor card : string) (in_window : string -> bool)
  : list transaction :=
  List.filter
    (fun t =>
       String.eqb (t_vendor t) cc_vendor
       && Py.opt_str_eqb (t_account_number t) (Some card)
       && (t_price t <? 0)
       && in_window (t_date t)
       && not_persisted db cc_vendor t)
    (transactions db).

(** Steps 2 and 3: billing-period matching, then carryover. *)
Definition match_period (repayment_date : Calendar.date) (cc_vendor card : string)
  : list ExpenseMatch * stats :=
  let repayment_amount := Z.abs (t_price repayment_row) in
  let '(period_start, period_end) := get_billing_period repayment_date in
  let expenses :=
    filter_already_matched
      (Py.sorted_asc date_name_ltb
         (unmatched_expenses cc_vendor card
            (fun d => String.leb (adapt_datetime period_start "00:00:00") d
                      && String.leb d (adapt_datetime period_end "23:59:59"))))
      already_matched_expenses in
  match expenses with
  | [] => ([], no_expenses period_start period_end)
  | _ =>
      let st1 :=
        accumulate (make_match repayment_date card auto_chronological) repayment_amount
                   expenses {| running_sum := 0; matches := [] |} in
      let difference := repayment_amount - matched_sum_of (matches st1) in
      let st2 :=
        if Amount.gt difference TOLERANCE then
          let temporal_limit := Calendar.minus_days repayment_date max_lookback_days in
          let three_months_back := Calendar.minus_days period_start 90 in
          let lookback_start :=
            if Calendar.toordinal three_months_back <? Calendar.toordinal temporal_limit
            then temporal_limit else three_months_back in
          let carryover_expenses :=
            filter_already_matched
              (Py.sorted_asc (fun a b => String.ltb (t_date a) (t_date b))
                 (unmatched_expenses cc_vendor card
                    (fun d => String.leb (Calendar.isoformat lookback_start) d
                              && String.ltb d (Calendar.isoformat period_start))))
              already_matched_expenses in
          accumulate (make_match repayment_date card carryover) repayment_amount
                     carryover_expenses st1
        else st1 in
      let matched_sum := matched_sum_of (matches st2) in
      let difference := repayment_amount - matched_sum in
      (matches st2,
       period_stats (Z.of_nat (List.length (matches st2))) matched_sum difference
         (Amount.le (Z.abs difference) TOLERANCE) period_start period_end
         (existsb (fun m => match match_method_of m with carryover => true | _ => false end)
                  (matches st2)))
  end.

(** [None] stands for the exception of [pd.to_datetime]. *)
Definition match_repayment_to_expenses : option (list ExpenseMatch * stats) :=
  let repayment_amount := Z.abs (t_price repayment_row) in
  match to_datetime (t_date repayment_row) with
  | None => None
  | Some repayment_date =>
      match get_card_from_repayment_name db (t_name repayment_row) with
      | (Some card, Some cc_vendor) =>
          if String.eqb card "" then Some ([], unknown_card)
          else
            match is_sauvage_repayment db repayment_row card cc_vendor with
            | None => None
            | Some is_sauvage =>
                match (if is_sauvage : bool
                       then check_immediate_payment db repayment_amount repayment_date
                              cc_vendor card
                       else None) with
                | Some immediate_match =>
                    Some ([make_match repayment_date card sauvage_payment immediate_match],
                          sauvage_stats (Z.abs (t_price immediate_match)))
                | None => Some (match_period repayment_date cc_vendor card)
                end
            end
      | _ => Some ([], unknown_card)
      end
  end.
End Repayment.

(** The repayments the driver analyses, oldest first. *)
Definition repayments_query (db : database) (cutoff_date : string) : list transaction :=
  Py.sorted_asc (fun a b => String.ltb (t_date a) (t_date b))
    (flat_map
       (fun t =>
          List.map (fun _ => t)
            (List.filter
               (fun cd =>
                  match t_category_definition_id t with
                  | Some c => (cd_id cd =? c)
                              && Py.opt_str_eqb (cd_name cd) (Some "פרעון כרטיס אשראי")
                  | None => false
                  end)
               (category_definitions db)))
       (List.filter
          (fun t => String.eqb (t_status t) "completed" && String.leb cutoff_date (t_date t))
          (transactions db))).

(** The test that sends a repayment to the sauvage phase. *)
Definition goes_sauvage (db : database) (repayment : transaction) : option bool :=
  match get_card_from_repayment_name db (t_name repayment) with
  | (Some card, Some cc_vendor) =>
      if String.eqb card "" then Some false
      else is_sauvage_repayment db repayment card cc_vendor
  | _ => Some false
  end.

Fixpoint partition_repayments (db : database) (repayments : list transaction)
  : option (list transaction * list transaction) :=
  match repayments with
  | [] => Some ([], [])
  | r :: rest =>
      match goes_sauvage db r, partition_repayments db rest with
      | Some s, Some (sauvage, monthly) =>
          Some (if s then (r :: sauvage, monthly) else (sauvage, r :: monthly))
      | _, _ => None
      end
  end.

(** The state the two phases of [main] thread through their loops. *)
Record run_state := mk_run {
  all_matches : list ExpenseMatch;
  matched_expenses : gset (string * string)
}.

Definition track (matched : gset (string * string)) (ms : list ExpenseMatch)
  : gset (string * string) :=
  fold_left (fun s m => {[ (expense_txn_id m, expense_vendor m) ]} ∪ s) ms matched.

Fixpoint process (db : database) (max_lookback_days : Z) (repayments : list transaction)
    (st : run_state) : option run_state :=
  match repayments with
  | [] => Some st
  | r :: rest =>
      match match_repayment_to_expenses db r (matched_expenses st) max_lookback_days with
      | Some (ms, _) =>
          process db max_lookback_days rest
            {| all_matches := all_matches st ++ ms;
               matched_expenses := track (matched_expenses st) ms |}
      | None => None
      end
  end.

(** The matching phases of [main]: sauvage repayments smallest first with
    a 365-day look-back, then the others newest first with 90 days. *)
Definition run (db : database) : option (list ExpenseMatch) :=
  let repayments := repayments_query db "2025-10-01" in
  match partition_repayments db repayments with
  | Some (sauvage, monthly) =>
      let sauvage_repayments :=
        Py.sorted_asc (fun a b => Z.abs (t_price a) <? Z.abs (t_price b)) sauvage in
      let monthly_repayments :=
        Py.sorted_desc (fun a b => String.ltb (t_date a) (t_date b)) monthly in
      st1 ← process db 365 sauvage_repayments {| all_matches := []; matched_expenses := ∅ |};
      st2 ← process db 90 monthly_repayments st1;
      Some (all_matches st2)
  | None => None
  end.

End Rounded.

End Matcher.

(** ** Sample ledgers used to exercise the functions *)

Module Examples.
Import Store.

Section Rounded.
Context {rnd : Amount.rounding}.

Definition repayment_category_row : category_definition :=
  mk_category 1 (Some "פרעון כרטיס אשראי") (Some "Credit Card Repayment") None.

Definition groceries_category_row : category_definition :=
  mk_category 2 None (Some "Groceries") None.

Definition completed (id vendor : string) (account : option string) (date name : string)
    (price : Z) (category : Z) : transaction :=
  mk_transaction id vendor account date None (Some name) price "completed" (Some category).

(** Three monthly repayments of card visaCal 1456 from one bank account:
    billed 3,500.00 each month, repaid 3,500.00, 3,620.00 and 3,900.00. *)
Definition ledger_cycles : database :=
  mk_database
    [ completed "r1" "discount" (Some "0162490242") "2025-11-09T22:00:00.000Z"
                "visa cal 1456" (-350000) 1;
      completed "r2" "discount" (Some "0162490242") "2025-10-09T22:00:00.000Z"
                "visa cal 1456" (-362000) 1;
      completed "r3" "discount" (Some "0162490242") "2025-09-09T22:00:00.000Z"
                "visa cal 1456" (-390000) 1;
      completed "e1" "visaCal" (Some "1456") "2025-11-09T10:00:00.000Z" "shop" (-350000) 2;
      completed "e2" "visaCal" (Some "1456") "2025-10-09T10:00:00.000Z" "shop" (-350000) 2;
      completed "e3" "visaCal" (Some "1456") "2025-09-09T10:00:00.000Z" "shop" (-350000) 2;
      completed "e0" "visaCal" (Some "1456") "2025-06-09T10:00:00.000Z" "shop" (-350000) 2 ]
    [repayment_category_row; groceries_category_row] [] true [].

Definition today_december : Calendar.date := Calendar.mkdate 2025 12 20.

(** The October cycle of that ledger, as both functions report it. *)
Definition october_cycle : Classifier.cycle :=
  {| Classifier.cycleDate := "2025-10-09";
     Classifier.bankTotal := 362000;
     Classifier.ccTotal := Some 350000;
     Classifier.difference := Some 12000;
     Classifier.repayments :=
       [ {| Classifier.r_identifier := "r2";
            Classifier.r_vendor := "discount";
            Classifier.r_accountNumber := Some "0162490242";
            Classifier.r_date := "2025-10-09T22:00:00.000Z";
            Classifier.r_cycleDate := "2025-10-09";
            Classifier.r_name := "visa cal 1456";
            Classifier.r_price := -362000 |} ];
     Classifier.status := Classifier.fee_candidate;
     Classifier.matchedAccount := Some "1456" |}.

Definition pairing_cal : AccountPairing :=
  mk_pairing 7 "visaCal" (Some "1456") "discount" (Some "0162490242") (Some ["1456"]) true false.

Definition pairing_max : AccountPairing :=
  mk_pairing 8 "max" (Some "9921") "discount" (Some "0162490242") (Some ["9921"]) true false.

(** A pairing that names no card account: one repayment of 1,000.00
    mentioning "max", and 500.00 billed by max card 9921 that day. *)
Definition ledger_no_account : database :=
  mk_database
    [ completed "b1" "discount" (Some "0162490242") "2025-09-10T22:00:00.000Z"
                "max it finance" (-100000) 1;
      completed "m1" "max" (Some "9921") "2025-09-10T08:00:00.000Z" "store" (-50000) 2;
      completed "m0" "max" (Some "9921") "2025-05-01T08:00:00.000Z" "store" (-1000) 2 ]
    [repayment_category_row; groceries_category_row] [] true [].

Definition september_cycle : Classifier.cycle :=
  {| Classifier.cycleDate := "2025-09-10";
     Classifier.bankTotal := 100000;
     Classifier.ccTotal := None;
     Classifier.difference := None;
     Classifier.repayments :=
       [ {| Classifier.r_identifier := "b1";
            Classifier.r_vendor := "discount";
            Classifier.r_accountNumber := Some "0162490242";
            Classifier.r_date := "2025-09-10T22:00:00.000Z";
            Classifier.r_cycleDate := "2025-09-10";
            Classifier.r_name := "max it finance";
            Classifier.r_price := -100000 |} ];
     Classifier.status := Classifier.missing_cc_cycle;
     Classifier.matchedAccount := None |}.

Definition december_discrepancy : Classifier.discrepancy :=
  Eval vm_compute in
    match Classifier.calculate_discrepancy_app ledger_cycles today_december None "discount"
            (Some "0162490242") "visaCal" (Some "1456") 6 500 with
    | Classifier.Discrepancy d => d
    | _ => Classifier.aggregate false 0 []
    end.

Definition no_account_discrepancy : Classifier.discrepancy :=
  Eval vm_compute in
    match Classifier.calculate_discrepancy_app ledger_no_account today_december None
            "discount" (Some "0162490242") "max" None 6 500 with
    | Classifier.Discrepancy d => d
    | _ => Classifier.aggregate false 0 []
    end.

(** A card paired with another bank account. *)
Definition pairing_elsewhere : AccountPairing :=
  mk_pairing 9 "isracard" (Some "5512") "leumi" (Some "778899") (Some ["5512"]) true false.

(** A monthly repayment of 1,000.00 on 9 November and the card's October
    purchases of 400.00, 300.00, 500.00 and 299.00. *)
Definition ledger_monthly : database :=
  mk_database
    [ completed "p1" "discount" (Some "0162490242") "2025-11-09T22:00:00.000Z"
                "visa cal 1456" (-100000) 1;
      completed "x1" "visaCal" (Some "1456") "2025-10-03T21:00:00.000Z" "bakery" (-40000) 2;
      completed "x2" "visaCal" (Some "1456") "2025-10-10T21:00:00.000Z" "fuel" (-30000) 2;
      completed "x3" "visaCal" (Some "1456") "2025-10-15T21:00:00.000Z" "garage" (-50000) 2;
      completed "x4" "visaCal" (Some "1456") "2025-10-20T21:00:00.000Z" "market" (-29900) 2 ]
    [repayment_category_row; groceries_category_row] [pairing_cal] true [].

Definition monthly_repayment : transaction :=
  completed "p1" "discount" (Some "0162490242") "2025-11-09T22:00:00.000Z"
            "visa cal 1456" (-100000) 1.

(** A repayment of 1,200.00 on the 20th and one purchase of 1,199.50 two
    days earlier. *)
Definition sauvage_repayment : transaction :=
  completed "s1" "discount" (Some "0162490242") "2025-11-20T22:00:00.000Z"
            "visa cal 1456" (-120000) 1.

Definition sauvage_expense : transaction :=
  completed "e1" "visaCal" (Some "1456") "2025-11-18T22:00:00.000Z" "laptop" (-119950) 2.

Definition ledger_sauvage : database :=
  mk_database [sauvage_repayment; sauvage_expense]
    [repayment_category_row; groceries_category_row] [pairing_cal] true [].

(** The same repayment with a purchase of 1,201.00: exactly 1.00 apart. *)
Definition ledger_one_apart : database :=
  mk_database
    [ sauvage_repayment;
      completed "e2" "visaCal" (Some "1456") "2025-11-18T22:00:00.000Z" "laptop" (-120100) 2 ]
    [repayment_category_row; groceries_category_row] [pairing_cal] true [].

(** Two repayments, of 1,200.00 on the 20th and 1,200.40 on the 21st, and a
    single purchase of 1,199.90 on the 18th. *)
Definition ledger_two_repayments : database :=
  mk_database
    [ sauvage_repayment;
      completed "s2" "discount" (Some "0162490242") "2025-11-21T22:00:00.000Z"
                "visa cal 1456" (-120040) 1;
      completed "e3" "visaCal" (Some "1456") "2025-11-18T22:00:00.000Z" "laptop" (-119990) 2 ]
    [repayment_category_row; groceries_category_row] [pairing_cal] true [].

Definition october_expenses : list transaction :=
  [ completed "x1" "visaCal" (Some "1456") "2025-10-03T21:00:00.000Z" "bakery" (-40000) 2;
    completed "x2" "visaCal" (Some "1456") "2025-10-10T21:00:00.000Z" "fuel" (-30000) 2;
    completed "x3" "visaCal" (Some "1456") "2025-10-15T21:00:00.000Z" "garage" (-50000) 2;
    completed "x4" "visaCal" (Some "1456") "2025-10-20T21:00:00.000Z" "market" (-29900) 2 ].

Definition monthly_matches : list Matcher.ExpenseMatch :=
  Eval vm_compute in
    match Matcher.match_repayment_to_expenses ledger_monthly monthly_repayment ∅ 90 with
    | Some (ms, _) => ms
    | None => []
    end.

Definition monthly_stats : Matcher.stats :=
  Eval vm_compute in
    match Matcher.match_repayment_to_expenses ledger_monthly monthly_repayment ∅ 90 with
    | Some (_, st) => st
    | None => Matcher.unknown_card
    end.

(** The ledger row matching [sauvage_expense] to [sauvage_repayment]. *)
Definition sauvage_match : Matcher.ExpenseMatch :=
  Matcher.make_match sauvage_repayment (Calendar.mkdate 2025 11 20) "1456"
    Matcher.sauvage_payment sauvage_expense.

Definition one_apart_expense : transaction :=
  completed "e2" "visaCal" (Some "1456") "2025-11-18T22:00:00.000Z" "laptop" (-120100) 2.

Definition october_repayment : Classifier.repayment :=
  {| Classifier.r_identifier := "r2";
     Classifier.r_vendor := "discount";
     Classifier.r_accountNumber := Some "0162490242";
     Classifier.r_date := "2025-10-09T22:00:00.000Z";
     Classifier.r_cycleDate := "2025-10-09";
     Classifier.r_name := "visa cal 1456";
     Classifier.r_price := -362000 |}.

(** Six days after the October repayment. *)
Definition today_october : Calendar.date := Calendar.mkdate 2025 10 15.

Definition october_outcome : Allocator.outcome :=
  Allocator.calculate_discrepancies_app_for_bank_group
    ledger_cycles today_october [pairing_cal; pairing_max] 6 2000.

Definition group_outcome : Allocator.outcome :=
  Allocator.calculate_discrepancies_app_for_bank_group
    ledger_cycles today_december [pairing_cal; pairing_max] 6 2000.

End Rounded.

End Examples.

(** ** The modes of the lab script ([run_app_mode]) *)

Module Driver.
Import Store.
Import Classifier.

Section Rounded.
Context {rnd : Amount.rounding}.

(** A key of [pairings_by_bank]. *)
Definition bank_key (p : AccountPairing) : string * option string :=
  (bank_vendor p, bank_account_number p).

Definition bank_key_eqb (a b : string * option string) : bool :=
  String.eqb (fst a) (fst b) && Py.opt_str_eqb (snd a) (snd b).

(** [pairings_by_bank[(bank_vendor, bank_account_number)].append(pairing)]
    on a [defaultdict(list)], which keeps its keys in insertion order. *)
Fixpoint add_to_bank (p : AccountPairing)
    (groups : list ((string * option string) * list AccountPairing))
  : list ((string * option string) * list AccountPairing) :=
  match groups with
  | [] => [(bank_key p, [p])]
  | (k, g) :: rest =>
      if bank_key_eqb k (bank_key p) then (k, (g ++ [p])%list) :: rest
      else (k, g) :: add_to_bank p rest
  end.

Definition pairings_by_bank (pairings : list AccountPairing)
  : list ((string * option string) * list AccountPairing) :=
  fold_left (fun groups p => add_to_bank p groups) pairings [].

(** [for group in pairings_by_bank.values(): discrepancies_by_id.update(...)];
    a [ValueError] of the allocator ends the run. *)
Fixpoint discrepancies_by_id (db : database) (today : Calendar.date) (months : Z)
    (groups : list (list AccountPairing)) (acc : gmap Z discrepancy) : Allocator.outcome :=
  match groups with
  | [] => Allocator.Returned acc
  | group :: rest =>
      match Allocator.calculate_discrepancies_app_for_bank_group db today group months 2000 with
      | Allocator.ValueError message => Allocator.ValueError message
      | Allocator.DateError => Allocator.DateError
      | Allocator.Returned ds => discrepancies_by_id db today months rest (ds ∪ acc)
      end
  end.

(** Where the discrepancy printed for a pairing comes from. *)
Inductive report :=
| Allocated (d : discrepancy)
| Single (r : result).

(** [discrepancies.get(pairing.id) or calculate_discrepancy_app(...)]; a
    discrepancy dictionary is never empty, hence truthy. *)
Definition report_for (db : database) (today : Calendar.date) (months : Z)
    (discrepancies : gmap Z discrepancy) (pairing : AccountPairing) : report :=
  match discrepancies !! p_id pairing with
  | Some d => Allocated d
  | None =>
      Single (calculate_discrepancy_app db today (Some (p_id pairing)) (bank_vendor pairing)
                (bank_account_number pairing) (credit_card_vendor pairing)
                (credit_card_account_number pairing) months 500)
  end.

(** The mode without [--pairing-id] and [--cc]: every listed pairing;
    [None] stands for an exception that ends the run. *)
Definition run_all_pairings (db : database) (today : Calendar.date) (months : Z)
    (pairings : list AccountPairing) : option (list (AccountPairing * report)) :=
  match discrepancies_by_id db today months (List.map snd (pairings_by_bank pairings)) ∅ with
  | Allocator.ValueError _ | Allocator.DateError => None
  | Allocator.Returned by_id =>
      Some (List.map (fun p => (p, report_for db today months by_id p)) pairings)
  end.

(** [group_pairings] of the [--pairing-id] mode. *)
Definition group_pairings (all_pairings : list AccountPairing) (pairing : AccountPairing)
  : list AccountPairing :=
  let group :=
    List.filter
      (fun p => String.eqb (bank_vendor p) (bank_vendor pairing)
                && Py.opt_str_eqb (bank_account_number p) (bank_account_number pairing)
                && (is_active p || (p_id p =? p_id pairing)))
      all_pairings in
  if existsb (fun p => p_id pairing =? p_id p) group then group
  else (group ++ [pairing])%list.

Definition run_one_pairing (db : database) (today : Calendar.date) (months : Z)
    (all_pairings : list AccountPairing) (pairing : AccountPairing) : option report :=
  match Allocator.calculate_discrepancies_app_for_bank_group db today
          (group_pairings all_pairings pairing) months 2000 with
  | Allocator.ValueError _ | Allocator.DateError => None
  | Allocator.Returned ds => Some (report_for db today months ds pairing)
  end.

End Rounded.

End Driver.

(** ** Predicates used to state further properties *)

Module Facts.
Import Store.

Section Rounded.
Context {rnd : Amount.rounding}.

(** An active pairing one of whose patterns occurs in the description. *)
Definition pattern_hit (name : string) (p : AccountPairing) : bool :=
  is_active p
  && match p_match_patterns p with
     | Some patterns => existsb (fun pattern => Text.contains pattern name) patterns
     | None => false
     end.

(** The key under which the run remembers a consumed expense. *)
Definition match_key (m : Matcher.ExpenseMatch) : string * string :=
  (Matcher.expense_txn_id m, Matcher.expense_vendor m).

Definition row_key (t : transaction) : string * string :=
  (t_identifier t, t_vendor t).

(** The billing-period window of the expenses query, on the date text. *)
Definition in_period (period_start period_end : Calendar.date) (d : string) : bool :=
  String.leb (Matcher.adapt_datetime period_start "00:00:00") d
  && String.leb d (Matcher.adapt_datetime period_end "23:59:59").

Definition date_eqb (a b : Calendar.date) : bool :=
  (Calendar.year a =? Calendar.year b)
  && (Calendar.month a =? Calendar.month b)
  && (Calendar.day a =? Calendar.day b).

(** The billing period of a payment made in month [m] of year [y] is the
    calendar month before: it starts on the 1st, ends on that month's last
    day, and the day after its end is the 1st of the payment's month. *)
Definition billing_period_ok (y m : Z) : bool :=
  let '(period_start, period_end) := Matcher.get_billing_period (Calendar.mkdate y m 1) in
  date_eqb period_start
    (if m =? 1 then Calendar.mkdate (y - 1) 12 1 else Calendar.mkdate y (m - 1) 1)
  && date_eqb period_end
       (Calendar.mkdate (Calendar.year period_start) (Calendar.month period_start)
          (Calendar.days_in_month (Calendar.year period_start) (Calendar.month period_start)))
  && (Calendar.toordinal period_end + 1 =? Calendar.toordinal (Calendar.mkdate y m 1)).

(** The same day 400 years later. *)
Definition later400 (d : Calendar.date) : Calendar.date :=
  Calendar.mkdate (Calendar.year d + 400) (Calendar.month d) (Calendar.day d).

(** Matches found so far: every one is tracked, and a match that is not a
    sauvage payment never repeats the expense of a match before it. *)
Definition run_invariant (st : Matcher.run_state) : Prop :=
  (forall m, In m (Matcher.all_matches st) -> match_key m ∈ Matcher.matched_expenses st)
  /\ forall i j m' m,
       (i < j)%nat -> Matcher.all_matches st !! i = Some m' -> Matcher.all_matches st !! j = Some m ->
       Matcher.match_method_of m <> Matcher.sauvage_payment -> match_key m' <> match_key m.

(** The carryover window of a repayment: from the later of 90 days before
    the billing period and [max_lookback_days] before the repayment, up to
    but excluding the first day of the billing period. *)
Definition in_carryover (repayment_date period_start : Calendar.date) (max_lookback_days : Z)
    (d : string) : bool :=
  let temporal_limit := Calendar.minus_days repayment_date max_lookback_days in
  let three_months_back := Calendar.minus_days period_start 90 in
  let lookback_start :=
    if Calendar.toordinal three_months_back <? Calendar.toordinal temporal_limit
    then temporal_limit else three_months_back in
  String.leb (Calendar.isoformat lookback_start) d
  && String.ltb d (Calendar.isoformat period_start).

(** What holds of every group of the discoverer: it carries the bank
    identity of a row satisfying [P], its two counters count transactions of
    the group, and a positive counter has a transaction to show for it. *)
Definition group_sound (P : transaction -> Prop) (cc_last4 : option string)
    (credit_card_vendor : string) (g : Discoverer.group) : Prop :=
  (exists t, P t /\ t_vendor t = Discoverer.bankVendor g
             /\ t_account_number t = Discoverer.bankAccountNumber g)
  /\ 0 <= Discoverer.matchingLast4Count g <= Z.of_nat (List.length (Discoverer.g_transactions g))
  /\ 0 <= Discoverer.matchingVendorCount g <= Z.of_nat (List.length (Discoverer.g_transactions g))
  /\ (0 < Discoverer.matchingLast4Count g ->
      exists e, In e (Discoverer.g_transactions g)
                /\ Discoverer.has_last4 cc_last4 (Discoverer.e_name e) = true)
  /\ (0 < Discoverer.matchingVendorCount g ->
      exists e, In e (Discoverer.g_transactions g)
                /\ Text.name_contains_vendor (Some (Discoverer.e_name e))
                     (Some credit_card_vendor) = true).

(** The rows [get_cc_earliest_cycle_date] takes the minimum over: completed
    outgoing rows of the card, on the account when one is given, outside
    the card-fees category when that category is known. *)
Definition counts_for_earliest (cc_vendor : string) (cc_account_number : option string)
    (cc_fees_category_id : option Z) (t : transaction) : bool :=
  String.eqb (t_vendor t) cc_vendor
  && String.eqb (t_status t) "completed"
  && (t_price t <? 0)
  && account_filter cc_account_number t
  && match cc_fees_category_id with
     | Some f =>
         match t_category_definition_id t with
         | Some c => negb (c =? f)
         | None => true
         end
     | None => true
     end.

(** [e] is the first billing day of the card: the billing day of a row
    [get_cc_earliest_cycle_date] counts, which none of those rows precedes. *)
Definition first_billing_day (db : database) (cc_vendor : string)
    (cc_account_number : option string) (e : Calendar.date) : Prop :=
  let counts :=
    counts_for_earliest cc_vendor cc_account_number (get_cc_fees_category_id db) in
  exists first,
    In first (transactions db) /\ counts first = true
    /\ Calendar.fromisoformat (billing_day first) = Some e
    /\ forall t, In t (transactions db) -> counts t = true ->
                 String.leb (billing_day first) (billing_day t) = true.

(** The rows the look-back queries of the matcher range over: outgoing
    transactions of the card dated, as text, between the ISO day seven days
    before the repayment and the repayment's ISO day. *)
Definition in_lookback (cc_vendor card : string) (repayment_date : Calendar.date)
    (t : transaction) : Prop :=
  t_vendor t = cc_vendor
  /\ t_account_number t = Some card
  /\ t_price t < 0
  /\ String.leb (Calendar.isoformat (Calendar.minus_days repayment_date 7)) (t_date t) = true
  /\ String.leb (t_date t) (Calendar.isoformat repayment_date) = true.

(** The order of the discoverer's ranking, on the fields themselves: [a]
    does not come below [b] when it has more descriptions with the card's
    last four digits, or as many and more with a vendor keyword, or as many
    of both and at least as many transactions. *)
Definition ranks_no_lower (a b : Discoverer.group) : Prop :=
  Discoverer.matchingLast4Count b < Discoverer.matchingLast4Count a
  \/ (Discoverer.matchingLast4Count a = Discoverer.matchingLast4Count b
      /\ (Discoverer.matchingVendorCount b < Discoverer.matchingVendorCount a
          \/ (Discoverer.matchingVendorCount a = Discoverer.matchingVendorCount b
              /\ (List.length (Discoverer.g_transactions b)
                  <= List.length (Discoverer.g_transactions a))%nat))).

(** A row the discoverer's query selects: an outgoing transaction of the
    ledger, of a vendor that is not a credit-card vendor, passing the bank
    filters given, whose category is a card-repayment category. *)
Definition bank_repayment_row (db : database) (bank_vendor_filter bank_account_filter : option string)
    (t : transaction) : Prop :=
  In t (transactions db)
  /\ t_price t < 0
  /\ ~ In (t_vendor t) (List.map fst Text.VENDOR_KEYWORDS)
  /\ (Py.truthy bank_vendor_filter = true -> bank_vendor_filter = Some (t_vendor t))
  /\ (Py.truthy bank_account_filter = true -> t_account_number t = bank_account_filter)
  /\ exists cd, In cd (category_definitions db)
                /\ t_category_definition_id t = Some (cd_id cd)
                /\ repayment_category cd = true.

(** What the discoverer keeps of a row. *)
Definition entry_of (t : transaction) : Discoverer.txn_entry :=
  {| Discoverer.e_identifier := t_identifier t;
     Discoverer.e_name := Py.str_or (t_name t) "";
     Discoverer.e_price := t_price t;
     Discoverer.e_date := t_date t |}.

Definition row_group_key (t : transaction) : string :=
  Discoverer.group_key (t_vendor t) (t_account_number t).

(** The rows that fall into a group: those whose vendor and account number
    give the key of the group's. *)
Definition rows_of (rows : list transaction) (g : Discoverer.group) : list transaction :=
  List.filter
    (fun t => String.eqb (row_group_key t)
                (Discoverer.group_key (Discoverer.bankVendor g) (Discoverer.bankAccountNumber g)))
    rows.

(** A group holds its rows in their order, carries the bank identity of the
    first of them, and its two counters count the descriptions that hold
    the card's last four digits and those that hold a keyword of the card's
    vendor. *)
Definition group_counts (cc_last4 : option string) (credit_card_vendor : string)
    (rows : list transaction) (g : Discoverer.group) : Prop :=
  (exists first rest,
      rows_of rows g = first :: rest
      /\ Discoverer.bankVendor g = t_vendor first
      /\ Discoverer.bankAccountNumber g = t_account_number first)
  /\ Discoverer.g_transactions g = List.map entry_of (rows_of rows g)
  /\ Discoverer.matchingLast4Count g
     = Z.of_nat (List.length
                   (List.filter
                      (fun t => Discoverer.has_last4 cc_last4 (Py.str_or (t_name t) ""))
                      (rows_of rows g)))
  /\ Discoverer.matchingVendorCount g
     = Z.of_nat (List.length
                   (List.filter
                      (fun t => Text.name_contains_vendor (Some (Py.str_or (t_name t) ""))
                                  (Some credit_card_vendor))
                      (rows_of rows g))).

End Rounded.

End Facts.

Module Samples.
Import Store.

Section Rounded.
Context {rnd : Amount.rounding}.

(** A repayment of 1,000.00 on 9 November and three purchases in October of
    400.00, 700.00 and 300.00: the second does not fit after the first. *)
Definition short_repayment : transaction :=
  Examples.completed "q1" "discount" (Some "0162490242") "2025-11-09T22:00:00.000Z"
    "visa cal 1456" (-100000) 1.

Definition large_purchase : transaction :=
  Examples.completed "y2" "visaCal" (Some "1456") "2025-10-10T21:00:00.000Z" "garage" (-70000) 2.

Definition ledger_short : database :=
  mk_database
    [ short_repayment;
      Examples.completed "y1" "visaCal" (Some "1456") "2025-10-03T21:00:00.000Z" "bakery"
        (-40000) 2;
      large_purchase;
      Examples.completed "y3" "visaCal" (Some "1456") "2025-10-15T21:00:00.000Z" "fuel"
        (-30000) 2 ]
    [Examples.repayment_category_row; Examples.groceries_category_row]
    [Examples.pairing_cal] true [].

Definition short_matches : list Matcher.ExpenseMatch :=
  Eval vm_compute in
    match Matcher.match_repayment_to_expenses ledger_short short_repayment ∅ 90 with
    | Some (ms, _) => ms
    | None => []
    end.

(** A bank transfer of 3,500.00 whose description names no card. *)
Definition plain_transfer : Classifier.repayment :=
  {| Classifier.r_identifier := "t1";
     Classifier.r_vendor := "discount";
     Classifier.r_accountNumber := Some "0162490242";
     Classifier.r_date := "2025-11-09T22:00:00.000Z";
     Classifier.r_cycleDate := "2025-11-09";
     Classifier.r_name := "standing order";
     Classifier.r_price := -350000 |}.

(** Card totals of a day: 3,500.00 billed by pairing 7, nothing known for
    the others. *)
Definition totals_of_the_day (id : Z) : option Z :=
  if id =? 7 then Some 350000 else None.

(** The September cycle of [Examples.ledger_cycles]: 3,900.00 repaid against
    3,500.00 billed. *)
Definition september_large : Classifier.cycle :=
  Eval vm_compute in
    nth 2 (Classifier.cycles Examples.december_discrepancy)
      (Classifier.mk_cycle "" 0 None None [] Classifier.matched None).

(** What the discoverer suggests for card visaCal 1456 on
    [Examples.ledger_cycles]. *)
Definition cal_suggestion : Discoverer.suggestion :=
  Eval vm_compute in
    match Discoverer.find_best_bank_account_app Examples.ledger_cycles "visaCal" (Some "1456")
            None None 500 with
    | Discoverer.Found s => s
    | _ => Discoverer.mk_suggestion "" None 0 0 0 [] [] []
    end.

(** Two repayments of 2,835.11 and 1,896.33 on 9 October, 4,731.44 in all,
    against 4,730.44 billed that day: exactly 1.00 apart.  The card was
    first billed in June. *)
Definition ledger_on_the_line : database :=
  mk_database
    [ Examples.completed "n1" "discount" (Some "0162490242") "2025-10-09T22:00:00.000Z"
        "visa cal 1456" (-283511) 1;
      Examples.completed "n2" "discount" (Some "0162490242") "2025-10-09T22:30:00.000Z"
        "visa cal 1456" (-189633) 1;
      Examples.completed "f1" "visaCal" (Some "1456") "2025-10-09T10:00:00.000Z" "shop"
        (-473044) 2;
      Examples.completed "f0" "visaCal" (Some "1456") "2025-06-09T10:00:00.000Z" "shop"
        (-10000) 2 ]
    [Examples.repayment_category_row; Examples.groceries_category_row] [] true [].

(** The doubles of that day: the bank total accumulated from [0.0] and the
    billed total differ by more than [1.0]. *)
Definition on_the_line_rounding : Amount.rounding :=
  Doubles.rounding_at 100
    (Doubles.distance (Doubles.sum [189633; 283511]) (Doubles.of_cents 473044))
    (Doubles.of_cents 100).

Definition on_the_line_cycles : list Classifier.cycle :=
  Eval vm_compute in
    Classifier.result_cycles
      (Classifier.calculate_discrepancy_app (rnd := on_the_line_rounding) ledger_on_the_line
         Examples.today_december None "discount" (Some "0162490242") "visaCal" (Some "1456")
         6 500).

(** The doubles of [Examples.ledger_one_apart]: 1,201.00 and 1,200.00 are
    exactly 1.0 apart. *)
Definition one_apart_rounding : Amount.rounding :=
  Doubles.rounding_at 100
    (Doubles.distance (Doubles.of_cents 120100) (Doubles.of_cents 120000))
    (Doubles.of_cents 100).

(** A card first billed on 9 June 2025 and a repayment of 3,620.00 on
    15 June against 3,500.00 billed that day. *)
Definition ledger_new_card : database :=
  mk_database
    [ Examples.completed "j1" "discount" (Some "0162490242") "2025-06-15T22:00:00.000Z"
        "visa cal 1456" (-362000) 1;
      Examples.completed "k1" "visaCal" (Some "1456") "2025-06-15T10:00:00.000Z" "shop"
        (-350000) 2;
      Examples.completed "k0" "visaCal" (Some "1456") "2025-06-09T10:00:00.000Z" "shop"
        (-4000) 2 ]
    [Examples.repayment_category_row; Examples.groceries_category_row] [] true [].

Definition first_billed_row : transaction :=
  Examples.completed "k0" "visaCal" (Some "1456") "2025-06-09T10:00:00.000Z" "shop" (-4000) 2.

Definition june_cycles : list Classifier.cycle :=
  Eval vm_compute in
    Classifier.result_cycles
      (Classifier.calculate_discrepancy_app ledger_new_card Examples.today_december None
         "discount" (Some "0162490242") "visaCal" (Some "1456") 7 500).

End Rounded.

End Samples.
(** * Properties of the embedding *)

Section Rounded.
Context {rnd : Amount.rounding}.

(** ** Comparisons of amounts

    A test on two amounts follows the amounts unless they are equal. *)

Lemma compare_cases a b :
  (Amount.compare a b = Lt /\ a <= b)
  \/ (Amount.compare a b = Eq /\ a = b)
  \/ (Amount.compare a b = Gt /\ b <= a).
Proof.
  unfold Amount.compare. destruct (Z.compare_spec a b) as [->|H|H].
  - destruct (Amount.bias b); [right; left|left|right; right]; split; (reflexivity || lia).
  - left. split; [reflexivity|lia].
  - right. right. split; [reflexivity|lia].
Qed.

Lemma compare_lt a b : a < b -> Amount.compare a b = Lt.
Proof.
  intros H. unfold Amount.compare. apply Z.compare_lt_iff in H. now rewrite H.
Qed.

Lemma compare_gt a b : b < a -> Amount.compare a b = Gt.
Proof.
  intros H. unfold Amount.compare. apply Z.compare_gt_iff in H. now rewrite H.
Qed.

Lemma le_true a b : Amount.le a b = true -> a <= b.
Proof.
  unfold Amount.le. destruct (compare_cases a b) as [[-> H]|[[-> H]|[-> H]]];
    (discriminate || lia).
Qed.

Lemma le_false a b : Amount.le a b = false -> b <= a.
Proof.
  unfold Amount.le. destruct (compare_cases a b) as [[-> H]|[[-> H]|[-> H]]];
    (discriminate || lia).
Qed.

Lemma le_of_lt a b : a < b -> Amount.le a b = true.
Proof. intros H. unfold Amount.le. now rewrite (compare_lt a b H). Qed.

Lemma le_of_gt a b : b < a -> Amount.le a b = false.
Proof. intros H. unfold Amount.le. now rewrite (compare_gt a b H). Qed.

Lemma lt_true a b : Amount.lt a b = true -> a <= b.
Proof.
  unfold Amount.lt. destruct (compare_cases a b) as [[-> H]|[[-> H]|[-> H]]];
    (discriminate || lia).
Qed.

Lemma lt_false a b : Amount.lt a b = false -> b <= a.
Proof.
  unfold Amount.lt. destruct (compare_cases a b) as [[-> H]|[[-> H]|[-> H]]];
    (discriminate || lia).
Qed.

Lemma lt_of_lt a b : a < b -> Amount.lt a b = true.
Proof. intros H. unfold Amount.lt. now rewrite (compare_lt a b H). Qed.

Lemma lt_of_gt a b : b < a -> Amount.lt a b = false.
Proof. intros H. unfold Amount.lt. now rewrite (compare_gt a b H). Qed.

Lemma gt_le a b : Amount.gt a b = negb (Amount.le a b).
Proof. unfold Amount.gt, Amount.le. now destruct (Amount.compare a b). Qed.

Lemma gt_true a b : Amount.gt a b = true -> b <= a.
Proof. rewrite gt_le, negb_true_iff. apply le_false. Qed.

Lemma gt_false a b : Amount.gt a b = false -> a <= b.
Proof. rewrite gt_le, negb_false_iff. apply le_true. Qed.

Lemma gt_of_gt a b : b < a -> Amount.gt a b = true.
Proof. intros H. rewrite gt_le, (le_of_gt a b H). reflexivity. Qed.

Lemma gt_of_lt a b : a < b -> Amount.gt a b = false.
Proof. intros H. rewrite gt_le, (le_of_lt a b H). reflexivity. Qed.

(** Case analysis on every test of the goal, keeping what each outcome
    says about the amounts. *)
Ltac amount_cases :=
  rewrite ?gt_le;
  repeat match goal with
         | |- context [Amount.le ?a ?b] =>
             let H := fresh "Hle" in
             destruct (Amount.le a b) eqn:H;
             [apply le_true in H|apply le_false in H]
         | |- context [Amount.lt ?a ?b] =>
             let H := fresh "Hlt" in
             destruct (Amount.lt a b) eqn:H;
             [apply lt_true in H|apply lt_false in H]
         end.

(** * Properties *)

(** ** Python's sorts keep the elements *)

Lemma insert_desc_perm {A} (lt : A -> A -> bool) x l :
  Permutation (Py.insert_desc lt x l) (x :: l).
Proof.
  induction l as [|y l IH]; simpl; [reflexivity|].
  destruct (lt x y); [|reflexivity].
  rewrite IH. apply perm_swap.
Qed.

Lemma sorted_desc_perm {A} (lt : A -> A -> bool) l :
  Permutation (Py.sorted_desc lt l) l.
Proof.
  induction l as [|x l IH]; simpl; [reflexivity|].
  unfold Py.sorted_desc in *. simpl.
  rewrite insert_desc_perm. now constructor.
Qed.

Lemma insert_asc_perm {A} (lt : A -> A -> bool) x l :
  Permutation (Py.insert_asc lt x l) (x :: l).
Proof.
  induction l as [|y l IH]; simpl; [reflexivity|].
  destruct (lt y x); [|reflexivity].
  rewrite IH. apply perm_swap.
Qed.

Lemma sorted_asc_perm {A} (lt : A -> A -> bool) l :
  Permutation (Py.sorted_asc lt l) l.
Proof.
  induction l as [|x l IH]; simpl; [reflexivity|].
  unfold Py.sorted_asc in *. simpl.
  rewrite insert_asc_perm. now constructor.
Qed.

Lemma sorted_desc_In {A} (lt : A -> A -> bool) l x :
  In x (Py.sorted_desc lt l) <-> In x l.
Proof.
  split; apply Permutation_in; [|symmetry]; apply sorted_desc_perm.
Qed.

Lemma sorted_asc_In {A} (lt : A -> A -> bool) l x :
  In x (Py.sorted_asc lt l) <-> In x l.
Proof.
  split; apply Permutation_in; [|symmetry]; apply sorted_asc_perm.
Qed.

(** ** The classification rule *)

Import Store Classifier.

(** What each answer of [classify_diff] says about the difference. *)
Lemma classify_diff_cases diff :
  match classify_diff diff with
  | matched => Z.abs diff <= EPSILON
  | fee_candidate => EPSILON <= diff <= MAX_FEE_AMOUNT
  | large_discrepancy => MAX_FEE_AMOUNT <= diff
  | cc_over_bank => diff <= - EPSILON
  | missing_cc_cycle | incomplete_history => False
  end.
Proof.
  unfold classify_diff, EPSILON, MAX_FEE_AMOUNT. amount_cases; cbn; lia.
Qed.

Lemma classify_diff_matched diff :
  (classify_diff diff = matched -> Z.abs diff <= EPSILON)
  /\ (Z.abs diff < EPSILON -> classify_diff diff = matched).
Proof.
  split.
  - intros H. pose proof (classify_diff_cases diff) as Hc. now rewrite H in Hc.
  - intros H. unfold classify_diff. now rewrite (le_of_lt _ _ H).
Qed.

Lemma classify_diff_fee diff :
  classify_diff diff = fee_candidate -> EPSILON <= diff <= MAX_FEE_AMOUNT.
Proof.
  intros H. pose proof (classify_diff_cases diff) as Hc. now rewrite H in Hc.
Qed.

Lemma classify_diff_agrees bank total :
  status_agrees bank (Some total) (classify_diff (bank - total)).
Proof.
  intros t [= <-]. split; [|apply classify_diff_fee].
  unfold classify_diff. destruct (Amount.le (Z.abs (bank - total)) EPSILON).
  - split; reflexivity.
  - split; [|discriminate].
    repeat match goal with |- context [if ?b then _ else _] => destruct b end; discriminate.
Qed.

Lemma scan_rows_agrees bank rows v :
  status_agrees bank (v_cc_total v) (v_status v) ->
  status_agrees bank (v_cc_total (scan_rows bank rows v)) (v_status (scan_rows bank rows v)).
Proof.
  revert v. induction rows as [|r rows IH]; intros v Hv; cbn [scan_rows]; [exact Hv|].
  cbv zeta. rewrite !gt_le.
  destruct (Amount.le (Z.abs (bank - row_total r)) EPSILON) eqn:He.
  - intros t [= <-]. cbn. rewrite He. split; [tauto|discriminate].
  - cbn [negb andb]. rewrite andb_true_r.
    destruct (Amount.le (Z.abs (bank - row_total r)) MAX_FEE_AMOUNT) eqn:Hm;
      cbn [andb]; [|apply IH; exact Hv].
    destruct (Amount.le bank (row_total r)) eqn:Hb; cbn [negb]; [apply IH; exact Hv|].
    apply IH. intros t [= <-]. cbn. rewrite He.
    apply le_false in He. apply le_true in Hm. apply le_false in Hb.
    unfold EPSILON, MAX_FEE_AMOUNT in *.
    split; [split; discriminate|]. intros _. lia.
Qed.

Lemma no_verdict_agrees bank :
  status_agrees bank (v_cc_total no_verdict) (v_status no_verdict).
Proof. intros t [=]. Qed.

Lemma classify_bucket_agrees bank rows acct :
  status_agrees bank (v_cc_total (classify_bucket bank rows acct))
                (v_status (classify_bucket bank rows acct)).
Proof.
  unfold classify_bucket. destruct rows as [|r0 rows0]; [apply no_verdict_agrees|].
  set (rows := r0 :: rows0).
  pose proof (scan_rows_agrees bank rows no_verdict (no_verdict_agrees bank)) as Hs.
  destruct (status_eqb _ _ && Py.truthy acct); [|exact Hs].
  destruct (List.filter _ rows) as [|r ?]; [exact Hs|].
  simpl. apply classify_diff_agrees.
Qed.

Lemma cycle_of_bucket_agrees db fees v a b :
  cycle_agrees (cycle_of_bucket db fees v a b).
Proof. unfold cycle_agrees, cycle_of_bucket; simpl. apply classify_bucket_agrees. Qed.

Lemma status_agrees_grace bank cc s :
  actionable s = true ->
  status_agrees bank cc s -> status_agrees bank cc incomplete_history.
Proof.
  intros Ha Hs t Ht. destruct (Hs t Ht) as (Hm & _).
  split; [|discriminate]. split; [discriminate|].
  intros H. apply Hm in H. subst s. discriminate.
Qed.

Lemma grace_relabel_agrees today earliest c :
  cycle_agrees c -> cycle_agrees (grace_relabel today earliest c).
Proof.
  intros Hc. unfold grace_relabel.
  destruct (actionable (status c)) eqn:Ha; simpl; [|exact Hc].
  destruct (Calendar.fromisoformat (cycleDate c)); [|exact Hc].
  destruct (match earliest with Some e => _ | None => false end);
    [exact (status_agrees_grace _ _ _ Ha Hc)|].
  destruct (_ && _); [exact (status_agrees_grace _ _ _ Ha Hc)|exact Hc].
Qed.

Lemma raw_cycles_agree db bv ba cv ca s t l c :
  In c (raw_cycles db bv ba cv ca s t l) -> cycle_agrees c.
Proof.
  unfold raw_cycles. rewrite in_map_iff. intros (b & <- & _).
  apply cycle_of_bucket_agrees.
Qed.

(** Every cycle of a result is a pre-grace cycle after the grace pass. *)
Lemma result_cycles_inv db today pid bv ba cv ca months limit c :
  In c (result_cycles (calculate_discrepancy_app db today pid bv ba cv ca months limit)) ->
  exists c0,
    In c0 (raw_cycles db bv ba cv ca
             (Calendar.isoformat (Calendar.subtract_calendar_months today months))
             (Calendar.isoformat today) limit)
    /\ c = grace_relabel today
             (get_cc_earliest_cycle_date db cv ca (get_cc_fees_category_id db)) c0.
Proof.
  unfold calculate_discrepancy_app.
  destruct (_ || _); [intros []|].
  destruct (Calendar.subtract_raises _ _); [intros []|].
  destruct (List.filter _ _) eqn:Hf; [intros []|].
  simpl. rewrite in_map_iff. intros (c0 & <- & Hin).
  apply sorted_desc_In in Hin. eauto.
Qed.

(** ** Cycles built by the allocator *)

Import Allocator.

Lemma all_cycles_append Q (m : gmap Z (list cycle)) k c :
  all_cycles Q m -> Q k c ->
  all_cycles Q (<[k := (default [] (m !! k) ++ [c])%list]> m).
Proof.
  intros Hm Hc k' l c' Hl Hin.
  destruct (decide (k = k')) as [<-|Hne].
  - rewrite lookup_insert_eq in Hl. injection Hl as <-.
    apply in_app_or in Hin as [Hin|[<-|[]]]; [|exact Hc].
    destruct (m !! k) as [l0|] eqn:Hk; simpl in Hin; [|destruct Hin].
    eapply Hm; eauto.
  - rewrite lookup_insert_ne in Hl by exact Hne. eapply Hm; eauto.
Qed.

Lemma all_cycles_init Q (pairings : list AccountPairing) :
  all_cycles Q (list_to_map (List.map (fun p => (p_id p, [])) pairings)).
Proof.
  intros k l c Hl Hin.
  apply elem_of_list_to_map_2 in Hl. apply list_elem_of_In in Hl.
  apply in_map_iff in Hl as (p & [= _ <-] & _). destruct Hin.
Qed.

Lemma cycle_for_pairing_shape db today pairings cc_raw date_key st p c :
  cycle_for_pairing today (earliest_of db pairings (p_id p)) cc_raw date_key st p = Some c ->
  allocated_shape db today pairings (p_id p) c.
Proof.
  unfold cycle_for_pairing.
  destruct (Z.leb_spec (default 0 (assigned_total_by_id st !! p_id p)) 0) as [|Hpos];
    [discriminate|].
  intros [= <-]. split; simpl; [exact Hpos|reflexivity].
Qed.

Lemma emit_fold_shape db today pairings (cc_of : Z -> option Z) date_key st ps m :
  all_cycles (allocated_shape db today pairings) m ->
  all_cycles (allocated_shape db today pairings)
    (fold_left
       (fun m p =>
          match cycle_for_pairing today (earliest_of db pairings (p_id p)) (cc_of (p_id p))
                  date_key st p with
          | Some c => <[p_id p := (default [] (m !! p_id p) ++ [c])%list]> m
          | None => m
          end)
       ps m).
Proof.
  revert m. induction ps as [|p ps IH]; intros m Hm; simpl; [exact Hm|].
  apply IH.
  destruct (cycle_for_pairing _ _ _ _ _ _) as [c|] eqn:Hc; [|exact Hm].
  apply all_cycles_append; [exact Hm|].
  eapply cycle_for_pairing_shape; eauto.
Qed.

Lemma emit_date_shape db today pairings months m group :
  all_cycles (allocated_shape db today pairings) m ->
  all_cycles (allocated_shape db today pairings)
             (emit_date db today pairings months m group).
Proof. apply emit_fold_shape. Qed.

Lemma cycles_by_pairing_id_shape db today pairings months limit :
  all_cycles (allocated_shape db today pairings)
             (cycles_by_pairing_id db today pairings months limit).
Proof.
  unfold cycles_by_pairing_id.
  generalize (repayments_by_date
     (repayment_rows db match pairings with p :: _ => bank_vendor p | [] => "" end
        match pairings with p :: _ => bank_account_number p | [] => None end
        (Calendar.isoformat (Calendar.subtract_calendar_months today months))
        (Calendar.isoformat today) limit)) as groups.
  intros groups.
  generalize (all_cycles_init (allocated_shape db today pairings) pairings).
  generalize (list_to_map (List.map (fun p => (p_id p, [])) pairings) : gmap Z (list cycle)) as m.
  induction groups as [|g groups IH]; intros m Hm; simpl; [exact Hm|].
  apply IH. apply emit_date_shape. exact Hm.
Qed.

Lemma fold_insert_lookup {A} (f : AccountPairing -> A) (all ps : list AccountPairing)
    (m : gmap Z A) :
  (forall p, In p ps -> In p all) ->
  (forall k d, m !! k = Some d -> exists p, In p all /\ p_id p = k /\ d = f p) ->
  forall k d,
    fold_left (fun m p => <[p_id p := f p]> m) ps m !! k = Some d ->
    exists p, In p all /\ p_id p = k /\ d = f p.
Proof.
  revert m. induction ps as [|p ps IH]; intros m Hsub Hm k d; simpl; [apply Hm|].
  apply IH.
  - intros q Hq. apply Hsub. now right.
  - intros k' d' H'.
    destruct (decide (p_id p = k')) as [<-|Hne].
    + rewrite lookup_insert_eq in H'. injection H' as <-.
      exists p. split; [apply Hsub; now left|auto].
    + rewrite lookup_insert_ne in H' by exact Hne. now apply Hm.
Qed.

Lemma fold_insert_present {A} (f : AccountPairing -> A) ps (m : gmap Z A) p :
  In p ps ->
  exists q, In q ps /\ p_id q = p_id p
            /\ fold_left (fun m p => <[p_id p := f p]> m) ps m !! p_id p = Some (f q).
Proof.
  revert m p. induction ps as [|x ps IH]; intros m p; [intros []|]. cbn [fold_left].
  destruct (in_dec (fun a b => Z.eq_dec a b) (p_id p) (List.map p_id ps)) as [Hin|Hnotin].
  - intros _. apply in_map_iff in Hin as (p' & Hid & Hp').
    destruct (IH (<[p_id x := f x]> m) p' Hp') as (q & Hq & Hqid & Hl).
    exists q. split; [now right|]. rewrite <- Hid. split; [exact Hqid|exact Hl].
  - intros [->|Hp]; [|exfalso; apply Hnotin; now apply in_map].
    exists p. split; [now left|]. split; [reflexivity|].
    assert (forall ps' (m' : gmap Z A),
               ~ In (p_id p) (List.map p_id ps') ->
               fold_left (fun m p => <[p_id p := f p]> m) ps' m' !! p_id p = m' !! p_id p)
      as Hkeep.
    { induction ps' as [|y ps' IH']; intros m' Hn; cbn [fold_left]; [reflexivity|].
      rewrite IH' by (intros H; apply Hn; now right).
      apply lookup_insert_ne. intros Heq. apply Hn. left. exact Heq. }
    rewrite Hkeep by exact Hnotin. apply lookup_insert_eq.
Qed.

(** The dictionary returned holds, under each id, the record of a pairing
    with that id. *)
Lemma returned_lookup db today pairings months limit ds k d :
  calculate_discrepancies_app_for_bank_group db today pairings months limit = Returned ds ->
  ds !! k = Some d ->
  exists p, In p pairings /\ p_id p = k
            /\ d = discrepancy_for db today pairings months limit p.
Proof.
  unfold calculate_discrepancies_app_for_bank_group.
  destruct pairings as [|first rest] eqn:Hp; [intros [= <-]; rewrite lookup_empty; discriminate|].
  rewrite <- Hp. destruct (forallb _ rest); [|discriminate].
  destruct (Calendar.subtract_raises _ _); [discriminate|].
  intros [= <-]. apply fold_insert_lookup; [auto|].
  intros k' d' H'. rewrite lookup_empty in H'. discriminate.
Qed.

Lemma returned_cycle_shape db today pairings months limit ds k d c :
  calculate_discrepancies_app_for_bank_group db today pairings months limit = Returned ds ->
  ds !! k = Some d ->
  In c (cycles d) ->
  allocated_shape db today pairings k c.
Proof.
  intros Hr Hk Hc.
  destruct (returned_lookup _ _ _ _ _ _ _ _ Hr Hk) as (p & _ & <- & ->).
  unfold discrepancy_for, aggregate in Hc. simpl in Hc.
  apply sorted_desc_In in Hc.
  destruct (cycles_by_pairing_id db today pairings months limit !! p_id p) as [l|] eqn:Hl;
    simpl in Hc; [|destruct Hc].
  eapply cycles_by_pairing_id_shape; eauto.
Qed.

Lemma grace_status_relabels today earliest date_key s d :
  actionable s = true ->
  Calendar.fromisoformat date_key = Some d ->
  (exists e, earliest = Some e /\ Calendar.days_between d e <= EARLY_GRACE_DAYS)
  \/ 0 <= Calendar.days_between today d <= RECENT_GRACE_DAYS ->
  grace_status today earliest date_key s = incomplete_history.
Proof.
  intros Ha Hd Hw. unfold grace_status. rewrite Ha, Hd.
  destruct Hw as [(e & -> & He)|Hr].
  - apply Z.leb_le in He. now rewrite He.
  - destruct (match earliest with Some e => _ | None => false end); [reflexivity|].
    destruct Hr as [H0 H1]. apply Z.leb_le in H0, H1. now rewrite H0, H1.
Qed.

Lemma grace_status_keeps today earliest date_key s :
  actionable s = false -> grace_status today earliest date_key s = s.
Proof. intros Ha. unfold grace_status. now rewrite Ha. Qed.

Lemma grace_status_cases today earliest date_key s :
  grace_status today earliest date_key s = s
  \/ (actionable s = true
      /\ grace_status today earliest date_key s = incomplete_history).
Proof.
  unfold grace_status. destruct (actionable s); [|now left].
  destruct (Calendar.fromisoformat date_key); [|now left].
  destruct (match earliest with Some e => _ | None => false end); [now right|].
  destruct (_ && _); [now right|now left].
Qed.

Lemma raw_status_agrees bank cc :
  status_agrees bank cc (raw_status bank cc).
Proof.
  intros t ->. apply classify_diff_agrees. reflexivity.
Qed.

Lemma allocated_shape_agrees db today pairings k c :
  allocated_shape db today pairings k c -> cycle_agrees c.
Proof.
  intros [_ Hs]. unfold cycle_agrees. rewrite Hs.
  destruct (grace_status_cases today (earliest_of db pairings k) (cycleDate c)
              (raw_status (bankTotal c) (ccTotal c))) as [->|[Ha ->]].
  - apply raw_status_agrees.
  - eapply status_agrees_grace; [exact Ha|apply raw_status_agrees].
Qed.
(** Claim C1, as amended.  In every cycle that [calculate_discrepancy_app]
    returns, and in every cycle the bank-group allocator files under a
    pairing, when the card total is known the status is [matched] exactly
    when the test [abs(bank - card) <= EPSILON] succeeds on the doubles of
    the two totals.  So a [matched] cycle has totals at most [EPSILON]
    apart, and totals less than [EPSILON] apart make the cycle [matched];
    totals exactly [EPSILON] apart go with the doubles, which are rounded
    only for the report.  A [fee_candidate] cycle has a bank total above
    the card total by at least [EPSILON], hence by more than 0, and by at
    most [MAX_FEE_AMOUNT].  Both lists are the final ones, after the
    grace-period relabelling, and the statement holds however the
    comparisons of equal amounts fall. *)
Theorem matched_within_epsilon_off_the_boundary :
  (forall db today pairing_id bank_vendor bank_account cc_vendor cc_account months_back limit
          c cc_total,
      In c (result_cycles (calculate_discrepancy_app db today pairing_id bank_vendor
                             bank_account cc_vendor cc_account months_back limit)) ->
      ccTotal c = Some cc_total ->
      (status c = matched <-> Amount.le (Z.abs (bankTotal c - cc_total)) EPSILON = true)
      /\ (status c = matched -> Z.abs (bankTotal c - cc_total) <= EPSILON)
      /\ (Z.abs (bankTotal c - cc_total) < EPSILON -> status c = matched)
      /\ (status c = fee_candidate ->
          0 < bankTotal c - cc_total
          /\ EPSILON <= bankTotal c - cc_total <= MAX_FEE_AMOUNT))
  /\ (forall db today pairings months_back limit discrepancies id d c cc_total,
        Allocator.calculate_discrepancies_app_for_bank_group db today pairings months_back limit
        = Allocator.Returned discrepancies ->
        discrepancies !! id = Some d ->
        In c (cycles d) ->
        ccTotal c = Some cc_total ->
        (status c = matched <-> Amount.le (Z.abs (bankTotal c - cc_total)) EPSILON = true)
        /\ (status c = matched -> Z.abs (bankTotal c - cc_total) <= EPSILON)
        /\ (Z.abs (bankTotal c - cc_total) < EPSILON -> status c = matched)
        /\ (status c = fee_candidate ->
            0 < bankTotal c - cc_total
            /\ EPSILON <= bankTotal c - cc_total <= MAX_FEE_AMOUNT)).
Proof.
  assert (Hfee : forall bank cc s total,
             status_agrees bank cc s -> cc = Some total ->
             (s = matched <-> Amount.le (Z.abs (bank - total)) EPSILON = true)
             /\ (s = matched -> Z.abs (bank - total) <= EPSILON)
             /\ (Z.abs (bank - total) < EPSILON -> s = matched)
             /\ (s = fee_candidate ->
                 0 < bank - total /\ EPSILON <= bank - total <= MAX_FEE_AMOUNT)).
  { intros bank cc s total Hs Hcc. destruct (Hs total Hcc) as (H1 & H3).
    split; [exact H1|].
    split; [intros Hm; apply le_true; now apply H1|].
    split; [intros Hnear; apply H1; now apply le_of_lt|].
    intros Hf. specialize (H3 Hf). unfold EPSILON in *. lia. }
  split.
  - intros db today pid bv ba cv ca months limit c cc Hin Hcc.
    apply result_cycles_inv in Hin as (c0 & Hraw & ->).
    apply raw_cycles_agree in Hraw.
    exact (Hfee _ _ _ _ (grace_relabel_agrees _ _ _ Hraw) Hcc).
  - intros db today pairings months limit ds id d c cc Hr Hd Hin Hcc.
    exact (Hfee _ _ _ _
             (allocated_shape_agrees _ _ _ _ _
                (returned_cycle_shape _ _ _ _ _ _ _ _ _ Hr Hd Hin)) Hcc).
Qed.
Import Examples.
(** ** Cycles without a card total *)

Lemma grace_relabel_cases today earliest c :
  grace_relabel today earliest c = c
  \/ (actionable (status c) = true
      /\ grace_relabel today earliest c = set_status c incomplete_history).
Proof.
  unfold grace_relabel. destruct (actionable (status c)); simpl; [|now left].
  destruct (Calendar.fromisoformat (cycleDate c)); [|now left].
  destruct (match earliest with Some e => _ | None => false end); [now right|].
  destruct (_ && _); [now right|now left].
Qed.

Lemma scan_rows_linked bank rows v :
  verdict_linked v -> verdict_linked (scan_rows bank rows v).
Proof.
  revert v. induction rows as [|r rows IH]; intros v Hv; cbn [scan_rows]; [exact Hv|].
  cbv zeta. destruct (Amount.le _ EPSILON).
  - right. simpl. split; [eauto|discriminate].
  - destruct (_ && _); apply IH; [|exact Hv].
    right. simpl. split; [eauto|discriminate].
Qed.

Lemma classify_diff_not_missing diff : classify_diff diff <> missing_cc_cycle.
Proof.
  intros H. pose proof (classify_diff_cases diff) as Hc. now rewrite H in Hc.
Qed.

(** A billing row that is neither within [EPSILON] of the bank total nor a
    fee-sized shortfall leaves the scan as it was. *)
Lemma scan_rows_far bank rows v :
  (forall r, In r rows ->
     bank - row_total r < - EPSILON \/ MAX_FEE_AMOUNT < bank - row_total r) ->
  scan_rows bank rows v = v.
Proof.
  induction rows as [|r rows IH]; intros Hfar; cbn [scan_rows]; [reflexivity|].
  cbv zeta.
  assert (bank - row_total r < - EPSILON \/ MAX_FEE_AMOUNT < bank - row_total r) as Hr
    by (apply Hfar; now left).
  unfold EPSILON, MAX_FEE_AMOUNT in *.
  rewrite (le_of_gt (Z.abs (bank - row_total r)) 100) by lia.
  destruct Hr as [Hr|Hr].
  - rewrite (gt_of_lt bank (row_total r)) by lia. rewrite andb_false_r.
    apply IH. intros r' Hr'. apply Hfar. now right.
  - rewrite (le_of_gt (Z.abs (bank - row_total r)) 20000) by lia. cbn [andb].
    apply IH. intros r' Hr'. apply Hfar. now right.
Qed.

Lemma classify_bucket_linked bank rows acct :
  verdict_linked (classify_bucket bank rows acct).
Proof.
  unfold classify_bucket. destruct rows as [|r0 rows0]; [left; auto|].
  set (rows := r0 :: rows0).
  pose proof (scan_rows_linked bank rows no_verdict (or_introl (conj eq_refl eq_refl))) as Hs.
  destruct (status_eqb _ _ && Py.truthy acct); [|exact Hs].
  destruct (List.filter _ rows) as [|r ?]; [exact Hs|].
  right. simpl. split; [eauto|apply classify_diff_not_missing].
Qed.

Lemma opt_str_eqb_eq a b : Py.opt_str_eqb a b = true <-> a = b.
Proof.
  destruct a as [x|], b as [y|]; simpl; try (split; (discriminate || reflexivity)).
  rewrite String.eqb_eq. split; [intros ->; reflexivity|intros [= ->]; reflexivity].
Qed.

Lemma truthy_Some acct :
  Py.truthy acct = true -> exists a, acct = Some a /\ a <> "".
Proof.
  destruct acct as [a|]; simpl; [|discriminate].
  intros H. exists a. split; [reflexivity|].
  intros ->. discriminate.
Qed.

Lemma dedup_accounts_In seen l k :
  In k (dedup_accounts seen l) -> In k l.
Proof.
  revert seen. induction l as [|x l IH]; intros seen; simpl; [auto|].
  destruct (existsb _ seen).
  - intros H. right. eapply IH; eauto.
  - intros [->|H]; [now left|right; eapply IH; eauto].
Qed.

(** With an account filter every billing row is the filtered account's. *)
Lemma cc_rows_account db fees cv date_key acct r :
  Py.truthy acct = true ->
  In r (cc_rows db fees cv date_key acct) -> cr_account_number r = acct.
Proof.
  intros Ht. unfold cc_rows. rewrite in_map_iff. intros (k & <- & Hk). simpl.
  apply sorted_asc_In in Hk. apply dedup_accounts_In in Hk.
  apply in_map_iff in Hk as (t & <- & Hin).
  apply filter_In in Hin as [_ Hf].
  apply andb_prop in Hf as [_ Hf]. unfold account_filter in Hf. rewrite Ht in Hf.
  now apply opt_str_eqb_eq.
Qed.

Lemma classify_bucket_none bank rows acct :
  Py.truthy acct = true ->
  (forall r, In r rows -> cr_account_number r = acct) ->
  v_cc_total (classify_bucket bank rows acct) = None -> rows = [].
Proof.
  intros Ht Hacct. unfold classify_bucket. destruct rows as [|r0 rows0]; [reflexivity|].
  set (rows := r0 :: rows0) in *.
  destruct (scan_rows_linked bank rows no_verdict (or_introl (conj eq_refl eq_refl)))
    as [[Hn Hs]|[[t Ht'] Hs]].
  - rewrite Hs, Ht.
    change (status_eqb missing_cc_cycle missing_cc_cycle && true) with true. cbv iota.
    destruct (truthy_Some _ Ht) as (a & -> & Ha).
    destruct (List.filter _ rows) as [|r rest] eqn:Hf; [exfalso|simpl; discriminate].
    assert (In r0 []) as Hin; [|destruct Hin].
    rewrite <- Hf. apply filter_In. split; [now left|].
    rewrite (Hacct r0 (or_introl eq_refl)). simpl.
    apply String.eqb_neq in Ha. rewrite Ha. apply String.eqb_refl.
  - destruct (status_eqb (v_status (scan_rows bank rows no_verdict)) missing_cc_cycle) eqn:He.
    + exfalso. apply Hs.
      destruct (v_status (scan_rows bank rows no_verdict)); (reflexivity || discriminate).
    + intros Hn. change (false && Py.truthy acct) with false in Hn. cbv iota in Hn. congruence.
Qed.

(** What a cycle says about the billing rows of its date, before the
    grace-period pass. *)
Lemma raw_cycle_rows db bv ba cv ca s t l c :
  In c (raw_cycles db bv ba cv ca s t l) ->
  let rows := cc_rows db (match get_cc_fees_category_id db with Some f => f | None => -1 end)
                      cv (cycleDate c) ca in
  (rows = [] -> ccTotal c = None /\ status c = missing_cc_cycle)
  /\ (status c = missing_cc_cycle <-> ccTotal c = None)
  /\ (ccTotal c = None -> rows = [] \/ Py.truthy ca = false)
  /\ (Py.truthy ca = false ->
      (forall row, In row rows ->
         bankTotal c - row_total row < - EPSILON
         \/ MAX_FEE_AMOUNT < bankTotal c - row_total row) ->
      ccTotal c = None /\ status c = missing_cc_cycle).
Proof.
  unfold raw_cycles. rewrite in_map_iff. intros (b & <- & _). simpl.
  set (rows := cc_rows _ _ _ _ _).
  split; [|split; [|split]].
  - intros ->. simpl. auto.
  - destruct (classify_bucket_linked (b_bankTotal b) rows ca) as [[Hn Hs]|[[t' Ht'] Hs]].
    + rewrite Hn, Hs. tauto.
    + rewrite Ht'. split; [intros; contradiction|discriminate].
  - intros Hn. destruct (Py.truthy ca) eqn:Ht; [left|now right].
    eapply classify_bucket_none; eauto.
    intros r Hr. eapply cc_rows_account; eauto.
  - intros Ht Hfar. unfold classify_bucket. rewrite Ht, andb_false_r.
    rewrite (scan_rows_far _ _ _ Hfar). destruct rows; auto.
Qed.

(** Claim C3, as the classifier implements it.  With no card billing row on
    a cycle's date the cycle has no card total and is [missing_cc_cycle], or
    [incomplete_history] once the grace period relabelled it; a
    [missing_cc_cycle] cycle never has a card total; when the pairing names
    a card account, the card total is absent exactly when that account has
    no billing row on the date; and when it names none, a cycle whose
    billing rows all exceed the bank total by more than [EPSILON] or fall
    short of it by more than [MAX_FEE_AMOUNT] has no card total either and
    is [missing_cc_cycle], or [incomplete_history] once relabelled. *)
Theorem missing_cc_cycle_means_no_card_total :
  forall db today pairing_id bank_vendor bank_account cc_vendor cc_account months_back limit c,
    In c (result_cycles (calculate_discrepancy_app db today pairing_id bank_vendor bank_account
                           cc_vendor cc_account months_back limit)) ->
    let rows := cc_rows db (match get_cc_fees_category_id db with Some f => f | None => -1 end)
                        cc_vendor (cycleDate c) cc_account in
    (rows = [] ->
     ccTotal c = None /\ (status c = missing_cc_cycle \/ status c = incomplete_history))
    /\ (status c = missing_cc_cycle -> ccTotal c = None)
    /\ (Py.truthy cc_account = true -> (ccTotal c = None <-> rows = []))
    /\ (Py.truthy cc_account = false ->
        (forall row, In row rows ->
           bankTotal c - row_total row < - EPSILON
           \/ MAX_FEE_AMOUNT < bankTotal c - row_total row) ->
        ccTotal c = None /\ (status c = missing_cc_cycle \/ status c = incomplete_history)).
Proof.
  intros db today pid bv ba cv ca months limit c Hin.
  apply result_cycles_inv in Hin as (c0 & Hraw & ->).
  pose proof (raw_cycle_rows _ _ _ _ _ _ _ _ _ Hraw) as (H1 & H2 & H3 & H4).
  destruct (grace_relabel_cases today
              (get_cc_earliest_cycle_date db cv ca (get_cc_fees_category_id db)) c0)
    as [->|[Ha ->]]; simpl.
  - split; [|split; [|split]].
    + intros Hr. destruct (H1 Hr). auto.
    + apply H2.
    + intros Ht. split; [|intros Hr; apply (H1 Hr)].
      intros Hn. destruct (H3 Hn); [assumption|congruence].
    + intros Ht Hfar. destruct (H4 Ht Hfar). auto.
  - split; [|split; [|split]].
    + intros Hr. destruct (H1 Hr). auto.
    + discriminate.
    + intros Ht. split; [|intros Hr; apply (H1 Hr)].
      intros Hn. destruct (H3 Hn); [assumption|congruence].
    + intros Ht Hfar. destruct (H4 Ht Hfar). auto.
Qed.

(** ** The aggregate of a discrepancy record *)

Lemma round_div_nearest a b :
  0 < b -> 2 * Z.abs (round_div a b * b - a) <= b.
Proof.
  intros Hb. unfold round_div.
  pose proof (Z.div_mod a b ltac:(lia)) as Hdm.
  pose proof (Z.mod_pos_bound a b Hb) as Hr.
  destruct (Z.ltb_spec (2 * (a mod b)) b).
  - nia.
  - destruct (Z.ltb_spec b (2 * (a mod b))).
    + nia.
    + destruct (Z.even (a / b)); nia.
Qed.

Lemma scan_rows_nonneg bank rows v :
  (forall t, v_cc_total v = Some t -> 0 <= t) ->
  forall t, v_cc_total (scan_rows bank rows v) = Some t -> 0 <= t.
Proof.
  revert v. induction rows as [|r rows IH]; intros v Hv; simpl; [exact Hv|].
  destruct (Amount.le _ EPSILON).
  - simpl. intros t [= <-]. unfold row_total. lia.
  - destruct (_ && _); apply IH; [|exact Hv].
    simpl. intros t [= <-]. unfold row_total. lia.
Qed.

Lemma classify_bucket_nonneg bank rows acct t :
  v_cc_total (classify_bucket bank rows acct) = Some t -> 0 <= t.
Proof.
  unfold classify_bucket. destruct rows as [|r0 rows0]; [discriminate|].
  set (rows := r0 :: rows0).
  assert (forall t, v_cc_total (scan_rows bank rows no_verdict) = Some t -> 0 <= t) as Hs.
  { apply scan_rows_nonneg. discriminate. }
  destruct (_ && _); [|apply Hs].
  destruct (List.filter _ rows); [apply Hs|].
  simpl. intros [= <-]. unfold row_total. lia.
Qed.

Lemma result_cycles_nonneg db today pid bv ba cv ca months limit c t :
  In c (result_cycles (calculate_discrepancy_app db today pid bv ba cv ca months limit)) ->
  ccTotal c = Some t -> 0 <= t.
Proof.
  intros Hin. apply result_cycles_inv in Hin as (c0 & Hraw & ->).
  unfold raw_cycles in Hraw. apply in_map_iff in Hraw as (b & <- & _).
  destruct (grace_relabel_cases today
              (get_cc_earliest_cycle_date db cv ca (get_cc_fees_category_id db))
              (cycle_of_bucket db match get_cc_fees_category_id db with Some f => f | None => -1 end
                 cv ca b)) as [->|[_ ->]]; simpl; apply classify_bucket_nonneg.
Qed.

Lemma sum_nonneg l : (forall x, In x l -> 0 <= x) -> 0 <= Py.sum l.
Proof.
  induction l as [|x l IH]; simpl; [lia|].
  intros H. specialize (IH (fun y Hy => H y (or_intror Hy))).
  specialize (H x (or_introl eq_refl)). lia.
Qed.

(** Claim C4, with the cycles that enter the totals as the code selects
    them: those with a card total that are not [incomplete_history].  The
    two totals are the sums over these cycles, the difference is bank minus
    card, the percentage is 0 for a zero card total and otherwise the
    nearest hundredth of a percent to difference / card total * 100, and
    [exists] holds exactly when some cycle is actionable and the pairing is
    not acknowledged. *)
Theorem aggregate_over_comparable_cycles :
  forall db today pairing_id bank_vendor bank_account cc_vendor cc_account months_back limit d,
    calculate_discrepancy_app db today pairing_id bank_vendor bank_account cc_vendor cc_account
                              months_back limit = Discrepancy d ->
    (forall c, comparable c = true <-> (ccTotal c <> None /\ status c <> incomplete_history))
    /\ totalBankRepayments d = Py.sum (List.map bankTotal (List.filter comparable (cycles d)))
    /\ totalCCExpenses d
       = Py.sum (List.map (fun c => default 0 (ccTotal c)) (List.filter comparable (cycles d)))
    /\ d_difference d = totalBankRepayments d - totalCCExpenses d
    /\ 0 <= totalCCExpenses d
    /\ (totalCCExpenses d = 0 -> differencePercentage d = 0)
    /\ (0 < totalCCExpenses d ->
        2 * Z.abs (differencePercentage d * totalCCExpenses d - 10000 * d_difference d)
        <= totalCCExpenses d)
    /\ (d_exists d = true <->
        (exists c, In c (cycles d) /\ actionable (status c) = true) /\ acknowledged d = false).
Proof.
  intros db today pid bv ba cv ca months limit d Hd.
  assert (forall c t, In c (cycles d) -> ccTotal c = Some t -> 0 <= t) as Hnn.
  { intros c t Hin. eapply result_cycles_nonneg. rewrite Hd. exact Hin. }
  unfold calculate_discrepancy_app in Hd.
  destruct (_ || _); [discriminate|].
  destruct (Calendar.subtract_raises _ _); [discriminate|].
  destruct (List.filter _ _); [discriminate|].
  injection Hd as <-. unfold aggregate in *. simpl in *.
  set (cs := List.map _ _) in *.
  assert (0 <= Py.sum (List.map (fun c => match ccTotal c with Some x => x | None => 0 end)
                         (List.filter comparable cs))) as Hcc.
  { apply sum_nonneg. intros x Hx. apply in_map_iff in Hx as (c & <- & Hc).
    apply filter_In in Hc as [Hc _]. destruct (ccTotal c) eqn:E; [eapply Hnn; eauto|lia]. }
  split; [|split; [|split; [|split; [|split; [|split; [|split]]]]]]; try reflexivity.
  - intros c. unfold comparable. destruct (ccTotal c); [|split; [discriminate|intros [[] _]; reflexivity]].
    destruct (status c); simpl; split; try discriminate; try (intros [_ []]; reflexivity);
      intros _; split; discriminate.
  - exact Hcc.
  - intros H0. change (default 0) with (fun o : option Z => match o with Some x => x | None => 0 end) in H0.
    cbv beta in H0. rewrite H0. reflexivity.
  - intros Hpos.
    change (default 0) with (fun o : option Z => match o with Some x => x | None => 0 end) in *.
    cbv beta in *.
    destruct (Z.ltb_spec 0 (Py.sum (List.map (fun c => match ccTotal c with Some x => x | None => 0 end)
                         (List.filter comparable cs)))); [|lia].
    match goal with |- context [round_div ?a ?b] => pose proof (round_div_nearest a b ltac:(lia)) end.
    lia.
  - rewrite andb_true_iff, existsb_exists, negb_true_iff. reflexivity.
Qed.

(** ** The allocation of one date bucket *)

Lemma sum_insert_notin (ids : list Z) (m : gmap Z Z) k v :
  ~ In k ids ->
  Py.sum (List.map (fun j => default 0 (<[k:=v]> m !! j)) ids)
  = Py.sum (List.map (fun j => default 0 (m !! j)) ids).
Proof.
  induction ids as [|j ids IH]; simpl; [reflexivity|].
  intros Hn. rewrite lookup_insert_ne by (intros ->; apply Hn; now left).
  rewrite IH; [reflexivity|]. intros H. apply Hn. now right.
Qed.

Lemma sum_insert_in (ids : list Z) (m : gmap Z Z) k v :
  List.NoDup ids -> In k ids ->
  Py.sum (List.map (fun j => default 0 (<[k:=v]> m !! j)) ids)
  = Py.sum (List.map (fun j => default 0 (m !! j)) ids) - default 0 (m !! k) + v.
Proof.
  induction ids as [|j ids IH]; simpl; [intros _ []|].
  intros Hnd Hin. inversion Hnd as [|? ? Hj Hnd']; subst.
  destruct (decide (k = j)) as [->|Hne].
  - rewrite lookup_insert_eq, sum_insert_notin by exact Hj. simpl. lia.
  - destruct Hin as [->|Hin]; [congruence|].
    rewrite lookup_insert_ne by exact Hne. rewrite IH by assumption. lia.
Qed.

Lemma concat_insert_notin (ids : list Z) (m : gmap Z (list repayment)) k v :
  ~ In k ids ->
  concat (List.map (fun j => default [] (<[k:=v]> m !! j)) ids)
  = concat (List.map (fun j => default [] (m !! j)) ids).
Proof.
  induction ids as [|j ids IH]; simpl; [reflexivity|].
  intros Hn. rewrite lookup_insert_ne by (intros ->; apply Hn; now left).
  rewrite IH; [reflexivity|]. intros H. apply Hn. now right.
Qed.

Lemma concat_append_in (ids : list Z) (m : gmap Z (list repayment)) k r :
  List.NoDup ids -> In k ids ->
  Permutation
    (concat (List.map (fun j => default [] (<[k := (default [] (m !! k) ++ [r])%list]> m !! j)) ids))
    (r :: concat (List.map (fun j => default [] (m !! j)) ids)).
Proof.
  induction ids as [|j ids IH]; simpl; [intros _ []|].
  intros Hnd Hin. inversion Hnd as [|? ? Hj Hnd']; subst.
  destruct (decide (k = j)) as [->|Hne].
  - rewrite lookup_insert_eq, concat_insert_notin by exact Hj. simpl.
    rewrite <- app_assoc. simpl. symmetry. apply Permutation_middle.
  - destruct Hin as [->|Hin]; [congruence|].
    rewrite lookup_insert_ne by exact Hne. rewrite IH by assumption.
    symmetry. apply Permutation_middle.
Qed.

Lemma pairing_ids_NoDup ps : List.NoDup (pairing_ids ps).
Proof. apply NoDup_ListNoDup, NoDup_remove_dups. Qed.

Lemma pairing_ids_In ps p : In p ps -> In (p_id p) (pairing_ids ps).
Proof.
  intros H. apply list_elem_of_In, elem_of_remove_dups, list_elem_of_In.
  now apply in_map.
Qed.

Lemma best_candidate_In cc_of totals amount cands best p d :
  best_candidate cc_of totals amount cands best = Some (p, d) ->
  In p cands \/ best = Some (p, d).
Proof.
  revert best. induction cands as [|c cands IH]; intros best; simpl; [auto|].
  destruct (cc_of (p_id c)) as [cc|].
  - intros H. apply IH in H as [H|H]; [auto|].
    destruct (match best with Some (_, b) => _ | None => true end).
    + injection H as -> _. auto.
    + auto.
  - intros H. apply IH in H as [H|H]; auto.
Qed.

(** An iteration either leaves the repayment unassigned or assigns it to
    one pairing of the group. *)
Lemma allocate_one_cases ps cc_of st r :
  allocate_one ps cc_of st r = leave_unassigned st r
  \/ exists c, In c ps /\ allocate_one ps cc_of st r = assign st c r.
Proof.
  unfold allocate_one.
  set (dc := List.filter (fun p => repayment_name_match_strength p (r_name r) =? 2) ps).
  set (vc := List.filter (fun p => repayment_name_match_strength p (r_name r) =? 1) ps).
  assert (forall c, In c dc -> In c ps) as Hdc by (intros c Hc; apply filter_In in Hc; tauto).
  assert (forall c, In c vc -> In c ps) as Hvc by (intros c Hc; apply filter_In in Hc; tauto).
  destruct dc as [|d0 dc'] eqn:Edc; [destruct vc as [|v0 vc'] eqn:Evc|].
  - destruct (best_candidate _ _ _ ps None) as [[bp nd]|] eqn:Hb; simpl; [|now left].
    destruct (Amount.gt nd EPSILON); [now left|right].
    apply best_candidate_In in Hb as [Hb|Hb]; [|discriminate]. eauto.
  - destruct (best_candidate _ _ _ (v0 :: vc') None) as [[bp nd]|] eqn:Hb; simpl.
    + right. apply best_candidate_In in Hb as [Hb|Hb]; [|discriminate]. eauto.
    + right. exists v0. split; [apply Hvc; now left|reflexivity].
  - destruct (best_candidate _ _ _ (d0 :: dc') None) as [[bp nd]|] eqn:Hb; simpl.
    + right. apply best_candidate_In in Hb as [Hb|Hb]; [|discriminate]. eauto.
    + right. exists d0. split; [apply Hdc; now left|reflexivity].
Qed.

Lemma amounts_app a b : amounts (a ++ b) = amounts a + amounts b.
Proof.
  unfold amounts. induction a as [|x a IH]; simpl; [reflexivity|]. rewrite IH. lia.
Qed.

Lemma amounts_perm a b : Permutation a b -> amounts a = amounts b.
Proof.
  unfold amounts. induction 1; simpl; lia.
Qed.

Lemma books_balance_initial ids ps : books_balance ids (initial_state ps) [].
Proof.
  assert (forall k, default 0 (assigned_total_by_id (initial_state ps) !! k) = 0) as Hz.
  { intros k. simpl. destruct (_ !! k) as [v|] eqn:Hk; [|reflexivity].
    apply elem_of_list_to_map_2, list_elem_of_In, in_map_iff in Hk as (p & [= _ <-] & _).
    reflexivity. }
  assert (forall k, default [] (assigned_txns_by_id (initial_state ps) !! k) = []) as Hn.
  { intros k. simpl. destruct (_ !! k) as [v|] eqn:Hk; [|reflexivity].
    apply elem_of_list_to_map_2, list_elem_of_In, in_map_iff in Hk as (p & [= _ <-] & _).
    reflexivity. }
  split; [|split].
  - unfold assigned_all. simpl unassigned. simpl app.
    induction ids as [|k ids IH]; simpl; [constructor|].
    rewrite Hn. exact IH.
  - unfold assigned_sum. simpl unassigned. unfold amounts at 1 2. simpl Py.sum at 2 3.
    induction ids as [|k ids IH]; simpl; [reflexivity|].
    rewrite Hz. simpl in IH. lia.
  - intros k _. rewrite Hz, Hn. reflexivity.
Qed.

Lemma books_balance_unassign ids st seen r :
  books_balance ids st seen ->
  books_balance ids (leave_unassigned st r) (seen ++ [r]).
Proof.
  intros (Hp & Hs & Hk). split; [|split].
  - unfold assigned_all in *. simpl.
    rewrite <- app_assoc, <- Hp.
    rewrite <- !app_assoc. apply Permutation_app_head. apply Permutation_app_comm.
  - unfold assigned_sum in *. simpl. rewrite !amounts_app. lia.
  - exact Hk.
Qed.

Lemma books_balance_assign ids st seen c r :
  List.NoDup ids -> In (p_id c) ids ->
  books_balance ids st seen ->
  books_balance ids (assign st c r) (seen ++ [r]).
Proof.
  intros Hnd Hin (Hp & Hs & Hk). split; [|split].
  - unfold assigned_all in *. simpl.
    rewrite concat_append_in by assumption.
    rewrite <- Permutation_middle, Hp. apply Permutation_cons_append.
  - unfold assigned_sum in *. simpl.
    rewrite sum_insert_in by assumption. rewrite amounts_app.
    unfold amounts at 2. simpl. lia.
  - intros k Hkin. simpl.
    destruct (decide (p_id c = k)) as [<-|Hne].
    + rewrite !lookup_insert_eq. simpl. rewrite amounts_app, (Hk _ Hin).
      unfold amounts at 3. simpl. lia.
    + rewrite !lookup_insert_ne by exact Hne. now apply Hk.
Qed.

Lemma books_balance_fold ids ps cc_of rs st seen :
  List.NoDup ids ->
  (forall p, In p ps -> In (p_id p) ids) ->
  books_balance ids st seen ->
  books_balance ids (fold_left (allocate_one ps cc_of) rs st) (seen ++ rs).
Proof.
  intros Hnd Hids. revert st seen. induction rs as [|r rs IH]; intros st seen Hb; simpl.
  - now rewrite app_nil_r.
  - replace (seen ++ r :: rs)%list with ((seen ++ [r]) ++ rs)%list
      by (rewrite <- app_assoc; reflexivity).
    apply IH.
    destruct (allocate_one_cases ps cc_of st r) as [->|(c & Hc & ->)].
    + now apply books_balance_unassign.
    + apply books_balance_assign; [exact Hnd|now apply Hids|exact Hb].
Qed.

Lemma allocate_date_balance ids ps cc_of rs :
  List.NoDup ids ->
  (forall p, In p ps -> In (p_id p) ids) ->
  books_balance ids (allocate_date ps cc_of rs) rs.
Proof.
  intros Hnd Hids.
  pose proof (books_balance_fold ids ps cc_of (repayments_sorted rs) (initial_state ps) []
                Hnd Hids (books_balance_initial ids ps)) as (Hp & Hs & Hk).
  simpl app in Hp, Hs. fold (allocate_date ps cc_of rs) in Hp, Hs, Hk.
  assert (Permutation (repayments_sorted rs) rs) as Hsorted by apply sorted_desc_perm.
  split; [|split].
  - now rewrite Hp.
  - rewrite Hs. now rewrite (amounts_perm _ _ Hsorted).
  - exact Hk.
Qed.

Lemma amounts_nonneg rs : 0 <= amounts rs.
Proof.
  unfold amounts. induction rs as [|r rs IH]; simpl; lia.
Qed.

(** The bank total of the cycle a pairing gets is its assigned total; a
    pairing without a cycle was assigned nothing. *)
Lemma cycle_bank_total today earliest cc_raw date_key st p :
  0 <= default 0 (assigned_total_by_id st !! p_id p) ->
  match cycle_for_pairing today earliest cc_raw date_key st p with
  | Some c => bankTotal c
  | None => 0
  end = default 0 (assigned_total_by_id st !! p_id p).
Proof.
  intros H0. unfold cycle_for_pairing.
  destruct (Z.leb_spec (default 0 (assigned_total_by_id st !! p_id p)) 0); simpl; lia.
Qed.

(** Claim C6.  After the allocator has gone through a date bucket, the
    repayments left unassigned together with the repayments assigned under
    the pairing ids are a rearrangement of the bucket: every repayment is in
    exactly one of these lists.  The assigned totals add up to the bucket's
    amounts minus the unassigned amounts, and each pairing's total is the
    sum of the amounts assigned to it. *)
Theorem allocation_partitions_repayments :
  forall pairings cc_total_of repayments,
    let st := allocate_date pairings cc_total_of repayments in
    let ids := pairing_ids pairings in
    Permutation (unassigned st ++ assigned_all ids st) repayments
    /\ assigned_sum ids st = amounts repayments - amounts (unassigned st)
    /\ (forall k, In k ids ->
          default 0 (assigned_total_by_id st !! k)
          = amounts (default [] (assigned_txns_by_id st !! k)))
    /\ (List.NoDup (List.map p_id pairings) ->
        forall today earliest_of cc_raw_of date_key,
          Py.sum
            (List.map
               (fun p =>
                  match cycle_for_pairing today (earliest_of p) (cc_raw_of p) date_key st p with
                  | Some c => bankTotal c
                  | None => 0
                  end)
               pairings)
          = amounts repayments - amounts (unassigned st)).
Proof.
  intros ps cc_of rs st ids.
  destruct (allocate_date_balance ids ps cc_of rs (pairing_ids_NoDup ps) (pairing_ids_In ps))
    as (Hp & Hs & Hk).
  split; [exact Hp|]. split; [exact Hs|]. split; [exact Hk|].
  intros Hnd today earliest_of cc_raw_of date_key.
  destruct (allocate_date_balance (List.map p_id ps) ps cc_of rs Hnd
              (fun p Hin => in_map p_id ps p Hin)) as (_ & Hs' & Hk').
  fold st in Hs', Hk'. rewrite <- Hs'. unfold assigned_sum. rewrite map_map.
  f_equal. apply map_ext_in. intros p Hin.
  apply cycle_bank_total. rewrite (Hk' _ (in_map p_id ps p Hin)). apply amounts_nonneg.
Qed.

(** ** Calendar months

    [subtract_calendar_months] away from the year bounds of [dt.date]. *)

Lemma days_in_month_range y m : 28 <= Calendar.days_in_month y m <= 31.
Proof.
  unfold Calendar.days_in_month.
  destruct (m =? 2); [destruct (Calendar.is_leap y); lia|].
  destruct (_ || _); lia.
Qed.

Lemma subtract_in_range anchor months :
  Calendar.valid_date (Calendar.year anchor) (Calendar.month anchor) (Calendar.day anchor)
  = true ->
  months < 12 * (Calendar.year anchor - 1) + Calendar.month anchor ->
  Calendar.subtract_raises anchor months = false.
Proof.
  intros Hvalid Hreach. unfold Calendar.subtract_raises, Calendar.subtract_calendar_months.
  destruct (Z.leb_spec months 0) as [|Hpos]; [reflexivity|].
  cbn [Calendar.year Calendar.month Calendar.day].
  set (month0 := Calendar.year anchor * 12 + (Calendar.month anchor - 1) - months).
  unfold Calendar.valid_date in Hvalid.
  repeat (apply andb_prop in Hvalid as [Hvalid ?]).
  pose proof (Z.mod_pos_bound month0 12 ltac:(lia)) as Hmod.
  pose proof (days_in_month_range (month0 / 12) (month0 mod 12 + 1)) as Hdim.
  assert (1 <= month0 / 12 <= 9999) as Hyear.
  { split.
    - apply Z.div_le_lower_bound; unfold month0; lia.
    - apply Z.lt_succ_r. apply Z.div_lt_upper_bound; unfold month0; lia. }
  apply negb_false_iff. unfold Calendar.valid_date.
  repeat (apply andb_true_intro; split); apply Z.leb_le; lia.
Qed.

Lemma subtract_out_of_range anchor months :
  Calendar.valid_date (Calendar.year anchor) (Calendar.month anchor) (Calendar.day anchor)
  = true ->
  12 * (Calendar.year anchor - 1) + Calendar.month anchor <= months ->
  Calendar.subtract_raises anchor months = true.
Proof.
  intros Hvalid Hreach. unfold Calendar.subtract_raises, Calendar.subtract_calendar_months.
  unfold Calendar.valid_date in Hvalid.
  repeat (apply andb_prop in Hvalid as [Hvalid ?]).
  destruct (Z.leb_spec months 0) as [|Hpos]; [lia|].
  cbn [Calendar.year Calendar.month Calendar.day].
  set (month0 := Calendar.year anchor * 12 + (Calendar.month anchor - 1) - months).
  assert (month0 / 12 < 1) as Hyear.
  { apply Z.div_lt_upper_bound; unfold month0; lia. }
  unfold Calendar.valid_date.
  destruct (Z.leb_spec 1 (month0 / 12)); [lia|reflexivity].
Qed.

(** ** The precondition of the allocator *)

Lemma same_bank_spec first p :
  same_bank first p = true
  <-> bank_vendor p = bank_vendor first /\ bank_account_number p = bank_account_number first.
Proof.
  unfold same_bank. rewrite andb_true_iff, String.eqb_eq, opt_str_eqb_eq. reflexivity.
Qed.

(** Claim C9.  Called on a non-empty list of pairings, the allocator
    returns the [ValueError] of its check whenever some later pairing
    differs from the first in bank vendor or bank account number, whatever
    the ledger, the day and the number of months.  When all of them agree
    with the first it returns a dictionary, provided [months_back] does not
    reach back before year 1 from a valid day; when it does, the call ends
    in the exception of [subtract_calendar_months] instead. *)
Theorem mixed_bank_identities_raise :
  forall db today first rest months_back limit,
    ((exists p, In p rest
                /\ (bank_vendor p <> bank_vendor first
                    \/ bank_account_number p <> bank_account_number first)) ->
     calculate_discrepancies_app_for_bank_group db today (first :: rest) months_back limit
     = ValueError "All pairings in a bank group must share bank_vendor + bank_account_number")
    /\ ((forall p, In p rest ->
           bank_vendor p = bank_vendor first
           /\ bank_account_number p = bank_account_number first) ->
        Calendar.valid_date (Calendar.year today) (Calendar.month today) (Calendar.day today)
        = true ->
        (months_back < 12 * (Calendar.year today - 1) + Calendar.month today ->
         exists discrepancies,
           calculate_discrepancies_app_for_bank_group db today (first :: rest) months_back limit
           = Returned discrepancies)
        /\ (12 * (Calendar.year today - 1) + Calendar.month today <= months_back ->
            calculate_discrepancies_app_for_bank_group db today (first :: rest) months_back limit
            = DateError)).
Proof.
  intros db today first rest months limit.
  unfold calculate_discrepancies_app_for_bank_group. split.
  - intros (p & Hin & Hne).
    destruct (forallb (same_bank first) rest) eqn:Hall; [exfalso|reflexivity].
    rewrite forallb_forall in Hall. apply Hall, same_bank_spec in Hin. tauto.
  - intros Hall Hvalid.
    assert (forallb (same_bank first) rest = true) as ->.
    { apply forallb_forall. intros p Hp. now apply same_bank_spec, Hall. }
    split; intros Hreach.
    + rewrite (subtract_in_range _ _ Hvalid Hreach). eauto.
    + rewrite (subtract_out_of_range _ _ Hvalid Hreach). reflexivity.
Qed.

(** ** The discoverer *)

Section InsertionSort.
Context {A : Type} (lt : A -> A -> bool).
Hypothesis lt_asym : forall x y, lt x y = true -> lt y x = false.
Hypothesis ge_trans : forall x y z, lt x y = false -> lt y z = false -> lt x z = false.

Lemma insert_desc_sorted x l :
  StronglySorted (fun a b => lt a b = false) l ->
  StronglySorted (fun a b => lt a b = false) (Py.insert_desc lt x l).
Proof.
  induction l as [|y l IH]; intros Hs; simpl.
  - constructor; constructor.
  - inversion Hs as [|? ? Hl Hy]; subst.
    destruct (lt x y) eqn:Hxy.
    + constructor; [now apply IH|].
      rewrite Forall_forall. intros z Hz.
      apply (Permutation_in _ (insert_desc_perm lt x l)) in Hz as [<-|Hz].
      * now apply lt_asym.
      * rewrite Forall_forall in Hy. now apply Hy.
    + constructor; [exact Hs|].
      constructor; [exact Hxy|].
      rewrite Forall_forall in Hy |- *. intros z Hz. eapply ge_trans; eauto.
Qed.

Lemma sorted_desc_sorted l :
  StronglySorted (fun a b => lt a b = false) (Py.sorted_desc lt l).
Proof.
  induction l as [|x l IH]; simpl; [constructor|].
  now apply insert_desc_sorted.
Qed.
End InsertionSort.

Lemma StronglySorted_weaken {A} (R S : A -> A -> Prop) l :
  (forall a b, R a b -> S a b) -> StronglySorted R l -> StronglySorted S l.
Proof.
  intros HRS. induction 1 as [|x l Hl IH Hx]; constructor; [exact IH|].
  rewrite Forall_forall in Hx |- *. auto.
Qed.

Import Discoverer.

Lemma rank_ltb_false a b : rank_ltb a b = false <-> rank_ge a b.
Proof.
  destruct a as [[a1 a2] a3], b as [[b1 b2] b3]. unfold rank_ltb, rank_ge.
  destruct (Z.ltb_spec a1 b1), (Z.eqb_spec a1 b1), (Z.ltb_spec a2 b2), (Z.eqb_spec a2 b2),
    (Z.ltb_spec a3 b3); simpl; split; intros; try discriminate; try reflexivity; lia.
Qed.

Lemma candidates_sorted groups :
  StronglySorted (fun a b => rank_ge (rank a) (rank b)) (candidates_of groups).
Proof.
  unfold candidates_of.
  eapply StronglySorted_weaken; [|apply sorted_desc_sorted].
  - intros a b H. now apply rank_ltb_false.
  - intros x y H. apply rank_ltb_false.
    assert (rank_ltb (rank y) (rank x) = false \/ rank_ltb (rank y) (rank x) = true) as [E|E]
      by (destruct (rank_ltb (rank y) (rank x)); auto); [now apply rank_ltb_false|].
    exfalso. revert H E. destruct (rank x) as [[a1 a2] a3], (rank y) as [[b1 b2] b3].
    unfold rank_ltb.
    destruct (Z.ltb_spec a1 b1), (Z.eqb_spec a1 b1), (Z.ltb_spec a2 b2), (Z.eqb_spec a2 b2),
      (Z.ltb_spec a3 b3), (Z.ltb_spec b1 a1), (Z.eqb_spec b1 a1), (Z.ltb_spec b2 a2),
      (Z.eqb_spec b2 a2), (Z.ltb_spec b3 a3); simpl; intros; try discriminate; lia.
  - intros x y z H1 H2. apply rank_ltb_false in H1, H2. apply rank_ltb_false.
    revert H1 H2. destruct (rank x) as [[a1 a2] a3], (rank y) as [[b1 b2] b3],
      (rank z) as [[c1 c2] c3]. unfold rank_ge. lia.
Qed.
Lemma existsb_eqb_In (p : string) (seen : list string) :
  existsb (String.eqb p) seen = true <-> In p seen.
Proof.
  rewrite existsb_exists. split.
  - intros (x & Hx & He). apply String.eqb_eq in He. now subst.
  - intros H. exists p. split; [exact H|apply String.eqb_refl].
Qed.

Lemma unique_patterns_In seen l p :
  In p (Text.unique_patterns seen l) <-> p <> "" /\ In p l /\ ~ In p seen.
Proof.
  revert seen. induction l as [|x l IH]; intros seen; simpl; [tauto|].
  destruct (String.eqb_spec x "") as [->|Hx].
  - rewrite IH. intuition congruence.
  - destruct (existsb (String.eqb x) seen) eqn:He.
    + apply existsb_eqb_In in He. rewrite IH. intuition congruence.
    + assert (~ In x seen) as Hn by (rewrite <- existsb_eqb_In, He; discriminate).
      simpl. rewrite IH. simpl.
      destruct (String.eqb_spec x p) as [->|Hxp]; intuition congruence.
Qed.

Lemma unique_patterns_NoDup seen l : List.NoDup (Text.unique_patterns seen l).
Proof.
  revert seen. induction l as [|x l IH]; intros seen; simpl; [constructor|].
  destruct (String.eqb x ""); [apply IH|].
  destruct (existsb (String.eqb x) seen); [apply IH|].
  constructor; [|apply IH].
  rewrite unique_patterns_In. simpl. tauto.
Qed.

Lemma unique_patterns_sublist seen l : sublist (Text.unique_patterns seen l) l.
Proof.
  revert seen. induction l as [|x l IH]; intros seen; simpl; [constructor|].
  destruct (String.eqb x ""); [constructor; apply IH|].
  destruct (existsb (String.eqb x) seen); constructor; apply IH.
Qed.

Lemma raw_match_patterns_In vendor acct p :
  p <> "" ->
  (In p (Text.raw_match_patterns vendor acct)
   <-> In p (Text.vendor_keywords vendor) \/ acct = Some p
       \/ Text.get_account_last4 acct = Some p).
Proof.
  intros Hp. unfold Text.raw_match_patterns. rewrite in_app_iff.
  destruct acct as [a|].
  - destruct (String.eqb_spec a "") as [->|Ha].
    + simpl. intuition congruence.
    + destruct (Text.get_account_last4 (Some a)) as [l4|] eqn:Hl.
      * destruct (String.eqb_spec l4 a) as [->|Hne]; simpl; intuition congruence.
      * simpl. intuition congruence.
  - simpl. intuition congruence.
Qed.

Lemma filter_all_false {A} (f : A -> bool) l :
  (forall x, In x l -> f x = false) -> List.filter f l = [].
Proof.
  induction l as [|x l IH]; intros H; cbn; [reflexivity|].
  rewrite (H x (or_introl eq_refl)). apply IH. intros y Hy. apply H. now right.
Qed.

Lemma firstn_In_In {A} n (l : list A) x : In x (firstn n l) -> In x l.
Proof.
  revert l. induction n as [|n IH]; intros [|y l]; cbn; try tauto.
  intros [->|H]; auto.
Qed.

(** *** The rows the discoverer reads *)

Lemma joined_rows_In db (keep : transaction -> bool) t :
  In t (join_repayment_category db (List.filter keep (transactions db)))
  <-> In t (transactions db) /\ keep t = true
      /\ exists cd, In cd (category_definitions db)
                    /\ t_category_definition_id t = Some (cd_id cd)
                    /\ repayment_category cd = true.
Proof.
  unfold join_repayment_category. rewrite in_flat_map. split.
  - intros (t0 & Ht0 & Hmap). apply in_map_iff in Hmap as (cd & <- & Hcd).
    apply filter_In in Ht0 as [Hdb Hk]. apply filter_In in Hcd as [Hcd Hc].
    split; [exact Hdb|]. split; [exact Hk|]. exists cd. split; [exact Hcd|].
    destruct (t_category_definition_id t0) as [c|]; [|discriminate].
    apply andb_prop in Hc as [Hid Hrep]. apply Z.eqb_eq in Hid. now subst.
  - intros (Hdb & Hk & cd & Hcd & Hid & Hrep). exists t.
    split; [apply filter_In; auto|]. apply in_map_iff. exists cd. split; [reflexivity|].
    apply filter_In. split; [exact Hcd|]. rewrite Hid, Z.eqb_refl. exact Hrep.
Qed.

Lemma candidate_rows_In db bvf baf limit t :
  In t (candidate_rows db bvf baf limit) ->
  In t (transactions db) /\ t_price t < 0
  /\ ~ In (t_vendor t) (List.map fst Text.VENDOR_KEYWORDS)
  /\ (Py.truthy bvf = true -> bvf = Some (t_vendor t))
  /\ (Py.truthy baf = true -> t_account_number t = baf).
Proof.
  unfold candidate_rows, Py.sql_limit. intros Hin.
  assert (In t (Py.sorted_desc (fun a b => String.ltb (t_date a) (t_date b))
                  (join_repayment_category db
                     (List.filter
                        (fun t => negb (existsb (String.eqb (t_vendor t)) cc_vendors)
                                  && (if Py.truthy bvf
                                      then Py.opt_str_eqb (Some (t_vendor t)) bvf else true)
                                  && account_filter baf t
                                  && (t_price t <? 0))
                        (transactions db))))) as Hin'.
  { destruct (limit <? 0); [exact Hin|]. eapply firstn_In_In; exact Hin. }
  apply sorted_desc_In in Hin'. unfold join_repayment_category in Hin'.
  apply in_flat_map in Hin' as (t0 & Ht0 & Hmap).
  apply in_map_iff in Hmap as (cd & <- & _).
  apply filter_In in Ht0 as [Hdb Hf].
  repeat (apply andb_prop in Hf as [Hf ?]).
  split; [exact Hdb|]. split; [lia|]. split; [|split].
  - intros Hcc. apply negb_true_iff in Hf.
    assert (existsb (String.eqb (t_vendor t0)) cc_vendors = true) as He; [|congruence].
    apply existsb_eqb_In. unfold cc_vendors. now apply sorted_asc_In.
  - intros Ht. rewrite Ht in *. symmetry. now apply opt_str_eqb_eq.
  - intros Ht. unfold account_filter in *. rewrite Ht in *. now apply opt_str_eqb_eq.
Qed.

(** Every row read is a bank repayment row of the ledger; without a limit
    every such row is read, and with a limit other than 0 at least one is
    whenever the ledger has one. *)
Lemma candidate_rows_spec db bvf baf limit :
  let rows := candidate_rows db bvf baf limit in
  (forall t, In t rows -> Facts.bank_repayment_row db bvf baf t)
  /\ (limit < 0 -> forall t, Facts.bank_repayment_row db bvf baf t -> In t rows)
  /\ (limit <> 0 -> forall t, Facts.bank_repayment_row db bvf baf t -> rows <> []).
Proof.
  intros rows.
  set (keep := fun t : transaction =>
                 negb (existsb (String.eqb (t_vendor t)) cc_vendors)
                 && (if Py.truthy bvf then Py.opt_str_eqb (Some (t_vendor t)) bvf else true)
                 && account_filter baf t
                 && (t_price t <? 0)).
  set (all := Py.sorted_desc (fun a b => String.ltb (t_date a) (t_date b))
                (join_repayment_category db (List.filter keep (transactions db)))).
  assert (forall t, In t all <-> Facts.bank_repayment_row db bvf baf t) as Hall.
  { intros t. unfold all. rewrite sorted_desc_In, joined_rows_In.
    unfold Facts.bank_repayment_row.
    assert (keep t = true
            <-> t_price t < 0
                /\ ~ In (t_vendor t) (List.map fst Text.VENDOR_KEYWORDS)
                /\ (Py.truthy bvf = true -> bvf = Some (t_vendor t))
                /\ (Py.truthy baf = true -> t_account_number t = baf)) as Hkeep.
    { unfold keep, account_filter.
      rewrite !andb_true_iff, negb_true_iff, Z.ltb_lt.
      assert (existsb (String.eqb (t_vendor t)) cc_vendors = false
              <-> ~ In (t_vendor t) (List.map fst Text.VENDOR_KEYWORDS)) as ->.
      { rewrite <- not_true_iff_false, existsb_eqb_In. unfold cc_vendors.
        now rewrite sorted_asc_In. }
      destruct (Py.truthy bvf), (Py.truthy baf); rewrite ?opt_str_eqb_eq;
        intuition (congruence || auto). }
    rewrite Hkeep. tauto. }
  assert (rows = Py.sql_limit limit all) as Hrows by reflexivity.
  unfold Py.sql_limit in Hrows.
  split; [|split].
  - intros t Ht. apply Hall. rewrite Hrows in Ht.
    destruct (limit <? 0); [exact Ht|]. eapply firstn_In_In; exact Ht.
  - intros Hneg t Ht. rewrite Hrows. apply Z.ltb_lt in Hneg. rewrite Hneg. now apply Hall.
  - intros Hlimit t Ht. apply Hall in Ht. rewrite Hrows.
    destruct (Z.ltb_spec limit 0); [intros Heq; rewrite Heq in Ht; destruct Ht|].
    destruct all as [|x all']; [destruct Ht|].
    destruct (Z.to_nat limit) eqn:Hn; [lia|]. discriminate.
Qed.

(** *** The groups the discoverer builds *)

Lemma record_row_key cc_last4 v t g :
  bankVendor (record_row cc_last4 v t g) = bankVendor g
  /\ bankAccountNumber (record_row cc_last4 v t g) = bankAccountNumber g.
Proof. split; reflexivity. Qed.

Lemma add_row_spec cc_last4 v t groups :
  (In (Facts.row_group_key t) (List.map fst groups) ->
   exists pre g post,
     groups = (pre ++ (Facts.row_group_key t, g) :: post)%list
     /\ ~ In (Facts.row_group_key t) (List.map fst pre)
     /\ add_row cc_last4 v t groups
        = (pre ++ (Facts.row_group_key t, record_row cc_last4 v t g) :: post)%list)
  /\ (~ In (Facts.row_group_key t) (List.map fst groups) ->
      add_row cc_last4 v t groups
      = (groups ++ [(Facts.row_group_key t, record_row cc_last4 v t (empty_group t))])%list).
Proof.
  unfold Facts.row_group_key.
  induction groups as [|[k g] groups IH]; cbn [add_row List.map fst In].
  - split; [intros []|reflexivity].
  - destruct (String.eqb_spec k (group_key (t_vendor t) (t_account_number t))) as [->|Hne].
    + split; [|intros Hn; exfalso; apply Hn; now left].
      intros _. exists [], g, groups. split; [reflexivity|]. split; [intros []|reflexivity].
    + destruct IH as [IHin IHout]. split.
      * intros [Heq|Hin]; [congruence|].
        destruct (IHin Hin) as (pre & g' & post & -> & Hpre & ->).
        exists ((k, g) :: pre), g', post. split; [reflexivity|]. split; [|reflexivity].
        cbn. intros [Heq|Hin']; [congruence|auto].
      * intros Hn. rewrite IHout by (intros Hin; apply Hn; now right). reflexivity.
Qed.

Lemma rows_of_snoc seen t g :
  Facts.rows_of (seen ++ [t]) g
  = (Facts.rows_of seen g
     ++ if String.eqb (Facts.row_group_key t) (group_key (bankVendor g) (bankAccountNumber g))
        then [t] else [])%list.
Proof. unfold Facts.rows_of. rewrite List.filter_app. reflexivity. Qed.

Lemma group_counts_other cc_last4 v seen t g :
  Facts.row_group_key t <> group_key (bankVendor g) (bankAccountNumber g) ->
  Facts.group_counts cc_last4 v seen g -> Facts.group_counts cc_last4 v (seen ++ [t]) g.
Proof.
  intros Hne Hg. unfold Facts.group_counts in *. rewrite rows_of_snoc.
  apply String.eqb_neq in Hne. rewrite Hne, app_nil_r. exact Hg.
Qed.

Lemma length_filter_snoc {A} (f : A -> bool) l x :
  Z.of_nat (List.length (List.filter f (l ++ [x])))
  = if f x then Z.of_nat (List.length (List.filter f l)) + 1
    else Z.of_nat (List.length (List.filter f l)).
Proof.
  rewrite List.filter_app, length_app. cbn [List.filter].
  destruct (f x); cbn [List.length]; lia.
Qed.

Lemma group_counts_record cc_last4 v seen t g :
  Facts.row_group_key t = group_key (bankVendor g) (bankAccountNumber g) ->
  Facts.group_counts cc_last4 v seen g ->
  Facts.group_counts cc_last4 v (seen ++ [t]) (record_row cc_last4 v t g).
Proof.
  intros Hkey ((first & rest & Hmine & Hv & Ha) & Htx & Hl4 & Hvc).
  assert (Facts.rows_of (seen ++ [t]) (record_row cc_last4 v t g)
          = (Facts.rows_of seen g ++ [t])%list) as Hrows.
  { rewrite rows_of_snoc. unfold Facts.rows_of. cbn [record_row bankVendor bankAccountNumber].
    rewrite Hkey, String.eqb_refl. reflexivity. }
  unfold Facts.group_counts. rewrite Hrows. split; [|split; [|split]].
  - exists first, (rest ++ [t])%list. rewrite Hmine. auto.
  - cbn [record_row g_transactions]. rewrite Htx, List.map_app. reflexivity.
  - cbn [record_row matchingLast4Count]. rewrite length_filter_snoc, Hl4. reflexivity.
  - cbn [record_row matchingVendorCount]. rewrite length_filter_snoc, Hvc. reflexivity.
Qed.

Lemma group_counts_new cc_last4 v seen t :
  (forall t', In t' seen -> Facts.row_group_key t' <> Facts.row_group_key t) ->
  Facts.group_counts cc_last4 v (seen ++ [t]) (record_row cc_last4 v t (empty_group t)).
Proof.
  intros Hfresh.
  assert (Facts.rows_of (seen ++ [t]) (record_row cc_last4 v t (empty_group t)) = [t]) as Hrows.
  { rewrite rows_of_snoc. unfold Facts.rows_of.
    cbn [record_row empty_group bankVendor bankAccountNumber].
    fold (Facts.row_group_key t). rewrite String.eqb_refl.
    rewrite filter_all_false; [reflexivity|].
    intros t' Ht'. apply String.eqb_neq. now apply Hfresh. }
  unfold Facts.group_counts. rewrite Hrows. split; [|split; [|split]].
  - exists t, []. auto.
  - reflexivity.
  - cbn [record_row empty_group matchingLast4Count List.filter].
    destruct (has_last4 _ _); reflexivity.
  - cbn [record_row empty_group matchingVendorCount List.filter].
    destruct (Text.name_contains_vendor _ _); reflexivity.
Qed.

(** The groups after a number of rows: one per key, each summing up the
    rows of its key. *)
Lemma build_groups_counts cc_last4 v rows :
  let groups := build_groups cc_last4 v rows in
  List.NoDup (List.map fst groups)
  /\ (forall k g, In (k, g) groups ->
        k = group_key (bankVendor g) (bankAccountNumber g)
        /\ Facts.group_counts cc_last4 v rows g)
  /\ (forall t, In t rows -> In (Facts.row_group_key t) (List.map fst groups)).
Proof.
  unfold build_groups.
  assert (forall rest seen groups,
             (List.NoDup (List.map fst groups)
              /\ (forall k g, In (k, g) groups ->
                    k = group_key (bankVendor g) (bankAccountNumber g)
                    /\ Facts.group_counts cc_last4 v seen g)
              /\ (forall t, In t seen -> In (Facts.row_group_key t) (List.map fst groups))) ->
             let final := fold_left (fun gs t => add_row cc_last4 v t gs) rest groups in
             List.NoDup (List.map fst final)
             /\ (forall k g, In (k, g) final ->
                   k = group_key (bankVendor g) (bankAccountNumber g)
                   /\ Facts.group_counts cc_last4 v (seen ++ rest) g)
             /\ (forall t, In t (seen ++ rest) -> In (Facts.row_group_key t) (List.map fst final)))
    as Hgen.
  { induction rest as [|t rest IH]; intros seen groups Hinv; cbn [fold_left].
    - rewrite app_nil_r. exact Hinv.
    - replace (seen ++ t :: rest)%list with ((seen ++ [t]) ++ rest)%list
        by (rewrite <- app_assoc; reflexivity).
      apply IH. destruct Hinv as (Hnd & Hgroups & Hseen).
      destruct (add_row_spec cc_last4 v t groups) as [Hfound Hfresh].
      destruct (in_dec String.string_dec (Facts.row_group_key t) (List.map fst groups))
        as [Hin|Hout].
      + destruct (Hfound Hin) as (pre & g & post & -> & Hpre & ->).
        rewrite List.map_app in Hnd |- *. cbn [List.map fst] in Hnd |- *.
        split; [exact Hnd|].
        assert (group_key (bankVendor g) (bankAccountNumber g) = Facts.row_group_key t) as Hkg.
        { symmetry. apply (Hgroups _ g). apply in_or_app. right. now left. }
        split.
        * intros k g' Hkg'. apply in_app_or in Hkg' as [Hkg'|[[= <- <-]|Hkg']].
          -- destruct (Hgroups k g') as [Hk Hc]; [apply in_or_app; now left|].
             split; [exact Hk|]. apply group_counts_other; [|exact Hc].
             rewrite <- Hk. intros Heq. apply Hpre. rewrite Heq.
             apply (in_map fst _ _ Hkg').
          -- split; [cbn [record_row bankVendor bankAccountNumber]; now rewrite Hkg|].
             apply group_counts_record; [now rewrite Hkg|].
             apply (Hgroups (Facts.row_group_key t)). apply in_or_app. right. now left.
          -- destruct (Hgroups k g') as [Hk Hc]; [apply in_or_app; right; now right|].
             split; [exact Hk|]. apply group_counts_other; [|exact Hc].
             rewrite <- Hk. intros Heq.
             apply (List.NoDup_remove_2 _ _ _ Hnd). apply in_or_app. right.
             rewrite Heq. apply (in_map fst _ _ Hkg').
        * intros t' Ht'.
          apply in_app_or in Ht' as [Ht'|[<-|[]]].
          -- specialize (Hseen t' Ht'). rewrite List.map_app in Hseen. exact Hseen.
          -- apply in_or_app. right. now left.
      + rewrite (Hfresh Hout). rewrite List.map_app. cbn [List.map fst].
        split; [|split].
        * apply List.NoDup_app; [exact Hnd|repeat constructor; intros []|].
          intros k Hk [<-|[]]. contradiction.
        * intros k g' Hkg'. apply in_app_or in Hkg' as [Hkg'|[[= <- <-]|[]]].
          -- destruct (Hgroups k g' Hkg') as [Hk Hc]. split; [exact Hk|].
             apply group_counts_other; [|exact Hc].
             rewrite <- Hk. intros Heq. apply Hout. rewrite Heq.
             apply (in_map fst _ _ Hkg').
          -- split; [reflexivity|]. apply group_counts_new.
             intros t' Ht' Heq. apply Hout. rewrite <- Heq. now apply Hseen.
        * intros t' Ht'. apply in_app_or in Ht' as [Ht'|[<-|[]]].
          -- apply in_or_app. left. now apply Hseen.
          -- apply in_or_app. right. now left. }
  cbv zeta. apply (Hgen rows [] []). split; [constructor|].
  split; [intros k g []|intros t []].
Qed.

(** Claim C7.  For a named card vendor, the discoverer reads the bank
    repayment rows of the ledger (all of them without a limit, some of
    them with a limit other than 0 when there are any) and builds one
    group per bank account, each with the rows of that account and the
    counts of those whose description holds the card's last four digits or
    a keyword of the card's vendor.  Its candidates are exactly the groups
    with a positive last-4 or vendor count, ordered so that none comes
    below a later one in the lexicographic order on (matchingLast4Count,
    matchingVendorCount, number of transactions).  Without rows, or
    without candidates, the outcome is [NotFound] with its reason;
    otherwise it is [Found] with the first candidate's identity and counts,
    the next two candidates at most as runner-ups, and match patterns that
    hold each non-empty vendor keyword, the account number and its last-4
    once, in that order of first appearance. *)
Theorem discoverer_ranks_referenced_groups :
  forall db credit_card_vendor credit_card_account bank_vendor_filter bank_account_filter limit,
    credit_card_vendor <> "" ->
    let cc_last4 := Text.get_account_last4 credit_card_account in
    let rows := candidate_rows db bank_vendor_filter bank_account_filter limit in
    let groups := List.map snd (build_groups cc_last4 credit_card_vendor rows) in
    let candidates := candidates_of (build_groups cc_last4 credit_card_vendor rows) in
    let outcome :=
      find_best_bank_account_app db credit_card_vendor credit_card_account
        bank_vendor_filter bank_account_filter limit in
    ((forall t, In t rows ->
        Facts.bank_repayment_row db bank_vendor_filter bank_account_filter t)
     /\ (limit < 0 ->
         forall t, Facts.bank_repayment_row db bank_vendor_filter bank_account_filter t ->
                   In t rows)
     /\ (limit <> 0 ->
         forall t, Facts.bank_repayment_row db bank_vendor_filter bank_account_filter t ->
                   rows <> []))
    /\ ((forall g, In g groups -> Facts.group_counts cc_last4 credit_card_vendor rows g)
        /\ (forall t, In t rows -> exists g, In g groups /\ In t (Facts.rows_of rows g)))
    /\ (forall g, In g candidates <->
                  In g groups /\ (0 < matchingLast4Count g \/ 0 < matchingVendorCount g))
    /\ Permutation candidates
         (List.filter (fun g => (0 <? matchingLast4Count g) || (0 <? matchingVendorCount g))
                      groups)
    /\ StronglySorted Facts.ranks_no_lower candidates
    /\ (rows = [] -> outcome = NotFound "No bank repayment transactions found")
    /\ (rows <> [] -> candidates = [] ->
        outcome = NotFound
                    (String.append "No bank repayments reference this credit card (last4: "
                       (String.append (Py.str_or cc_last4 "unknown") ")")))
    /\ (forall best others,
          rows <> [] -> candidates = best :: others ->
          exists s,
            outcome = Found s
            /\ s_bankVendor s = bankVendor best
            /\ s_bankAccountNumber s = bankAccountNumber best
            /\ transactionCount s = Z.of_nat (List.length (g_transactions best))
            /\ s_matchingLast4Count s = matchingLast4Count best
            /\ s_matchingVendorCount s = matchingVendorCount best
            /\ otherCandidates s
               = List.map
                   (fun c => {| o_bankVendor := bankVendor c;
                                o_bankAccountNumber := bankAccountNumber c;
                                o_transactionCount :=
                                  Z.of_nat (List.length (g_transactions c)) |})
                   (firstn 2 others)
            /\ (List.length (otherCandidates s) <= 2)%nat
            /\ List.NoDup (matchPatterns s)
            /\ sublist (matchPatterns s)
                 (Text.vendor_keywords credit_card_vendor
                  ++ match credit_card_account with
                     | Some a => a :: match cc_last4 with Some l => [l] | None => [] end
                     | None => []
                     end)%list
            /\ (forall p, In p (matchPatterns s) <->
                  p <> ""
                  /\ (In p (Text.vendor_keywords credit_card_vendor)
                      \/ credit_card_account = Some p
                      \/ cc_last4 = Some p))).
Proof.
  intros db vendor acct bvf baf limit Hv cc_last4 rows groups candidates outcome.
  assert (Permutation candidates (List.filter referenced groups)) as Hperm
      by apply sorted_desc_perm.
  destruct (build_groups_counts cc_last4 vendor rows) as (_ & Hcounts & Hcover).
  split; [apply candidate_rows_spec|].
  split; [split|].
  { intros g Hg. apply in_map_iff in Hg as ([k g'] & <- & Hkg). now apply (Hcounts k). }
  { intros t Ht. specialize (Hcover t Ht). apply in_map_iff in Hcover as ([k g] & Hk & Hkg).
    cbn [fst] in Hk. subst k. exists g. split; [apply (in_map snd _ _ Hkg)|].
    unfold Facts.rows_of. apply filter_In. split; [exact Ht|].
    destruct (Hcounts _ _ Hkg) as [Hkey _]. rewrite <- Hkey. apply String.eqb_refl. }
  split; [|split; [|split; [|split; [|split]]]].
  - intros g. split.
    + intros Hg. apply (Permutation_in _ Hperm), filter_In in Hg as [Hg Hr].
      split; [exact Hg|]. unfold referenced in Hr. apply orb_prop in Hr. lia.
    + intros [Hg Hr]. apply (Permutation_in _ (Permutation_sym Hperm)), filter_In.
      split; [exact Hg|]. unfold referenced. apply orb_true_iff. lia.
  - exact Hperm.
  - eapply StronglySorted_weaken; [|apply candidates_sorted].
    intros a b. unfold rank, rank_ge, Facts.ranks_no_lower. lia.
  - intros Hrows. unfold outcome, find_best_bank_account_app.
    apply String.eqb_neq in Hv. rewrite Hv. fold rows. now rewrite Hrows.
  - intros Hrows Hc. unfold outcome, find_best_bank_account_app.
    apply String.eqb_neq in Hv. rewrite Hv. fold rows cc_last4.
    destruct rows as [|r0 rows0] eqn:Er; [congruence|].
    fold candidates. now rewrite Hc.
  - intros best others Hrows Hc. unfold outcome, find_best_bank_account_app.
    apply String.eqb_neq in Hv. rewrite Hv. fold rows cc_last4.
    destruct rows as [|r0 rows0] eqn:Er; [congruence|].
    fold candidates. rewrite Hc.
    eexists. split; [reflexivity|]. simpl.
    repeat (split; [reflexivity|]).
    split; [match goal with
            | |- (List.length (List.map ?f ?l) <= 2)%nat =>
                rewrite (length_map f l); apply firstn_le_length
            end|].
    split; [apply unique_patterns_NoDup|].
    split.
    { etransitivity; [apply unique_patterns_sublist|].
      unfold Text.raw_match_patterns. apply sublist_app; [reflexivity|].
      destruct acct as [a|]; [|reflexivity].
      destruct (String.eqb a ""); [apply sublist_nil_l|].
      apply sublist_skip. fold cc_last4. destruct cc_last4 as [l|]; [|reflexivity].
      destruct (String.eqb l a); [apply sublist_nil_l|reflexivity]. }
    intros p. unfold Text.build_match_patterns. rewrite unique_patterns_In.
    split.
    + intros (Hp & Hin & _). split; [exact Hp|]. now apply raw_match_patterns_In.
    + intros (Hp & Hin). split; [exact Hp|]. split; [now apply raw_match_patterns_In|auto].
Qed.
(** ** The matcher's greedy accumulation *)

Import Matcher.

Lemma accumulate_bound make amount expenses st :
  running_sum st <= amount + TOLERANCE ->
  running_sum (accumulate make amount expenses st) <= amount + TOLERANCE.
Proof.
  revert st. induction expenses as [|e rest IH]; intros st Hst; simpl; [exact Hst|].
  destruct (Amount.le (running_sum st + Z.abs (t_price e)) (amount + TOLERANCE)) eqn:Hle;
    [apply le_true in Hle|now apply IH].
  destruct (Amount.le _ TOLERANCE); [exact Hle|]. apply IH. exact Hle.
Qed.

Lemma matched_sum_of_app a b :
  matched_sum_of (a ++ b) = matched_sum_of a + matched_sum_of b.
Proof.
  unfold matched_sum_of. induction a as [|x a IH]; simpl; [reflexivity|]. rewrite IH. lia.
Qed.

(** The running sum is the sum of the matches collected so far. *)
Lemma accumulate_sum make amount expenses st :
  (forall e, expense_amount (make e) = Z.abs (t_price e)) ->
  running_sum st = matched_sum_of (matches st) ->
  running_sum (accumulate make amount expenses st)
  = matched_sum_of (matches (accumulate make amount expenses st)).
Proof.
  intros Hmake. revert st. induction expenses as [|e rest IH]; intros st Hst; simpl; [exact Hst|].
  assert (running_sum st + Z.abs (t_price e)
          = matched_sum_of (matches st ++ [make e])) as Hnext.
  { rewrite matched_sum_of_app, <- Hst. unfold matched_sum_of at 1. simpl. rewrite Hmake. lia. }
  destruct (Amount.le _ (amount + TOLERANCE)); [|now apply IH].
  destruct (Amount.le _ TOLERANCE); [exact Hnext|]. apply IH. exact Hnext.
Qed.

Lemma match_period_bound db r already lookback d vendor card :
  matched_sum_of (fst (match_period db r already lookback d vendor card))
  <= Z.abs (t_price r) + TOLERANCE.
Proof.
  unfold match_period. destruct (get_billing_period d) as [ps pe].
  destruct (filter_already_matched _ _) as [|e0 es] eqn:He.
  - simpl. unfold matched_sum_of, TOLERANCE. simpl. lia.
  - set (st1 := accumulate _ _ (e0 :: es) _).
    assert (running_sum st1 <= Z.abs (t_price r) + TOLERANCE) as Hb1.
    { apply accumulate_bound. simpl. unfold TOLERANCE. lia. }
    assert (running_sum st1 = matched_sum_of (matches st1)) as Hs1.
    { apply accumulate_sum; [reflexivity|reflexivity]. }
    match goal with
    | |- context [if ?c then accumulate ?mk ?a ?ex st1 else st1] =>
        set (st2 := if c then accumulate mk a ex st1 else st1)
    end.
    assert (running_sum st2 <= Z.abs (t_price r) + TOLERANCE
            /\ running_sum st2 = matched_sum_of (matches st2)) as [Hb2 Hs2].
    { unfold st2. destruct (Amount.gt _ TOLERANCE); [|auto].
      split; [now apply accumulate_bound|now apply accumulate_sum]. }
    simpl. lia.
Qed.

(** What the amount test of the look-back queries lets through, and what
    it is sure to let through. *)
Lemma near_expense_spec vendor card from to amount slack t :
  (near_expense vendor card from to amount slack t = true ->
   t_vendor t = vendor
   /\ t_account_number t = Some card
   /\ t_price t < 0
   /\ String.leb from (t_date t) = true
   /\ String.leb (t_date t) to = true
   /\ Z.abs (Z.abs (t_price t) - amount) <= slack)
  /\ (t_vendor t = vendor
      /\ t_account_number t = Some card
      /\ t_price t < 0
      /\ String.leb from (t_date t) = true
      /\ String.leb (t_date t) to = true
      /\ Z.abs (Z.abs (t_price t) - amount) < slack ->
      near_expense vendor card from to amount slack t = true).
Proof.
  unfold near_expense.
  rewrite !andb_true_iff, String.eqb_eq, opt_str_eqb_eq, Z.ltb_lt. split.
  - intros (((((Hv & Ha) & Hp) & Hf) & Ht) & Hn). apply lt_true in Hn. tauto.
  - intros (Hv & Ha & Hp & Hf & Ht & Hn). apply lt_of_lt in Hn. tauto.
Qed.

Lemma near_expense_amount vendor card from to amount slack t :
  near_expense vendor card from to amount slack t = true ->
  Z.abs (Z.abs (t_price t) - amount) <= slack.
Proof. intros H. now apply near_expense_spec in H. Qed.

Lemma check_immediate_payment_sound db amount d vendor card t :
  check_immediate_payment db amount d vendor card = Some t ->
  In t (transactions db)
  /\ near_expense vendor card (Calendar.isoformat (Calendar.minus_days d 7))
       (Calendar.isoformat d) amount 100 t = true
  /\ not_persisted db vendor t = true.
Proof.
  unfold check_immediate_payment.
  destruct (Py.sorted_desc _ _) as [|t0 ts] eqn:Hs; [discriminate|].
  intros [= <-].
  assert (In t0 (Py.sorted_desc (fun a b => String.ltb (t_date a) (t_date b))
                   (List.filter
                      (fun t => near_expense vendor card
                                  (Calendar.isoformat (Calendar.minus_days d 7))
                                  (Calendar.isoformat d) amount 100 t
                                && not_persisted db vendor t)
                      (transactions db)))) as Hin by (rewrite Hs; now left).
  apply sorted_desc_In, filter_In in Hin as [Hin Hf].
  apply andb_prop in Hf. tauto.
Qed.

(** Claim C10.  Started from a running sum within the repayment plus
    [TOLERANCE], the greedy accumulation keeps the running sum within that
    bound after any number of expenses, so also when the carryover step
    continues from the billing period's sum; the matches of the
    billing-period and carryover steps, and of any call of
    [match_repayment_to_expenses] that returns, add up to at most the
    repayment amount plus [TOLERANCE]. *)
Theorem greedy_accumulation_stays_within_tolerance :
  (forall make repayment_amount expenses st n,
      running_sum st <= repayment_amount + TOLERANCE ->
      running_sum (accumulate make repayment_amount (firstn n expenses) st)
      <= repayment_amount + TOLERANCE)
  /\ (forall db repayment_row already_matched max_lookback_days repayment_date cc_vendor card,
        matched_sum_of
          (fst (match_period db repayment_row already_matched max_lookback_days
                  repayment_date cc_vendor card))
        <= Z.abs (t_price repayment_row) + TOLERANCE)
  /\ (forall db repayment_row already_matched max_lookback_days ms st,
        match_repayment_to_expenses db repayment_row already_matched max_lookback_days
        = Some (ms, st) ->
        matched_sum_of ms <= Z.abs (t_price repayment_row) + TOLERANCE).
Proof.
  split; [|split].
  - intros. now apply accumulate_bound.
  - intros. apply match_period_bound.
  - intros db r already lookback ms st. unfold match_repayment_to_expenses.
    destruct (to_datetime (t_date r)) as [d|]; [|discriminate].
    destruct (get_card_from_repayment_name db (t_name r)) as [[card|] [vendor|]];
      try (intros [= <- <-]; unfold matched_sum_of, TOLERANCE; simpl; lia).
    destruct (String.eqb card "");
      [intros [= <- <-]; unfold matched_sum_of, TOLERANCE; simpl; lia|].
    destruct (is_sauvage_repayment db r card vendor) as [s|]; [|discriminate].
    destruct (if s then check_immediate_payment db (Z.abs (t_price r)) d vendor card else None)
      as [im|] eqn:Him.
    + intros [= <- <-]. destruct s; [|discriminate].
      apply check_immediate_payment_sound in Him as (_ & Hn & _).
      apply near_expense_amount in Hn.
      unfold matched_sum_of, TOLERANCE. simpl. lia.
    + intros [= Hm].
      pose proof (match_period_bound db r already lookback d vendor card) as Hb.
      rewrite Hm in Hb. exact Hb.
Qed.

(** ** Sauvage repayments *)

Lemma check_immediate_payment_complete db amount d vendor card e :
  In e (transactions db) ->
  near_expense vendor card (Calendar.isoformat (Calendar.minus_days d 7))
    (Calendar.isoformat d) amount 100 e = true ->
  not_persisted db vendor e = true ->
  exists t, check_immediate_payment db amount d vendor card = Some t.
Proof.
  intros Hin Hn Hp. unfold check_immediate_payment.
  destruct (Py.sorted_desc _ _) as [|t ts] eqn:Hs; [exfalso|eauto].
  assert (In e []) as H; [|destruct H].
  rewrite <- Hs. apply sorted_desc_In, filter_In. split; [exact Hin|].
  now rewrite Hn, Hp.
Qed.

(** Claim C8, with the amount test as the queries make it.  A repayment
    dated after the 15th is sauvage.  A sauvage repayment of an identified
    card, for which the ledger has an unmatched outgoing transaction of
    that card (one that no persisted match lists and no earlier match of
    the run has taken), dated between the ISO day seven days before the
    repayment and the repayment's ISO day as text, and less than 1.00 away
    from the repayment in amount, returns exactly one match, by method
    [sauvage_payment] with confidence 1, to a transaction of that card in
    that window, at most 1.00 away in amount, that no persisted match
    lists.  The amount test lets through every amount less than the slack
    away and none more than the slack away; amounts exactly the slack apart
    are left to the doubles compared.  The repayment of 1,200.00 on the
    20th with a purchase of 1,199.50 two days earlier yields that single
    match. *)
Theorem sauvage_repayment_takes_one_near_expense :
  (forall db repayment_row card cc_vendor d,
      to_datetime (t_date repayment_row) = Some d ->
      15 < Calendar.day d ->
      is_sauvage_repayment db repayment_row card cc_vendor = Some true)
  /\ (forall db repayment_row card cc_vendor d,
        to_datetime (t_date repayment_row) = Some d ->
        15 < Calendar.day d ->
        get_card_from_repayment_name db (t_name repayment_row) = (Some card, Some cc_vendor) ->
        card <> "" ->
        goes_sauvage db repayment_row = Some true)
  /\ (forall db repayment_row already_matched max_lookback_days d card cc_vendor e,
        to_datetime (t_date repayment_row) = Some d ->
        get_card_from_repayment_name db (t_name repayment_row) = (Some card, Some cc_vendor) ->
        card <> "" ->
        is_sauvage_repayment db repayment_row card cc_vendor = Some true ->
        In e (transactions db) ->
        t_vendor e = cc_vendor ->
        t_account_number e = Some card ->
        t_price e < 0 ->
        String.leb (Calendar.isoformat (Calendar.minus_days d 7)) (t_date e) = true ->
        String.leb (t_date e) (Calendar.isoformat d) = true ->
        Z.abs (Z.abs (t_price e) - Z.abs (t_price repayment_row)) < 100 ->
        not_persisted db cc_vendor e = true ->
        (t_identifier e, t_vendor e) ∉ already_matched ->
        exists chosen,
          match_repayment_to_expenses db repayment_row already_matched max_lookback_days
          = Some ([make_match repayment_row d card sauvage_payment chosen],
                  sauvage_stats (Z.abs (t_price chosen)))
          /\ match_method_of (make_match repayment_row d card sauvage_payment chosen)
             = sauvage_payment
          /\ match_confidence (make_match repayment_row d card sauvage_payment chosen) = 1%Q
          /\ In chosen (transactions db)
          /\ t_vendor chosen = cc_vendor
          /\ t_account_number chosen = Some card
          /\ t_price chosen < 0
          /\ String.leb (Calendar.isoformat (Calendar.minus_days d 7)) (t_date chosen) = true
          /\ String.leb (t_date chosen) (Calendar.isoformat d) = true
          /\ Z.abs (Z.abs (t_price chosen) - Z.abs (t_price repayment_row)) <= 100
          /\ not_persisted db cc_vendor chosen = true)
  /\ (forall cc_vendor card from to amount slack t,
        (near_expense cc_vendor card from to amount slack t = true ->
         t_vendor t = cc_vendor
         /\ t_account_number t = Some card
         /\ t_price t < 0
         /\ String.leb from (t_date t) = true
         /\ String.leb (t_date t) to = true
         /\ Z.abs (Z.abs (t_price t) - amount) <= slack)
        /\ (t_vendor t = cc_vendor
            /\ t_account_number t = Some card
            /\ t_price t < 0
            /\ String.leb from (t_date t) = true
            /\ String.leb (t_date t) to = true
            /\ Z.abs (Z.abs (t_price t) - amount) < slack ->
            near_expense cc_vendor card from to amount slack t = true))
  /\ run ledger_sauvage = Some [sauvage_match].
Proof.
  assert (forall db r card vendor d,
             to_datetime (t_date r) = Some d -> 15 < Calendar.day d ->
             is_sauvage_repayment db r card vendor = Some true) as Hday.
  { intros db r card vendor d Hd Hday. unfold is_sauvage_repayment. rewrite Hd. simpl.
    apply Z.ltb_lt in Hday. now rewrite Hday. }
  split; [exact Hday|]. split; [|split; [|split]].
  - intros db r card vendor d Hd Hlate Hcard Hne. unfold goes_sauvage.
    rewrite Hcard. apply String.eqb_neq in Hne. rewrite Hne. eauto.
  - intros db r already lookback d card vendor e Hd Hcard Hne Hs Hin Hv Ha Hp Hfrom Hto Hamt
           Hnp _.
    assert (near_expense vendor card (Calendar.isoformat (Calendar.minus_days d 7))
              (Calendar.isoformat d) (Z.abs (t_price r)) 100 e = true) as Hnear.
    { apply near_expense_spec. tauto. }
    destruct (check_immediate_payment_complete _ _ _ _ _ _ Hin Hnear Hnp) as [t Ht].
    exists t. unfold match_repayment_to_expenses.
    rewrite Hd, Hcard. apply String.eqb_neq in Hne. rewrite Hne, Hs, Ht.
    split; [reflexivity|]. split; [reflexivity|]. split; [reflexivity|].
    apply check_immediate_payment_sound in Ht as (Hint & Hn & Hpt).
    apply near_expense_spec in Hn. tauto.
  - intros vendor card from to amount slack t. apply near_expense_spec.
  - vm_compute. reflexivity.
Qed.

(** ** Expenses consumed within one run *)

Lemma accumulate_matches make amount expenses st m :
  In m (matches (accumulate make amount expenses st)) ->
  In m (matches st) \/ exists e, In e expenses /\ m = make e.
Proof.
  revert st. induction expenses as [|e rest IH]; intros st; simpl; [auto|].
  destruct (Amount.le _ (amount + TOLERANCE)).
  - destruct (Amount.le _ TOLERANCE).
    + simpl. rewrite in_app_iff. simpl. intros [H|[<-|[]]]; [auto|right; eauto].
    + intros H. apply IH in H as [H|(e' & He' & ->)]; [|right; eauto].
      simpl in H. apply in_app_iff in H as [H|[<-|[]]]; [auto|right; eauto].
  - intros H. apply IH in H as [H|(e' & He' & ->)]; [auto|right; eauto].
Qed.

Lemma filter_already_matched_In expenses already e :
  In e (filter_already_matched expenses already) ->
  In e expenses /\ (t_identifier e, t_vendor e) ∉ already.
Proof.
  unfold filter_already_matched. destruct (decide (already = ∅)) as [->|_].
  - intros H. split; [exact H|]. apply not_elem_of_empty.
  - intros H. apply filter_In in H as [H Hb]. split; [exact H|].
    now apply bool_decide_eq_true in Hb.
Qed.

(** The billing-period and carryover steps never take an expense that the
    run has already consumed. *)
Lemma match_period_skips_consumed db r already lookback d vendor card m :
  In m (fst (match_period db r already lookback d vendor card)) ->
  (expense_txn_id m, expense_vendor m) ∉ already.
Proof.
  unfold match_period. destruct (get_billing_period d) as [ps pe].
  destruct (filter_already_matched _ _) as [|e0 es] eqn:He; [intros []|].
  rewrite <- He. clear He. cbv beta zeta iota delta [fst].
  match goal with
  | |- In _ (matches (if ?c then _ else _)) -> _ => destruct c
  end.
  - intros H. apply accumulate_matches in H as [H|(e & He & ->)].
    + apply accumulate_matches in H as [[]|(e & He & ->)].
      now apply filter_already_matched_In in He.
    + now apply filter_already_matched_In in He.
  - intros H. apply accumulate_matches in H as [[]|(e & He & ->)].
    now apply filter_already_matched_In in He.
Qed.

(** C2 fails on the code: the sauvage step looks an expense up without
    consulting the run's set of consumed expenses, so two repayments of one
    run are matched to the same expense. *)
Theorem one_expense_matched_to_two_repayments :
  exists first second,
    run ledger_two_repayments = Some [first; second]
    /\ repayment_txn_id first = "s1"
    /\ repayment_txn_id second = "s2"
    /\ match_method_of first = sauvage_payment
    /\ match_method_of second = sauvage_payment
    /\ (expense_txn_id first, expense_vendor first) = ("e3", "visaCal")
    /\ (expense_txn_id second, expense_vendor second) = ("e3", "visaCal").
Proof.
  eexists _, _. split; [vm_compute; reflexivity|].
  repeat split.
Qed.
(** * Further properties of the scripts *)

(** ** The order on text *)

Lemma ascii_compare_spec (a b : ascii) :
  CompareSpec (a = b) (N_of_ascii a < N_of_ascii b)%N (N_of_ascii b < N_of_ascii a)%N
              (Ascii.compare a b).
Proof.
  destruct (Ascii.compare a b) eqn:E; constructor.
  - now apply Ascii.compare_eq_iff.
  - unfold Ascii.compare in E. now apply N.compare_lt_iff.
  - unfold Ascii.compare in E. now apply N.compare_gt_iff.
Qed.

Lemma string_leb_refl s : String.leb s s = true.
Proof.
  unfold String.leb. induction s as [|c s IH]; simpl; [reflexivity|].
  destruct (ascii_compare_spec c c); try lia. exact IH.
Qed.

Lemma string_leb_trans x y z :
  String.leb x y = true -> String.leb y z = true -> String.leb x z = true.
Proof.
  unfold String.leb. revert y z. induction x as [|a x IH]; intros [|b y] [|c z]; simpl;
    try reflexivity; try discriminate.
  destruct (ascii_compare_spec a b) as [Hab|Hab|Hab];
    destruct (ascii_compare_spec b c) as [Hbc|Hbc|Hbc];
    destruct (ascii_compare_spec a c) as [Hac|Hac|Hac];
    try (subst; lia); try discriminate; try reflexivity; try (apply IH).
Qed.

Lemma string_ltb_leb x y : String.ltb x y = negb (String.leb y x).
Proof.
  unfold String.ltb, String.leb. rewrite (String.compare_antisym x y).
  destruct (String.compare y x); reflexivity.
Qed.

Lemma string_ltb_asym x y : String.ltb x y = true -> String.ltb y x = false.
Proof.
  rewrite !string_ltb_leb. intros H. apply negb_true_iff in H.
  destruct (String.leb_total x y) as [E|E]; [now rewrite E|congruence].
Qed.

Lemma string_ge_trans x y z :
  String.ltb x y = false -> String.ltb y z = false -> String.ltb x z = false.
Proof.
  rewrite !string_ltb_leb, !negb_false_iff. intros H1 H2. eapply string_leb_trans; eauto.
Qed.
(** ** The matcher's look-ups *)

Lemma sorted_desc_head {A} (lt : A -> A -> bool) l h rest :
  (forall x y, lt x y = true -> lt y x = false) ->
  (forall x y z, lt x y = false -> lt y z = false -> lt x z = false) ->
  Py.sorted_desc lt l = h :: rest ->
  forall z, In z l -> lt h z = false.
Proof.
  intros Hasym Htrans Hs z Hz.
  pose proof (sorted_desc_sorted lt Hasym Htrans l) as Hsorted.
  apply (sorted_desc_In lt) in Hz. rewrite Hs in Hz, Hsorted.
  inversion Hsorted as [|? ? _ Hall]; subst.
  destruct Hz as [<-|Hz].
  - destruct (lt h h) eqn:E; [|reflexivity]. now rewrite (Hasym _ _ E) in E.
  - rewrite Forall_forall in Hall. now apply Hall.
Qed.

(** X1.  [check_immediate_payment] ranges over the outgoing transactions of
    the card in the look-back window that no persisted match lists.  It
    finds one whenever such a row is less than 1.00 away from the repayment
    in amount, and none when every such row is more than 1.00 away; the
    row it returns is one of them, at most 1.00 away, and dated no earlier
    than any of them that is less than 1.00 away. *)
Theorem immediate_payment_is_latest_qualifying :
  forall db repayment_amount repayment_date cc_vendor card,
    let eligible t :=
      In t (transactions db)
      /\ Facts.in_lookback cc_vendor card repayment_date t
      /\ not_persisted db cc_vendor t = true in
    let away t := Z.abs (Z.abs (t_price t) - repayment_amount) in
    (check_immediate_payment db repayment_amount repayment_date cc_vendor card = None ->
     forall t, eligible t -> 100 <= away t)
    /\ ((forall t, eligible t -> 100 < away t) ->
        check_immediate_payment db repayment_amount repayment_date cc_vendor card = None)
    /\ (forall chosen,
          check_immediate_payment db repayment_amount repayment_date cc_vendor card
          = Some chosen ->
          eligible chosen
          /\ away chosen <= 100
          /\ forall t, eligible t -> away t < 100 ->
                       String.leb (t_date t) (t_date chosen) = true).
Proof.
  intros db amount d vendor card eligible away. unfold check_immediate_payment.
  set (qualifies := fun t =>
         near_expense vendor card (Calendar.isoformat (Calendar.minus_days d 7))
           (Calendar.isoformat d) amount 100 t
         && not_persisted db vendor t).
  assert (forall t, eligible t -> away t < 100 ->
                    In t (List.filter qualifies (transactions db))) as Hnear.
  { intros t (Hin & Hlook & Hnp) Haway. apply filter_In. split; [exact Hin|].
    unfold qualifies. rewrite Hnp, andb_true_r. apply near_expense_spec.
    unfold Facts.in_lookback in Hlook. unfold away in Haway. tauto. }
  assert (forall t, In t (List.filter qualifies (transactions db)) ->
                    eligible t /\ away t <= 100) as Hfar.
  { intros t Ht. apply filter_In in Ht as [Hin Hq]. unfold qualifies in Hq.
    apply andb_prop in Hq as [Hn Hnp]. apply near_expense_spec in Hn.
    unfold eligible, Facts.in_lookback, away. tauto. }
  destruct (Py.sorted_desc _ (List.filter qualifies (transactions db))) as [|h rest] eqn:Hs.
  - split; [|split; [reflexivity|discriminate]].
    intros _ t Ht. destruct (Z.le_gt_cases 100 (away t)) as [|Hlt]; [assumption|exfalso].
    assert (In t []) as H; [|destruct H].
    rewrite <- Hs. apply sorted_desc_In. apply Hnear; [exact Ht|lia].
  - assert (In h (List.filter qualifies (transactions db))) as Hh.
    { eapply sorted_desc_In. rewrite Hs. now left. }
    split; [discriminate|]. split.
    + intros Hall. destruct (Hfar h Hh) as [He Ha]. specialize (Hall h He). lia.
    + intros chosen [= <-]. destruct (Hfar h Hh) as [He Ha].
      split; [exact He|]. split; [exact Ha|].
      intros t Ht Hclose.
      assert (String.ltb (t_date h) (t_date t) = false) as Hlt.
      { eapply (sorted_desc_head (fun a b => String.ltb (t_date a) (t_date b)) _ h rest).
        - intros x y. apply string_ltb_asym.
        - intros x y z. apply string_ge_trans.
        - exact Hs.
        - now apply Hnear. }
      rewrite string_ltb_leb in Hlt. now apply negb_false_iff in Hlt.
Qed.

(** X2.  For a repayment whose date parses, [is_sauvage_repayment] answers
    [True] when the day of the month is past the 15th, when the amount
    exceeds 1,000 and the card has an outgoing transaction in the look-back
    window less than 5.00 away in amount, and when it has one less than
    1.00 away; it answers [True] in no other case than these three, each
    with an amount at most 5.00, respectively 1.00, away.  A date that does
    not parse gives no answer. *)
Theorem sauvage_criteria :
  forall db repayment_row card cc_vendor,
    (to_datetime (t_date repayment_row) = None ->
     is_sauvage_repayment db repayment_row card cc_vendor = None)
    /\ (forall d,
          to_datetime (t_date repayment_row) = Some d ->
          let eligible t := In t (transactions db) /\ Facts.in_lookback cc_vendor card d t in
          let away t := Z.abs (Z.abs (t_price t) - Z.abs (t_price repayment_row)) in
          (exists answer, is_sauvage_repayment db repayment_row card cc_vendor = Some answer)
          /\ (15 < Calendar.day d ->
              is_sauvage_repayment db repayment_row card cc_vendor = Some true)
          /\ (100000 < Z.abs (t_price repayment_row) ->
              (exists t, eligible t /\ away t < 500) ->
              is_sauvage_repayment db repayment_row card cc_vendor = Some true)
          /\ ((exists t, eligible t /\ away t < 100) ->
              is_sauvage_repayment db repayment_row card cc_vendor = Some true)
          /\ (is_sauvage_repayment db repayment_row card cc_vendor = Some true ->
              15 < Calendar.day d
              \/ (100000 < Z.abs (t_price repayment_row)
                  /\ exists t, eligible t /\ away t <= 500)
              \/ (exists t, eligible t /\ away t <= 100))).
Proof.
  intros db r card vendor. split.
  - intros Hd. unfold is_sauvage_repayment. now rewrite Hd.
  - intros d Hd eligible away. unfold is_sauvage_repayment. rewrite Hd. simpl.
    set (from := Calendar.isoformat (Calendar.minus_days d 7)).
    set (to := Calendar.isoformat d).
    set (amount := Z.abs (t_price r)).
    assert (forall slack,
               ((exists t, eligible t /\ away t < slack) ->
                (0 <? Z.of_nat (List.length
                                  (List.filter (near_expense vendor card from to amount slack)
                                               (transactions db)))) = true)
               /\ ((0 <? Z.of_nat (List.length
                                     (List.filter (near_expense vendor card from to amount slack)
                                                  (transactions db)))) = true ->
                   exists t, eligible t /\ away t <= slack))
      as Hcount.
    { intros slack. rewrite Z.ltb_lt. split.
      - intros (t & [Hin Hlook] & Hn).
        assert (In t (List.filter (near_expense vendor card from to amount slack)
                                  (transactions db))) as Hf.
        { apply filter_In. split; [exact Hin|]. apply near_expense_spec.
          unfold Facts.in_lookback in Hlook. unfold away in Hn. tauto. }
        destruct (List.filter _ (transactions db)); [destruct Hf|simpl; lia].
      - destruct (List.filter _ (transactions db)) as [|t ts] eqn:Hf;
          [simpl; lia|intros _].
        assert (In t (List.filter (near_expense vendor card from to amount slack)
                                  (transactions db))) as Hin
            by (rewrite Hf; now left).
        apply filter_In in Hin as [Hin Hn]. apply near_expense_spec in Hn.
        exists t. unfold eligible, Facts.in_lookback, away. tauto. }
    destruct (Z.ltb_spec 15 (Calendar.day d)) as [Hlate|Hearly].
    { split; [eexists; reflexivity|]. repeat split; auto. }
    split; [repeat match goal with |- context [if ?b then _ else _] => destruct b end;
            eexists; reflexivity|].
    split; [lia|].
    destruct (Z.ltb_spec 100000 amount) as [Hbig|Hsmall]; simpl.
    + destruct (0 <? Z.of_nat (List.length
                                 (List.filter (near_expense vendor card from to amount 500)
                                              (transactions db)))) eqn:H5.
      * split; [reflexivity|]. split; [reflexivity|]. intros _.
        right. left. split; [exact Hbig|]. now apply Hcount.
      * split; [intros _ H; apply Hcount in H; congruence|].
        split.
        -- intros H. apply Hcount in H. now rewrite H.
        -- intros [= H1]. right. right. now apply Hcount.
    + split; [lia|]. split.
      * intros H. apply Hcount in H. now rewrite H.
      * intros [= H1]. right. right. now apply Hcount.
Qed.
Import Facts.

Lemma first_pattern_hit_spec pairings name :
  (first_pattern_hit (List.filter is_active pairings) (Some name) = (None, None)
   /\ forall p, In p pairings -> pattern_hit name p = false)
  \/ exists before p after,
       pairings = (before ++ p :: after)%list
       /\ pattern_hit name p = true
       /\ (forall q, In q before -> pattern_hit name q = false)
       /\ first_pattern_hit (List.filter is_active pairings) (Some name)
          = (credit_card_account_number p, Some (credit_card_vendor p)).
Proof.
  induction pairings as [|p ps IH]; simpl.
  - left. split; [reflexivity|intros p []].
  - assert (pattern_hit name p = true
            \/ (pattern_hit name p = false
                /\ first_pattern_hit (List.filter is_active (p :: ps)) (Some name)
                   = first_pattern_hit (List.filter is_active ps) (Some name))) as [Hp|[Hp Heq]].
    { unfold pattern_hit. simpl. destruct (is_active p); simpl; [|auto].
      destruct (p_match_patterns p) as [pats|]; [|auto].
      destruct (existsb _ pats); auto. }
    + right. exists [], p, ps. split; [reflexivity|]. split; [exact Hp|].
      split; [intros q []|].
      unfold pattern_hit in Hp. apply andb_prop in Hp as [Ha Hh]. rewrite Ha. simpl.
      destruct (p_match_patterns p) as [pats|]; [|discriminate]. now rewrite Hh.
    + simpl in Heq. rewrite Heq. destruct IH as [[Hn Hall]|(before & q & after & -> & Hq & Hb & Hr)].
      * left. split; [exact Hn|]. intros q [<-|Hq]; auto.
      * right. exists (p :: before), q, after. split; [reflexivity|]. split; [exact Hq|].
        split; [|exact Hr]. intros x [<-|Hx]; auto.
Qed.

(** X3.  [get_card_from_repayment_name] answers [(None, None)] for a
    missing description and when no active pairing has a pattern occurring
    in the description; otherwise it answers with the card of the first
    active pairing of the table that has such a pattern. *)
Theorem card_of_first_active_pattern_hit :
  forall db,
    get_card_from_repayment_name db None = (None, None)
    /\ forall name,
         ((forall p, In p (account_pairings db) -> pattern_hit name p = false) ->
          get_card_from_repayment_name db (Some name) = (None, None))
         /\ forall before p after,
              account_pairings db = (before ++ p :: after)%list ->
              pattern_hit name p = true ->
              (forall q, In q before -> pattern_hit name q = false) ->
              get_card_from_repayment_name db (Some name)
              = (credit_card_account_number p, Some (credit_card_vendor p)).
Proof.
  intros db. split.
  - unfold get_card_from_repayment_name.
    induction (List.filter is_active (account_pairings db)) as [|p ps IH]; simpl; [reflexivity|].
    destruct (p_match_patterns p); exact IH.
  - intros name. unfold get_card_from_repayment_name.
    destruct (first_pattern_hit_spec (account_pairings db) name)
      as [[Hn Hall]|(before & p & after & Heq & Hp & Hb & Hr)].
    + split; [intros _; exact Hn|].
      intros before p after Heq Hp _. rewrite (Hall p) in Hp; [discriminate|].
      rewrite Heq. apply in_or_app. right. now left.
    + split.
      * intros Hall. rewrite (Hall p) in Hp; [discriminate|].
        rewrite Heq. apply in_or_app. right. now left.
      * intros before' p' after' Heq' Hp' Hb'. rewrite Hr.
        assert (before = before' /\ p = p') as [_ <-]; [|reflexivity].
        rewrite Heq in Heq'. clear Heq Hr.
        revert before' Heq' Hb'. induction before as [|x before IH]; intros [|y before'] Heq' Hb'.
        -- injection Heq' as Hpp _. auto.
        -- injection Heq' as Hpy _. rewrite (Hb' p) in Hp; [discriminate|left; auto].
        -- injection Heq' as Hxp _. rewrite (Hb p') in Hp'; [discriminate|left; auto].
        -- injection Heq' as Hxy Heq'.
           destruct (IH (fun q Hq => Hb q (or_intror Hq)) before' Heq'
                        (fun q Hq => Hb' q (or_intror Hq))) as [-> ->]. subst. auto.
Qed.
(** ** The billing period *)

(** The Gregorian calendar repeats every 400 years, that is 146097 days. *)
Lemma is_leap_400 y : Calendar.is_leap (y + 400) = Calendar.is_leap y.
Proof.
  unfold Calendar.is_leap.
  replace (y + 400) with (y + 100 * 4) at 1 by lia.
  replace (y + 400) with (y + 4 * 100) at 1 by lia.
  replace (y + 400) with (y + 1 * 400) by lia.
  now rewrite !Z_mod_plus_full.
Qed.

Lemma days_in_month_400 y m : Calendar.days_in_month (y + 400) m = Calendar.days_in_month y m.
Proof. unfold Calendar.days_in_month. now rewrite is_leap_400. Qed.

Lemma days_before_month_400 y m :
  Calendar.days_before_month (y + 400) m = Calendar.days_before_month y m.
Proof.
  unfold Calendar.days_before_month. f_equal. apply map_ext. intros k.
  apply days_in_month_400.
Qed.

Lemma days_before_year_400 y :
  Calendar.days_before_year (y + 400) = Calendar.days_before_year y + 146097.
Proof.
  unfold Calendar.days_before_year. cbv zeta.
  replace (y + 400 - 1) with (y - 1 + 400) by lia.
  replace ((y - 1 + 400) / 4) with ((y - 1) / 4 + 100)
    by (replace (y - 1 + 400) with (y - 1 + 100 * 4) by lia; now rewrite Z_div_plus_full).
  replace ((y - 1 + 400) / 100) with ((y - 1) / 100 + 4)
    by (replace (y - 1 + 400) with (y - 1 + 4 * 100) by lia; now rewrite Z_div_plus_full).
  replace ((y - 1 + 400) / 400) with ((y - 1) / 400 + 1)
    by (replace (y - 1 + 400) with (y - 1 + 1 * 400) by lia; now rewrite Z_div_plus_full).
  lia.
Qed.

Lemma toordinal_400 d : Calendar.toordinal (later400 d) = Calendar.toordinal d + 146097.
Proof.
  unfold Calendar.toordinal, later400. cbn [Calendar.year Calendar.month Calendar.day].
  rewrite days_before_year_400, days_before_month_400. lia.
Qed.

Lemma fromordinal_400 n : Calendar.fromordinal (n + 146097) = later400 (Calendar.fromordinal n).
Proof.
  unfold Calendar.fromordinal. cbv zeta.
  replace (n + 146097 - 1) with (n - 1 + 1 * 146097) by lia.
  rewrite Z_div_plus_full, Z_mod_plus_full by lia.
  destruct ((_ =? 4) || (_ =? 4)); unfold later400;
    cbn [Calendar.year Calendar.month Calendar.day]; f_equal; lia.
Qed.

Lemma minus_days_400 d k :
  Calendar.minus_days (later400 d) k = later400 (Calendar.minus_days d k).
Proof.
  unfold Calendar.minus_days. rewrite toordinal_400, <- fromordinal_400. f_equal. lia.
Qed.

Lemma date_eqb_400 a b : date_eqb (later400 a) (later400 b) = date_eqb a b.
Proof.
  unfold date_eqb, later400. cbn [Calendar.year Calendar.month Calendar.day].
  destruct (Z.eqb_spec (Calendar.year a + 400) (Calendar.year b + 400)),
           (Z.eqb_spec (Calendar.year a) (Calendar.year b)); try lia; reflexivity.
Qed.

Lemma get_billing_period_400 y m :
  get_billing_period (Calendar.mkdate (y + 400) m 1)
  = (later400 (fst (get_billing_period (Calendar.mkdate y m 1))),
     later400 (snd (get_billing_period (Calendar.mkdate y m 1)))).
Proof.
  unfold get_billing_period. cbn [Calendar.year Calendar.month Calendar.day fst snd].
  destruct (m =? 1).
  - change (12 =? 12) with true. cbv iota. unfold later400.
    cbn [Calendar.year Calendar.month Calendar.day]. repeat f_equal; lia.
  - destruct (m - 1 =? 12).
    + unfold later400. cbn [Calendar.year Calendar.month Calendar.day]. reflexivity.
    + rewrite <- minus_days_400. reflexivity.
Qed.

Lemma billing_period_ok_400 y m :
  billing_period_ok (y + 400) m = billing_period_ok y m.
Proof.
  unfold billing_period_ok. rewrite get_billing_period_400.
  destruct (get_billing_period (Calendar.mkdate y m 1)) as [s e]. cbn [fst snd].
  change (Calendar.mkdate (y + 400) m 1) with (later400 (Calendar.mkdate y m 1)).
  replace (if m =? 1 then Calendar.mkdate (y + 400 - 1) 12 1
           else Calendar.mkdate (y + 400) (m - 1) 1)
    with (later400 (if m =? 1 then Calendar.mkdate (y - 1) 12 1
                    else Calendar.mkdate y (m - 1) 1))
    by (destruct (m =? 1); unfold later400;
        cbn [Calendar.year Calendar.month Calendar.day]; f_equal; lia).
  replace (Calendar.mkdate (Calendar.year (later400 s)) (Calendar.month (later400 s))
             (Calendar.days_in_month (Calendar.year (later400 s)) (Calendar.month (later400 s))))
    with (later400 (Calendar.mkdate (Calendar.year s) (Calendar.month s)
                      (Calendar.days_in_month (Calendar.year s) (Calendar.month s))))
    by (unfold later400; cbn [Calendar.year Calendar.month Calendar.day];
        now rewrite days_in_month_400).
  rewrite !date_eqb_400, !toordinal_400.
  f_equal.
  destruct (Z.eqb_spec (Calendar.toordinal e + 146097 + 1)
                       (Calendar.toordinal (Calendar.mkdate y m 1) + 146097)),
           (Z.eqb_spec (Calendar.toordinal e + 1)
                       (Calendar.toordinal (Calendar.mkdate y m 1))); try lia; reflexivity.
Qed.

Lemma billing_periods_checked :
  forall y m : nat,
    In y (seq 2 400) -> In m (seq 1 12) ->
    billing_period_ok (Z.of_nat y) (Z.of_nat m) = true.
Proof.
  assert (forallb (fun y => forallb (fun m => billing_period_ok (Z.of_nat y) (Z.of_nat m))
                                    (seq 1 12))
                  (seq 2 400) = true) as Hc by (vm_compute; reflexivity).
  intros y m Hy Hm. rewrite forallb_forall in Hc. specialize (Hc y Hy).
  rewrite forallb_forall in Hc. exact (Hc m Hm).
Qed.

Lemma billing_period_ok_all y m : 2 <= y -> 1 <= m <= 12 -> billing_period_ok y m = true.
Proof.
  intros Hy Hm.
  assert (forall k : nat, forall y0, 2 <= y0 <= 401 ->
            billing_period_ok (y0 + 400 * Z.of_nat k) m = true) as Hk.
  { induction k as [|k IH]; intros y0 Hy0.
    - replace (y0 + 400 * Z.of_nat 0) with y0 by lia.
      pose proof (billing_periods_checked (Z.to_nat y0) (Z.to_nat m)
                    ltac:(apply in_seq; lia) ltac:(apply in_seq; lia)) as Hc.
      rewrite !Z2Nat.id in Hc by lia. exact Hc.
    - replace (y0 + 400 * Z.of_nat (S k)) with (y0 + 400 * Z.of_nat k + 400) by lia.
      rewrite billing_period_ok_400. now apply IH. }
  specialize (Hk (Z.to_nat ((y - 2) / 400)) (2 + (y - 2) mod 400)).
  pose proof (Z.mod_pos_bound (y - 2) 400 ltac:(lia)).
  pose proof (Z.div_mod (y - 2) 400 ltac:(lia)).
  pose proof (Z.div_pos (y - 2) 400 ltac:(lia) ltac:(lia)).
  rewrite Z2Nat.id in Hk by lia.
  replace (2 + (y - 2) mod 400 + 400 * ((y - 2) / 400)) with y in Hk by lia.
  apply Hk. lia.
Qed.

(** X4.  For a payment dated in year 2 or later, [get_billing_period] is
    the calendar month before the payment's month: it starts on the 1st of
    that month, ends on its last day, and the day after its end is the 1st
    of the payment's month; the day of the payment plays no part. *)
Theorem billing_period_is_previous_month :
  forall payment_date,
    2 <= Calendar.year payment_date ->
    1 <= Calendar.month payment_date <= 12 ->
    let y := Calendar.year payment_date in
    let m := Calendar.month payment_date in
    let period_start := fst (get_billing_period payment_date) in
    let period_end := snd (get_billing_period payment_date) in
    period_start = (if m =? 1 then Calendar.mkdate (y - 1) 12 1 else Calendar.mkdate y (m - 1) 1)
    /\ period_end
       = Calendar.mkdate (Calendar.year period_start) (Calendar.month period_start)
           (Calendar.days_in_month (Calendar.year period_start) (Calendar.month period_start))
    /\ Calendar.toordinal period_end + 1 = Calendar.toordinal (Calendar.mkdate y m 1).
Proof.
  intros pd Hy Hm y m period_start period_end.
  pose proof (billing_period_ok_all y m Hy Hm) as Hok.
  unfold billing_period_ok in Hok.
  assert (get_billing_period (Calendar.mkdate y m 1) = get_billing_period pd) as Heq
      by reflexivity.
  rewrite Heq in Hok. fold period_start period_end in Hok.
  destruct (get_billing_period pd) as [s e] eqn:Hg.
  unfold period_start, period_end in *. cbn [fst snd] in *.
  assert (forall a b, date_eqb a b = true -> a = b) as Hdate.
  { intros [ay am ad] [by_ bm bd]. unfold date_eqb.
    cbn [Calendar.year Calendar.month Calendar.day].
    rewrite !andb_true_iff, !Z.eqb_eq. intros [[-> ->] ->]. reflexivity. }
  apply andb_prop in Hok as [Hok H3]. apply andb_prop in Hok as [H1 H2].
  split; [now apply Hdate|]. split; [now apply Hdate|]. now apply Z.eqb_eq.
Qed.

(** ** What one call of the matcher returns *)

Lemma accumulate_taken make amount expenses st :
  exists taken,
    sublist taken expenses
    /\ matches (accumulate make amount expenses st) = (matches st ++ List.map make taken)%list.
Proof.
  revert st. induction expenses as [|e rest IH]; intros st; simpl.
  - exists []. split; [constructor|now rewrite app_nil_r].
  - destruct (Amount.le _ (amount + TOLERANCE)).
    + destruct (Amount.le _ TOLERANCE).
      * exists [e]. split; [constructor; apply sublist_nil_l|reflexivity].
      * match goal with
        | |- context [accumulate make amount rest ?s] => destruct (IH s) as (taken & Hsub & Heq)
        end.
        exists (e :: taken). split; [now constructor|].
        rewrite Heq. simpl. now rewrite <- app_assoc.
    + destruct (IH st) as (taken & Hsub & Heq).
      exists taken. split; [now constructor|exact Heq].
Qed.

Lemma string_leb_append p x : String.leb p (String.append p x) = true.
Proof.
  unfold String.leb. induction p as [|c p IH]; simpl.
  - destruct x; reflexivity.
  - destruct (ascii_compare_spec c c); try lia. exact IH.
Qed.

(** A date text before the first ISO day of the period is outside the
    period's window. *)
Lemma before_period_not_in_period period_start period_end s :
  String.ltb s (Calendar.isoformat period_start) = true ->
  in_period period_start period_end s = false.
Proof.
  intros Hlt. unfold in_period, adapt_datetime.
  destruct (String.leb (String.append _ _) s) eqn:Hle; [exfalso|reflexivity].
  rewrite string_ltb_leb in Hlt. apply negb_true_iff in Hlt.
  rewrite (string_leb_trans _ _ _ (string_leb_append _ _) Hle) in Hlt. discriminate.
Qed.

Lemma filter_sublist {A} (f : A -> bool) l : sublist (List.filter f l) l.
Proof.
  induction l as [|x l IH]; simpl; [constructor|].
  destruct (f x); now constructor.
Qed.

Lemma filter_already_matched_sublist expenses already :
  sublist (filter_already_matched expenses already) expenses.
Proof.
  unfold filter_already_matched. destruct (decide (already = ∅)); [reflexivity|].
  apply filter_sublist.
Qed.

Lemma sublist_In {A} (l k : list A) x : sublist l k -> In x l -> In x k.
Proof.
  induction 1 as [|y l k _ IH|y l k _ IH]; simpl; [auto| |auto].
  intros [->|H]; auto.
Qed.

(** The rows a call may take in its billing-period and carryover steps. *)
Lemma match_period_parts db r already lookback d vendor card :
  exists taken1 taken2 carry_window,
    fst (match_period db r already lookback d vendor card)
    = (List.map (make_match r d card auto_chronological) taken1
       ++ List.map (make_match r d card carryover) taken2)%list
    /\ sublist taken1
         (filter_already_matched
            (Py.sorted_asc date_name_ltb
               (unmatched_expenses db vendor card
                  (in_period (fst (get_billing_period d)) (snd (get_billing_period d)))))
            already)
    /\ sublist taken2
         (filter_already_matched
            (Py.sorted_asc (fun a b => String.ltb (t_date a) (t_date b))
               (unmatched_expenses db vendor card carry_window))
            already)
    /\ forall s, carry_window s = true ->
                 String.ltb s (Calendar.isoformat (fst (get_billing_period d))) = true.
Proof.
  unfold match_period. destruct (get_billing_period d) as [ps pe]. cbn [fst snd].
  change (fun d0 : string =>
            String.leb (adapt_datetime ps "00:00:00") d0
            && String.leb d0 (adapt_datetime pe "23:59:59"))
    with (in_period ps pe).
  set (expenses := filter_already_matched _ already).
  destruct expenses as [|e0 es] eqn:He.
  - exists [], [], (fun _ => false). cbn [fst].
    split; [reflexivity|]. split; [apply sublist_nil_l|]. split; [apply sublist_nil_l|discriminate].
  - rewrite <- He. cbv beta zeta iota delta [fst].
    destruct (accumulate_taken (make_match r d card auto_chronological) (Z.abs (t_price r))
                expenses {| running_sum := 0; matches := [] |}) as (taken1 & Hs1 & Hm1).
    simpl in Hm1.
    match goal with
    | |- context [if ?c then accumulate ?mk ?a ?ex ?st1 else _] =>
        destruct c eqn:Hc;
        [destruct (accumulate_taken mk a ex st1) as (taken2 & Hs2 & Hm2)|]
    end.
    + match type of Hs2 with
      | sublist _ (filter_already_matched
                     (Py.sorted_asc _ (unmatched_expenses _ _ _ ?w)) _) =>
          exists taken1, taken2, w
      end.
      split; [rewrite Hm2, Hm1; reflexivity|]. split; [exact Hs1|]. split; [exact Hs2|].
      intros s Hw. apply andb_prop in Hw. tauto.
    + exists taken1, [], (fun _ => false).
      split; [rewrite Hm1; now rewrite app_nil_r|]. split; [exact Hs1|].
      split; [apply sublist_nil_l|discriminate].
Qed.

Lemma unmatched_expenses_In db vendor card window t :
  In t (unmatched_expenses db vendor card window) ->
  In t (transactions db) /\ t_price t < 0 /\ window (t_date t) = true.
Proof.
  unfold unmatched_expenses. rewrite filter_In. intros [Hin Hf].
  repeat (apply andb_prop in Hf as [Hf ?]). split; [exact Hin|]. split; [lia|assumption].
Qed.

Lemma taken_rows db vendor card window (lt : transaction -> transaction -> bool) already taken t :
  sublist taken
    (filter_already_matched (Py.sorted_asc lt (unmatched_expenses db vendor card window)) already) ->
  In t taken ->
  In t (transactions db) /\ t_price t < 0 /\ window (t_date t) = true
  /\ row_key t ∉ already.
Proof.
  intros Hs Hin. apply (sublist_In _ _ _ Hs) in Hin.
  apply filter_already_matched_In in Hin as [Hin Hk].
  apply sorted_asc_In, unmatched_expenses_In in Hin. tauto.
Qed.

Lemma match_call_shape :
  forall db repayment_row already_matched max_lookback_days ms st,
    match_repayment_to_expenses db repayment_row already_matched max_lookback_days
    = Some (ms, st) ->
    (forall m, In m ms ->
       repayment_txn_id m = t_identifier repayment_row
       /\ repayment_amount m = Z.abs (t_price repayment_row)
       /\ exists e, In e (transactions db) /\ t_price e < 0
                    /\ match_key m = row_key e /\ expense_amount m = Z.abs (t_price e))
    /\ ((exists m, ms = [m] /\ match_method_of m = sauvage_payment)
        \/ (exists chronological carried,
              ms = (chronological ++ carried)%list
              /\ (forall m, In m chronological -> match_method_of m = auto_chronological)
              /\ (forall m, In m carried -> match_method_of m = carryover)
              /\ forall m, In m ms -> match_key m ∉ already_matched)).
Proof.
  intros db r already lookback ms st. unfold match_repayment_to_expenses.
  assert (forall (l : list ExpenseMatch),
             l = [] ->
             (forall m, In m l ->
                repayment_txn_id m = t_identifier r
                /\ repayment_amount m = Z.abs (t_price r)
                /\ exists e, In e (transactions db) /\ t_price e < 0
                             /\ match_key m = row_key e /\ expense_amount m = Z.abs (t_price e))
             /\ ((exists m, l = [m] /\ match_method_of m = sauvage_payment)
                 \/ (exists chronological carried,
                       l = (chronological ++ carried)%list
                       /\ (forall m, In m chronological -> match_method_of m = auto_chronological)
                       /\ (forall m, In m carried -> match_method_of m = carryover)
                       /\ forall m, In m l -> match_key m ∉ already))) as Hempty.
  { intros l ->. split; [intros m []|]. right. exists [], [].
    split; [reflexivity|]. repeat split; intros m []. }
  destruct (to_datetime (t_date r)) as [d|]; [|discriminate].
  destruct (get_card_from_repayment_name db (t_name r)) as [[card|] [vendor|]];
    try (intros [= <- <-]; now apply Hempty).
  destruct (String.eqb card ""); [intros [= <- <-]; now apply Hempty|].
  destruct (is_sauvage_repayment db r card vendor) as [s|]; [|discriminate].
  destruct (if s then check_immediate_payment db (Z.abs (t_price r)) d vendor card else None)
    as [im|] eqn:Him.
  - intros [= <- <-]. destruct s; [|discriminate].
    apply check_immediate_payment_sound in Him as (Hin & Hn & _).
    split; [|left; eexists; split; reflexivity].
    intros m [<-|[]]. split; [reflexivity|]. split; [reflexivity|].
    exists im. split; [exact Hin|].
    unfold near_expense in Hn. repeat (apply andb_prop in Hn as [Hn ?]).
    split; [lia|]. split; reflexivity.
  - intros [= Hm].
    destruct (match_period_parts db r already lookback d vendor card)
      as (taken1 & taken2 & w & Heq & Hs1 & Hs2 & _).
    rewrite Hm in Heq. cbn [fst] in Heq. subst ms.
    assert (forall method taken window lt m,
               sublist taken
                 (filter_already_matched
                    (Py.sorted_asc lt (unmatched_expenses db vendor card window)) already) ->
               In m (List.map (make_match r d card method) taken) ->
               (repayment_txn_id m = t_identifier r
                /\ repayment_amount m = Z.abs (t_price r)
                /\ exists e, In e (transactions db) /\ t_price e < 0
                             /\ match_key m = row_key e
                             /\ expense_amount m = Z.abs (t_price e))
               /\ match_method_of m = method /\ match_key m ∉ already) as Hrow.
    { intros method taken window lt m Hs Hin. apply in_map_iff in Hin as (e & <- & He).
      destruct (taken_rows _ _ _ _ _ _ _ _ Hs He) as (Hin & Hneg & _ & Hk).
      split; [|split; [reflexivity|exact Hk]].
      split; [reflexivity|]. split; [reflexivity|]. exists e. auto. }
    split.
    + intros m Hin. apply in_app_or in Hin as [Hin|Hin].
      * apply (Hrow _ _ _ _ _ Hs1 Hin).
      * apply (Hrow _ _ _ _ _ Hs2 Hin).
    + right. eexists _, _. split; [reflexivity|].
      split; [intros m Hin; apply (Hrow _ _ _ _ _ Hs1 Hin)|].
      split; [intros m Hin; apply (Hrow _ _ _ _ _ Hs2 Hin)|].
      intros m Hin. apply in_app_or in Hin as [Hin|Hin].
      * apply (Hrow _ _ _ _ _ Hs1 Hin).
      * apply (Hrow _ _ _ _ _ Hs2 Hin).
Qed.

(** X5.  Whatever [match_repayment_to_expenses] returns, every match carries
    the repayment's id and amount and the key and amount of an outgoing
    ledger row; and the matches are either a single [sauvage_payment], or
    [auto_chronological] matches followed by [carryover] matches none of
    which takes an expense of [already_matched_expenses]. *)
Theorem returned_matches_shape :
  forall db repayment_row already_matched max_lookback_days ms st,
    match_repayment_to_expenses db repayment_row already_matched max_lookback_days
    = Some (ms, st) ->
    (forall m, In m ms ->
       repayment_txn_id m = t_identifier repayment_row
       /\ repayment_amount m = Z.abs (t_price repayment_row)
       /\ exists e, In e (transactions db) /\ t_price e < 0
                    /\ match_key m = row_key e /\ expense_amount m = Z.abs (t_price e))
    /\ ((exists m, ms = [m] /\ match_method_of m = sauvage_payment)
        \/ (exists chronological carried,
              ms = (chronological ++ carried)%list
              /\ (forall m, In m chronological -> match_method_of m = auto_chronological)
              /\ (forall m, In m carried -> match_method_of m = carryover)
              /\ forall m, In m ms -> match_key m ∉ already_matched)).
Proof.
  intros db repayment_row already_matched max_lookback_days ms st Hcall.
  exact (match_call_shape db repayment_row already_matched max_lookback_days ms st Hcall).
Qed.

Lemma filter_disjoint_submseteq {A} (f g : A -> bool) (l : list A) :
  (forall x, f x = true -> g x = false) ->
  (List.filter f l ++ List.filter g l)%list ⊆+ l.
Proof.
  intros Hd. induction l as [|x l IH]; [reflexivity|].
  cbn [List.filter]. destruct (f x) eqn:Hf.
  - rewrite (Hd x Hf). cbn [app]. now apply submseteq_skip.
  - destruct (g x).
    + rewrite <- Permutation_middle. now apply submseteq_skip.
    + now apply submseteq_cons.
Qed.

Lemma unmatched_expenses_disjoint db vendor card (w1 w2 : string -> bool) :
  (forall s, w2 s = true -> w1 s = false) ->
  (unmatched_expenses db vendor card w1 ++ unmatched_expenses db vendor card w2)%list
  ⊆+ transactions db.
Proof.
  intros Hd. unfold unmatched_expenses. apply filter_disjoint_submseteq.
  intros t Hf. repeat (apply andb_prop in Hf as [Hf ?]).
  destruct (w2 (t_date t)) eqn:Hw; [|now rewrite !andb_false_r].
  apply Hd in Hw. congruence.
Qed.

Lemma taken_submseteq db vendor card window (lt : transaction -> transaction -> bool)
      already taken :
  sublist taken
    (filter_already_matched (Py.sorted_asc lt (unmatched_expenses db vendor card window)) already) ->
  taken ⊆+ unmatched_expenses db vendor card window.
Proof.
  intros Hs. apply sublist_submseteq in Hs. etransitivity; [exact Hs|].
  etransitivity; [apply sublist_submseteq, filter_already_matched_sublist|].
  apply Permutation_submseteq, sorted_asc_perm.
Qed.

Lemma match_keys_of_rows r d card method taken :
  List.map match_key (List.map (make_match r d card method) taken) = List.map row_key taken.
Proof.
  rewrite List.map_map. apply List.map_ext. reflexivity.
Qed.

Lemma call_keys_nodup :
  forall db repayment_row already_matched max_lookback_days ms st,
    List.NoDup (List.map row_key (transactions db)) ->
    match_repayment_to_expenses db repayment_row already_matched max_lookback_days
    = Some (ms, st) ->
    List.NoDup (List.map match_key ms).
Proof.
  intros db r already lookback ms st Hnd. unfold match_repayment_to_expenses.
  destruct (to_datetime (t_date r)) as [d|]; [|discriminate].
  destruct (get_card_from_repayment_name db (t_name r)) as [[card|] [vendor|]];
    try (intros [= <- <-]; constructor).
  destruct (String.eqb card ""); [intros [= <- <-]; constructor|].
  destruct (is_sauvage_repayment db r card vendor) as [s|]; [|discriminate].
  destruct (if s then check_immediate_payment db (Z.abs (t_price r)) d vendor card else None)
    as [im|].
  - intros [= <- <-]. cbn. constructor; [intros []|constructor].
  - intros [= Hm].
    destruct (match_period_parts db r already lookback d vendor card)
      as (taken1 & taken2 & w & Heq & Hs1 & Hs2 & Hw).
    rewrite Hm in Heq. cbn [fst] in Heq. subst ms.
    rewrite List.map_app, !match_keys_of_rows, <- List.map_app.
    apply taken_submseteq in Hs1, Hs2.
    assert ((taken1 ++ taken2)%list ⊆+ transactions db) as Hsub.
    { etransitivity; [apply submseteq_app; eassumption|].
      apply unmatched_expenses_disjoint. intros x Hs.
      apply before_period_not_in_period, Hw, Hs. }
    apply submseteq_Permutation in Hsub as [k Hk].
    apply (Permutation_map row_key) in Hk.
    apply (Permutation_NoDup Hk) in Hnd.
    rewrite List.map_app in Hnd. now apply NoDup_app_remove_r in Hnd.
Qed.

(** X6.  When the ledger rows have distinct (identifier, vendor) keys, one
    call of [match_repayment_to_expenses] never returns two matches for the
    same expense: the billing-period pass and the carryover pass take
    different rows. *)
Theorem one_call_takes_each_expense_once :
  forall db repayment_row already_matched max_lookback_days ms st,
    List.NoDup (List.map row_key (transactions db)) ->
    match_repayment_to_expenses db repayment_row already_matched max_lookback_days
    = Some (ms, st) ->
    List.NoDup (List.map match_key ms).
Proof.
  intros db r already lookback ms st Hnd Hcall.
  exact (call_keys_nodup db r already lookback ms st Hnd Hcall).
Qed.

(** ** What a whole run of the matcher returns *)

Lemma track_spec ms : forall matched k,
  k ∈ track matched ms <-> k ∈ matched \/ exists m, In m ms /\ k = match_key m.
Proof.
  unfold track. induction ms as [|m ms IH]; intros matched k; cbn [fold_left].
  - split; [auto|]. intros [H|(m & [] & _)]. exact H.
  - rewrite IH. split.
    + intros [H|(m' & Hin & ->)].
      * apply elem_of_union in H as [H|H]; [|auto].
        apply elem_of_singleton in H. right. exists m. split; [now left|exact H].
      * right. exists m'. split; [now right|reflexivity].
    + intros [H|(m' & [<-|Hin] & ->)].
      * left. apply elem_of_union. now right.
      * left. apply elem_of_union. left. now apply elem_of_singleton.
      * right. eauto.
Qed.

Lemma outside_sauvage_skips_already db r already lookback ms st :
  match_repayment_to_expenses db r already lookback = Some (ms, st) ->
  forall m, In m ms -> match_method_of m <> sauvage_payment -> match_key m ∉ already.
Proof.
  unfold match_repayment_to_expenses.
  destruct (to_datetime (t_date r)) as [d|]; [|discriminate].
  destruct (get_card_from_repayment_name db (t_name r)) as [[card|] [vendor|]];
    try (intros [= <- <-] m []).
  destruct (String.eqb card ""); [intros [= <- <-] m []|].
  destruct (is_sauvage_repayment db r card vendor) as [s|]; [|discriminate].
  destruct (if s then check_immediate_payment db (Z.abs (t_price r)) d vendor card else None)
    as [im|].
  - intros [= <- <-] m [<-|[]] Hm. now contradiction Hm.
  - intros [= Hm] m Hin _.
    destruct (match_period_parts db r already lookback d vendor card)
      as (taken1 & taken2 & w & Heq & Hs1 & Hs2 & _).
    rewrite Hm in Heq. cbn [fst] in Heq. subst ms.
    apply in_app_or in Hin as [Hin|Hin]; apply in_map_iff in Hin as (e & <- & He).
    + apply (taken_rows _ _ _ _ _ _ _ _ Hs1 He).
    + apply (taken_rows _ _ _ _ _ _ _ _ Hs2 He).
Qed.

Lemma process_invariant db lookback repayments : forall st st',
  List.NoDup (List.map row_key (transactions db)) ->
  run_invariant st ->
  process db lookback repayments st = Some st' ->
  run_invariant st'.
Proof.
  induction repayments as [|r rest IH]; intros st st' Hnd Hinv; cbn [process].
  - now intros [= <-].
  - destruct (match_repayment_to_expenses db r (matched_expenses st) lookback)
      as [[ms s]|] eqn:Hcall; [|discriminate].
    apply IH; [exact Hnd|]. destruct Hinv as [Htracked Hfresh].
    pose proof (call_keys_nodup _ _ _ _ _ _ Hnd Hcall) as Hkeys.
    pose proof (outside_sauvage_skips_already _ _ _ _ _ _ Hcall) as Hskip.
    split; cbn [all_matches matched_expenses].
    + intros m Hin. apply track_spec. apply in_app_or in Hin as [Hin|Hin]; eauto.
    + intros i j m' m Hij Hi Hj Hm.
      apply lookup_app_Some in Hj as [Hj|[Hlen Hj]].
      * apply lookup_app_Some in Hi as [Hi|[Hlen' _]].
        -- eapply Hfresh; eauto.
        -- apply lookup_lt_Some in Hj. lia.
      * assert (In m ms) as Hin.
        { apply list_elem_of_In. eapply list_elem_of_lookup_2; eauto. }
        apply lookup_app_Some in Hi as [Hi|[Hlen' Hi]].
        -- intros Heq. apply (Hskip m Hin Hm). rewrite <- Heq. apply Htracked.
           apply list_elem_of_In. eapply list_elem_of_lookup_2; eauto.
        -- intros Heq.
           apply NoDup_ListNoDup in Hkeys.
           assert (i - length (all_matches st) = j - length (all_matches st))%nat; [|lia].
           eapply (NoDup_lookup _ _ _ (match_key m) Hkeys).
           ++ change (List.map match_key ms) with (match_key <$> ms).
              rewrite list_lookup_fmap, Hi. cbn. now rewrite Heq.
           ++ change (List.map match_key ms) with (match_key <$> ms).
              rewrite list_lookup_fmap, Hj. reflexivity.
Qed.

(** X7.  In the list a whole run returns, over a ledger whose rows have
    distinct (identifier, vendor) keys, a billing-period or carryover match
    never takes the expense of a match that was found before it. *)
Theorem run_reuses_no_expense_outside_sauvage :
  forall db l i j m' m,
    List.NoDup (List.map row_key (transactions db)) ->
    run db = Some l ->
    (i < j)%nat -> l !! i = Some m' -> l !! j = Some m ->
    match_method_of m <> sauvage_payment ->
    match_key m' <> match_key m.
Proof.
  intros db l i j m' m Hnd. unfold run.
  destruct (partition_repayments db (repayments_query db "2025-10-01"))
    as [[sauvage monthly]|]; [|discriminate].
  cbn zeta.
  destruct (process db 365 _ _) as [st1|] eqn:H1; [|discriminate]. cbn.
  destruct (process db 90 _ st1) as [st2|] eqn:H2; [|discriminate]. cbn.
  intros [= <-].
  apply process_invariant in H1; [|exact Hnd|].
  - apply process_invariant in H2; [|exact Hnd|exact H1].
    destruct H2 as [_ Hfresh]. apply Hfresh.
  - split; cbn; [intros ? []|]. intros ? ? ? ? _ Hi. discriminate.
Qed.

(** ** The greedy accumulation stops short only when nothing else fits *)

Lemma accumulate_maximal make amount expenses : forall st,
  running_sum st <= running_sum (accumulate make amount expenses st)
  /\ (forall m, In m (matches st) -> In m (matches (accumulate make amount expenses st)))
  /\ (Z.abs (running_sum (accumulate make amount expenses st) - amount) <= TOLERANCE
      \/ forall e, In e expenses ->
           In (make e) (matches (accumulate make amount expenses st))
           \/ amount + TOLERANCE
              <= running_sum (accumulate make amount expenses st) + Z.abs (t_price e)).
Proof.
  induction expenses as [|e rest IH]; intros st; cbn [accumulate].
  - split; [lia|]. split; [auto|]. right. intros e [].
  - cbv zeta.
    destruct (Amount.le (running_sum st + Z.abs (t_price e)) (amount + TOLERANCE)) eqn:Hfit;
      [apply le_true in Hfit|apply le_false in Hfit].
    + set (st' := {| running_sum := running_sum st + Z.abs (t_price e);
                     matches := (matches st ++ [make e])%list |}).
      destruct (Amount.le (Z.abs (running_sum st' - amount)) TOLERANCE) eqn:Hdone;
        [apply le_true in Hdone|clear Hdone].
      * split; [cbn; lia|]. split; [|now left].
        intros m Hm. cbn. apply in_or_app. now left.
      * destruct (IH st') as (Hmono & Hkeep & Hmax).
        split; [cbn in Hmono; lia|].
        split; [intros m Hm; apply Hkeep; cbn; apply in_or_app; now left|].
        destruct Hmax as [Hdone|Hmax]; [now left|]. right.
        intros x [<-|Hx]; [|now apply Hmax].
        left. apply Hkeep. cbn. apply in_or_app. right. now left.
    + destruct (IH st) as (Hmono & Hkeep & Hmax).
      split; [exact Hmono|]. split; [exact Hkeep|].
      destruct Hmax as [Hdone|Hmax]; [now left|]. right.
      intros x [<-|Hx]; [|now apply Hmax].
      right. lia.
Qed.

Lemma filter_already_matched_keeps expenses already e :
  In e expenses -> row_key e ∉ already -> In e (filter_already_matched expenses already).
Proof.
  intros Hin Hk. unfold filter_already_matched.
  destruct (decide (already = ∅)); [exact Hin|].
  apply filter_In. split; [exact Hin|]. now apply bool_decide_eq_true.
Qed.

Lemma eligible_expense_listed db vendor card window (lt : transaction -> transaction -> bool)
      already e :
  In e (transactions db) -> t_vendor e = vendor -> t_account_number e = Some card ->
  t_price e < 0 -> not_persisted db vendor e = true -> row_key e ∉ already ->
  window (t_date e) = true ->
  In e (filter_already_matched
          (Py.sorted_asc lt (unmatched_expenses db vendor card window)) already).
Proof.
  intros Hin Hv Ha Hp Hn Hk Hw. apply filter_already_matched_keeps; [|exact Hk].
  apply sorted_asc_In. unfold unmatched_expenses. apply filter_In. split; [exact Hin|].
  apply Z.ltb_lt in Hp.
  rewrite Hv, Ha, Hw, Hn, Hp, String.eqb_refl. cbn [Py.opt_str_eqb]. rewrite String.eqb_refl.
  reflexivity.
Qed.

Lemma match_period_maximal db r already lookback d vendor card ms cnt total diff flag ps pe
      carry e :
  match_period db r already lookback d vendor card
  = (ms, period_stats cnt total diff flag ps pe carry) ->
  TOLERANCE < Z.abs diff ->
  In e (transactions db) -> t_vendor e = vendor -> t_account_number e = Some card ->
  t_price e < 0 -> not_persisted db vendor e = true -> row_key e ∉ already ->
  in_period ps pe (t_date e) = true \/ in_carryover d ps lookback (t_date e) = true ->
  (exists m, In m ms /\ match_key m = row_key e)
  \/ Z.abs (t_price r) + TOLERANCE <= total + Z.abs (t_price e).
Proof.
  intros Heq Hfar Hin Hv Ha Hp Hn Hk Hw. unfold match_period in Heq.
  destruct (get_billing_period d) as [ps' pe'].
  set (billing := filter_already_matched
                    (Py.sorted_asc date_name_ltb (unmatched_expenses db vendor card _)) already)
    in Heq.
  assert (in_period ps' pe' (t_date e) = true -> In e billing) as Hbilling.
  { intros Hwin. apply eligible_expense_listed; assumption. }
  destruct billing as [|e0 es] eqn:Hb; [discriminate Heq|]. rewrite <- Hb in *. clear Hb.
  set (make1 := make_match r d card auto_chronological) in *.
  set (make2 := make_match r d card carryover) in *.
  set (amount := Z.abs (t_price r)) in *.
  set (st1 := accumulate make1 amount billing {| running_sum := 0; matches := [] |}) in *.
  assert (running_sum st1 = matched_sum_of (matches st1)) as Hsum1.
  { apply accumulate_sum; reflexivity. }
  assert (running_sum st1 <= amount + TOLERANCE) as Hbound1.
  { apply accumulate_bound. cbn. unfold amount, TOLERANCE. lia. }
  destruct (accumulate_maximal make1 amount billing {| running_sum := 0; matches := [] |})
    as (_ & _ & Hmax1). fold st1 in Hmax1.
  destruct (Amount.gt (amount - matched_sum_of (matches st1)) TOLERANCE) eqn:Hshort.
  - set (carried := filter_already_matched
                      (Py.sorted_asc (fun a b => String.ltb (t_date a) (t_date b))
                         (unmatched_expenses db vendor card _)) already) in Heq.
    set (st2 := accumulate make2 amount carried st1) in *.
    assert (running_sum st2 = matched_sum_of (matches st2)) as Hsum2.
    { apply accumulate_sum; [reflexivity|exact Hsum1]. }
    assert (running_sum st2 <= amount + TOLERANCE) as Hbound2.
    { apply accumulate_bound. exact Hbound1. }
    destruct (accumulate_maximal make2 amount carried st1) as (Hmono & Hkeep & Hmax2).
    fold st2 in Hmono, Hkeep, Hmax2.
    injection Heq as <- _ <- <- _ <- <- _.
    rewrite <- Hsum2 in *.
    destruct Hmax2 as [Hdone|Hmax2]; [lia|].
    destruct Hmax1 as [Hdone|Hmax1]; [lia|].
    destruct Hw as [Hw|Hw].
    + destruct (Hmax1 e (Hbilling Hw)) as [Hm|Hbig].
      * left. exists (make1 e). split; [now apply Hkeep|reflexivity].
      * right. lia.
    + assert (In e carried) as Hc by (apply eligible_expense_listed; assumption).
      destruct (Hmax2 e Hc) as [Hm|Hbig].
      * left. exists (make2 e). split; [exact Hm|reflexivity].
      * right. exact Hbig.
  - apply gt_false in Hshort.
    injection Heq as <- _ <- <- _ <- <- _.
    rewrite <- Hsum1 in *. lia.
Qed.

(** X8.  When [match_repayment_to_expenses] reports a matched sum more
    than the tolerance of 2.00 away from the repayment, nothing was left
    behind that would still fit with room to spare: every eligible expense
    of the card in the billing period or in the carryover window is either
    among the matches or would bring the matched sum to the repayment plus
    the tolerance, or beyond. *)
Theorem imperfect_match_leaves_only_what_does_not_fit :
  forall db repayment_row already_matched max_lookback_days
         repayment_date card cc_vendor ms cnt total diff perfect period_start period_end carry e,
    to_datetime (t_date repayment_row) = Some repayment_date ->
    get_card_from_repayment_name db (t_name repayment_row) = (Some card, Some cc_vendor) ->
    match_repayment_to_expenses db repayment_row already_matched max_lookback_days
    = Some (ms, period_stats cnt total diff perfect period_start period_end carry) ->
    TOLERANCE < Z.abs diff ->
    In e (transactions db) ->
    t_vendor e = cc_vendor -> t_account_number e = Some card -> t_price e < 0 ->
    not_persisted db cc_vendor e = true ->
    row_key e ∉ already_matched ->
    in_period period_start period_end (t_date e) = true
    \/ in_carryover repayment_date period_start max_lookback_days (t_date e) = true ->
    (exists m, In m ms /\ match_key m = row_key e)
    \/ Z.abs (t_price repayment_row) + TOLERANCE <= total + Z.abs (t_price e).
Proof.
  intros db r already lookback d card vendor ms cnt total diff perfect ps pe carry e Hd Hcard
         Hcall.
  unfold match_repayment_to_expenses in Hcall. rewrite Hd, Hcard in Hcall.
  destruct (String.eqb card ""); [discriminate Hcall|].
  destruct (is_sauvage_repayment db r card vendor) as [s|]; [|discriminate Hcall].
  destruct (if s then check_immediate_payment db (Z.abs (t_price r)) d vendor card else None);
    [discriminate Hcall|].
  injection Hcall as Hcall. intros. eapply match_period_maximal; eassumption.
Qed.

(** ** Which pairing a repayment is allocated to *)

Lemma strength_range p name :
  repayment_name_match_strength p name = 0
  \/ repayment_name_match_strength p name = 1
  \/ repayment_name_match_strength p name = 2.
Proof.
  unfold repayment_name_match_strength.
  repeat match goal with |- context [if ?b then _ else _] => destruct b end; auto.
Qed.

Lemma filter_nil_forall {A} (f : A -> bool) l :
  List.filter f l = [] -> forall x, In x l -> f x = false.
Proof.
  intros Hf x Hx. destruct (f x) eqn:E; [|reflexivity].
  assert (In x (List.filter f l)) as Hin by (apply filter_In; auto).
  rewrite Hf in Hin. destruct Hin.
Qed.

(** An iteration leaves a repayment unassigned only when no pairing of the
    group has a name signal for it, and assigns it only to a pairing whose
    signal is the strongest of the group. *)
Lemma allocate_one_target ps cc_of st r :
  (allocate_one ps cc_of st r = leave_unassigned st r
   /\ forall p, In p ps -> repayment_name_match_strength p (r_name r) = 0)
  \/ exists c, In c ps /\ allocate_one ps cc_of st r = assign st c r
               /\ forall q, In q ps ->
                    repayment_name_match_strength q (r_name r)
                    <= repayment_name_match_strength c (r_name r).
Proof.
  unfold allocate_one.
  set (dc := List.filter (fun p => repayment_name_match_strength p (r_name r) =? 2) ps).
  set (vc := List.filter (fun p => repayment_name_match_strength p (r_name r) =? 1) ps).
  assert (forall c, In c dc -> In c ps /\ repayment_name_match_strength c (r_name r) = 2) as Hdc.
  { intros c Hc. apply filter_In in Hc as [? Hc]. split; [assumption|lia]. }
  assert (forall c, In c vc -> In c ps /\ repayment_name_match_strength c (r_name r) = 1) as Hvc.
  { intros c Hc. apply filter_In in Hc as [? Hc]. split; [assumption|lia]. }
  assert (forall q, repayment_name_match_strength q (r_name r) <= 2) as Hmax.
  { intros q. destruct (strength_range q (r_name r)) as [->|[->| ->]]; lia. }
  destruct dc as [|d0 dc'] eqn:Edc; [destruct vc as [|v0 vc'] eqn:Evc|].
  - assert (forall p, In p ps -> repayment_name_match_strength p (r_name r) = 0) as Hnone.
    { intros p Hp. pose proof (filter_nil_forall _ _ Edc p Hp) as H2.
      pose proof (filter_nil_forall _ _ Evc p Hp) as H1. cbn beta in H1, H2.
      destruct (strength_range p (r_name r)) as [H|[H|H]]; [exact H|rewrite H in H1|rewrite H in H2];
        discriminate. }
    destruct (best_candidate _ _ _ ps None) as [[bp nd]|] eqn:Hb; simpl; [|now left].
    destruct (Amount.gt nd EPSILON); [now left|right].
    apply best_candidate_In in Hb as [Hb|Hb]; [|discriminate].
    exists bp. split; [exact Hb|]. split; [reflexivity|].
    intros q Hq. rewrite (Hnone q Hq), (Hnone bp Hb). lia.
  - assert (forall q, In q ps -> repayment_name_match_strength q (r_name r) <= 1) as Hle.
    { intros q Hq. pose proof (filter_nil_forall _ _ Edc q Hq) as H2. cbn beta in H2.
      destruct (strength_range q (r_name r)) as [H|[H|H]]; rewrite H in *; [lia|lia|discriminate]. }
    right.
    destruct (best_candidate _ _ _ (v0 :: vc') None) as [[bp nd]|] eqn:Hb; simpl.
    + apply best_candidate_In in Hb as [Hb|Hb]; [|discriminate].
      destruct (Hvc bp Hb) as [Hin Hs]. exists bp. split; [exact Hin|]. split; [reflexivity|].
      intros q Hq. rewrite Hs. now apply Hle.
    + destruct (Hvc v0 (or_introl eq_refl)) as [Hin Hs]. exists v0.
      split; [exact Hin|]. split; [reflexivity|]. intros q Hq. rewrite Hs. now apply Hle.
  - right.
    destruct (best_candidate _ _ _ (d0 :: dc') None) as [[bp nd]|] eqn:Hb; simpl.
    + apply best_candidate_In in Hb as [Hb|Hb]; [|discriminate].
      destruct (Hdc bp Hb) as [Hin Hs]. exists bp. split; [exact Hin|]. split; [reflexivity|].
      intros q Hq. rewrite Hs. apply Hmax.
    + destruct (Hdc d0 (or_introl eq_refl)) as [Hin Hs]. exists d0.
      split; [exact Hin|]. split; [reflexivity|]. intros q Hq. rewrite Hs. apply Hmax.
Qed.

Lemma allocate_fold_signal ps cc_of rs : forall st,
  (forall r, In r (unassigned st) ->
     forall p, In p ps -> repayment_name_match_strength p (r_name r) = 0) ->
  (forall k l r, assigned_txns_by_id st !! k = Some l -> In r l ->
     exists p, In p ps /\ p_id p = k
               /\ forall q, In q ps ->
                    repayment_name_match_strength q (r_name r)
                    <= repayment_name_match_strength p (r_name r)) ->
  (forall r, In r (unassigned (fold_left (allocate_one ps cc_of) rs st)) ->
     forall p, In p ps -> repayment_name_match_strength p (r_name r) = 0)
  /\ (forall k l r,
        assigned_txns_by_id (fold_left (allocate_one ps cc_of) rs st) !! k = Some l -> In r l ->
        exists p, In p ps /\ p_id p = k
                  /\ forall q, In q ps ->
                       repayment_name_match_strength q (r_name r)
                       <= repayment_name_match_strength p (r_name r)).
Proof.
  induction rs as [|r0 rs IH]; intros st Hun Has; cbn [fold_left]; [split; assumption|].
  apply IH.
  - destruct (allocate_one_target ps cc_of st r0) as [[-> Hnone]|(c & Hc & -> & Hbest)].
    + cbn. intros r Hr. apply in_app_or in Hr as [Hr|[<-|[]]]; [now apply Hun|exact Hnone].
    + exact Hun.
  - destruct (allocate_one_target ps cc_of st r0) as [[-> Hnone]|(c & Hc & -> & Hbest)].
    + exact Has.
    + cbn. intros k l r Hl Hr.
      destruct (decide (p_id c = k)) as [<-|Hne].
      * rewrite lookup_insert_eq in Hl. injection Hl as <-.
        apply in_app_or in Hr as [Hr|[<-|[]]]; [|exists c; auto].
        destruct (assigned_txns_by_id st !! p_id c) as [old|] eqn:Hold; [|destruct Hr].
        eapply Has; eauto.
      * rewrite lookup_insert_ne in Hl by exact Hne. eapply Has; eauto.
Qed.

(** X9.  Within a date bucket the allocator follows the name signal: a
    repayment is left unassigned only when no pairing of the group has any
    signal for its name, and a repayment filed under a pairing id belongs to
    a pairing with that id whose signal (2 for the card's digits, 1 for the
    vendor's keywords, 0 for none) is the strongest of the group. *)
Theorem allocation_follows_name_signal :
  forall pairings cc_total_of rs,
    let st := allocate_date pairings cc_total_of rs in
    (forall r, In r (unassigned st) ->
       forall p, In p pairings -> repayment_name_match_strength p (r_name r) = 0)
    /\ (forall k assigned r,
          assigned_txns_by_id st !! k = Some assigned -> In r assigned ->
          exists p, In p pairings /\ p_id p = k
                    /\ forall q, In q pairings ->
                         repayment_name_match_strength q (r_name r)
                         <= repayment_name_match_strength p (r_name r)).
Proof.
  intros ps cc_of rs st. unfold st, allocate_date. apply allocate_fold_signal.
  - intros r [].
  - cbn. intros k l r Hl Hr. apply elem_of_list_to_map_2 in Hl.
    apply list_elem_of_In, in_map_iff in Hl as (p & [= _ <-] & _). destruct Hr.
Qed.

(** ** The search for the closest pairing *)

Lemma best_candidate_spec cc_of totals amount cands : forall best,
  match best_candidate cc_of totals amount cands best with
  | None => best = None /\ forall c, In c cands -> cc_of (p_id c) = None
  | Some (p, d) =>
      (forall c t, In c cands -> cc_of (p_id c) = Some t ->
                   d <= Z.abs (default 0 (totals !! p_id c) + amount - t))
      /\ (forall b bd, best = Some (b, bd) -> d <= bd)
      /\ (best = Some (p, d)
          \/ exists t,
               In p cands
               /\ cc_of (p_id p) = Some t
               /\ d = Z.abs (default 0 (totals !! p_id p) + amount - t))
  end.
Proof.
  induction cands as [|c rest IH]; intros best; cbn [best_candidate].
  - destruct best as [[b bd]|].
    + split; [intros ? ? []|]. split; [intros ? ? [= _ <-]; lia|now left].
    + split; [reflexivity|intros ? []].
  - destruct (cc_of (p_id c)) as [t|] eqn:Hc.
    + cbv zeta.
      set (nd := Z.abs (default 0 (totals !! p_id c) + amount - t)).
      set (better := match best with None => true | Some (_, bd) => Amount.lt nd bd end).
      specialize (IH (if better then Some (c, nd) else best)).
      destruct (best_candidate cc_of totals amount rest _) as [[p d]|].
      * destruct IH as (Hmin & Hbest & Hwhere).
        assert (d <= nd /\ (forall b bd, best = Some (b, bd) -> d <= bd)) as [Hnd Hold].
        { destruct better eqn:Hb.
          - split; [now apply (Hbest c nd)|]. intros b bd ->. cbn in Hb.
            apply lt_true in Hb. specialize (Hbest c nd eq_refl). lia.
          - destruct best as [[b bd]|]; [|discriminate Hb]. cbn in Hb. apply lt_false in Hb.
            specialize (Hbest b bd eq_refl). split; [lia|]. intros ? ? [= _ <-]. lia. }
        split; [|split; [exact Hold|]].
        { intros c' t' [<-|Hin] Ht'; [|now apply Hmin].
          rewrite Hc in Ht'. injection Ht' as <-. exact Hnd. }
        destruct Hwhere as [Hsame|(t0 & Hin & Ht0 & Hd)].
        -- destruct better eqn:Hb.
           ++ injection Hsame as <- <-. right. exists t.
              split; [now left|]. split; [exact Hc|reflexivity].
           ++ now left.
        -- right. exists t0. split; [now right|]. split; [exact Ht0|exact Hd].
      * destruct IH as [Hnone _]. destruct better eqn:Hb; [discriminate Hnone|].
        subst best. discriminate Hb.
    + specialize (IH best).
      destruct (best_candidate cc_of totals amount rest best) as [[p d]|].
      * destruct IH as (Hmin & Hbest & Hwhere). split; [|split; [exact Hbest|]].
        { intros c' t' [<-|Hin] Ht'; [congruence|now apply Hmin]. }
        destruct Hwhere as [Hsame|(t0 & Hin & Ht0 & Hd)]; [now left|right].
        exists t0. split; [now right|]. split; [exact Ht0|exact Hd].
      * destruct IH as [Hnone Hall]. split; [exact Hnone|].
        intros c' [<-|Hin]; [exact Hc|now apply Hall].
Qed.

(** X10.  The search for [best_pairing] finds nothing exactly when no
    candidate has a card total for the date; otherwise it returns a
    candidate with a card total, together with the distance at which its
    assigned total plus this amount lands from that card total, and no
    candidate lands closer.  Between candidates that land exactly as close
    the choice is left to the doubles compared. *)
Theorem closest_candidate_is_chosen :
  forall cc_total_of (totals : gmap Z Z) amount candidates,
    let new_diff c t := Z.abs (default 0 (totals !! p_id c) + amount - t) in
    (best_candidate cc_total_of totals amount candidates None = None
     <-> forall c, In c candidates -> cc_total_of (p_id c) = None)
    /\ forall best_pairing best_new_diff,
         best_candidate cc_total_of totals amount candidates None
         = Some (best_pairing, best_new_diff) ->
         exists cc_total,
           In best_pairing candidates
           /\ cc_total_of (p_id best_pairing) = Some cc_total
           /\ best_new_diff = new_diff best_pairing cc_total
           /\ forall c t, In c candidates -> cc_total_of (p_id c) = Some t ->
                          best_new_diff <= new_diff c t.
Proof.
  intros cc_of totals amount cands new_diff.
  pose proof (best_candidate_spec cc_of totals amount cands None) as Hspec.
  destruct (best_candidate cc_of totals amount cands None) as [[p d]|].
  - destruct Hspec as (Hmin & _ & [Hsame|(t & Hin & Ht & Hd)]); [discriminate Hsame|].
    split.
    + split; [discriminate|]. intros Hall. rewrite (Hall p Hin) in Ht. discriminate.
    + intros ? ? [= <- <-]. exists t. auto.
  - destruct Hspec as [_ Hall]. split; [tauto|discriminate].
Qed.

(** X11.  A repayment for which no pairing of the group has a name signal
    is assigned only when it brings a pairing's assigned total within
    [EPSILON] of that pairing's card total, and then to a pairing that no
    other lands closer than; it is left unassigned only when no pairing
    with a card total lands closer than [EPSILON].  A closest distance of
    exactly [EPSILON] goes either way, with the doubles compared. *)
Theorem repayment_without_signal_needs_exact_fit :
  forall pairings cc_total_of st r,
    (forall p, In p pairings -> repayment_name_match_strength p (r_name r) = 0) ->
    let new_diff c t :=
      Z.abs (default 0 (assigned_total_by_id st !! p_id c) + Z.abs (r_price r) - t) in
    (allocate_one pairings cc_total_of st r = leave_unassigned st r
     /\ forall c t, In c pairings -> cc_total_of (p_id c) = Some t -> EPSILON <= new_diff c t)
    \/ exists c t,
         In c pairings /\ cc_total_of (p_id c) = Some t /\ new_diff c t <= EPSILON
         /\ (forall c' t', In c' pairings -> cc_total_of (p_id c') = Some t' ->
                           new_diff c t <= new_diff c' t')
         /\ allocate_one pairings cc_total_of st r = assign st c r.
Proof.
  intros ps cc_of st r Hnone new_diff. unfold allocate_one.
  rewrite !filter_all_false by (intros p Hp; rewrite (Hnone p Hp); reflexivity).
  pose proof (best_candidate_spec cc_of (assigned_total_by_id st) (Z.abs (r_price r)) ps None)
    as Hspec.
  destruct (best_candidate cc_of (assigned_total_by_id st) (Z.abs (r_price r)) ps None)
    as [[p d]|]; cbn [negb andb].
  - destruct Hspec as (Hmin & _ & [Hsame|(t & Hin & Ht & Hd)]); [discriminate Hsame|].
    destruct (Amount.gt d EPSILON) eqn:Hfar; [apply gt_true in Hfar|apply gt_false in Hfar].
    + left. split; [reflexivity|]. intros c t' Hc Ht'.
      specialize (Hmin c t' Hc Ht'). unfold new_diff. lia.
    + right. exists p, t. fold (new_diff p t) in Hd. rewrite <- Hd.
      split; [exact Hin|].
      split; [exact Ht|]. split; [exact Hfar|]. split; [exact Hmin|reflexivity].
  - left. split; [reflexivity|]. intros c t Hc Ht. destruct Hspec as [_ Hall].
    rewrite (Hall c Hc) in Ht. discriminate.
Qed.

(** ** Card totals per billing day *)

Lemma grouped_sum_lookup (key : transaction -> string) (val : transaction -> Z) rows :
  forall (m : gmap string Z) d,
    fold_left (fun m t => <[key t := default 0 (m !! key t) + val t]> m) rows m !! d
    = match List.filter (fun t => String.eqb (key t) d) rows with
      | [] => m !! d
      | l => Some (default 0 (m !! d) + Py.sum (List.map val l))
      end.
Proof.
  induction rows as [|t rest IH]; intros m d; cbn [fold_left List.filter]; [reflexivity|].
  rewrite IH. destruct (String.eqb_spec (key t) d) as [<-|Hne].
  - rewrite lookup_insert_eq. cbn [default].
    destruct (List.filter _ rest) as [|x l]; cbn [List.map Py.sum fold_right].
    + f_equal. unfold id. lia.
    + f_equal. unfold Py.sum, id. cbn [List.map fold_right]. lia.
  - rewrite lookup_insert_ne by exact Hne. reflexivity.
Qed.

(** X12.  [get_cc_totals_for_date_range] has an entry for a day exactly
    when the card has a completed row billed on that day within the range
    (and on the given account, when one is given); the entry is the sum of
    the billed amounts of those rows, clamped at zero. *)
Theorem card_totals_by_billing_day :
  forall db cc_vendor cc_account_number start_date end_date day,
    let fees_id := match get_cc_fees_category_id db with Some f => f | None => -1 end in
    let billed_that_day :=
      List.filter (fun t => String.eqb (billing_day t) day)
        (List.filter
           (fun t =>
              String.eqb (t_vendor t) cc_vendor
              && String.eqb (t_status t) "completed"
              && String.leb start_date (billing_day t)
              && String.leb (billing_day t) end_date
              && account_filter cc_account_number t)
           (transactions db)) in
    get_cc_totals_for_date_range db cc_vendor cc_account_number start_date end_date !! day
    = match billed_that_day with
      | [] => None
      | rows => Some (Z.max 0 (Py.sum (List.map (billed_amount fees_id) rows)))
      end.
Proof.
  intros db vendor acct s e day fees_id billed_that_day.
  unfold get_cc_totals_for_date_range. rewrite lookup_fmap, grouped_sum_lookup.
  fold fees_id. fold billed_that_day.
  destruct billed_that_day; [now rewrite lookup_empty|].
  rewrite lookup_empty. cbn [default fmap option_fmap option_map]. reflexivity.
Qed.

(** ** The cycles of the classifier *)

Lemma add_to_bucket_dates r bs d :
  In d (List.map repaymentDate (add_to_bucket r bs)) ->
  In d (List.map repaymentDate bs) \/ d = r_cycleDate r.
Proof.
  induction bs as [|b bs IH]; cbn [add_to_bucket].
  - cbn. intros [<-|[]]. now right.
  - destruct (String.eqb_spec (repaymentDate b) (r_cycleDate r)) as [He|Hne]; cbn.
    + intros [<-|H]; auto.
    + intros [<-|H]; [auto|]. apply IH in H as [H|H]; auto.
Qed.

Lemma add_to_bucket_NoDup r bs :
  List.NoDup (List.map repaymentDate bs) ->
  List.NoDup (List.map repaymentDate (add_to_bucket r bs)).
Proof.
  induction bs as [|b bs IH]; cbn [add_to_bucket]; intros Hnd.
  - cbn. constructor; [intros []|constructor].
  - inversion Hnd as [|? ? Hb Hrest]; subst.
    destruct (String.eqb_spec (repaymentDate b) (r_cycleDate r)) as [He|Hne]; cbn.
    + constructor; assumption.
    + constructor; [|now apply IH].
      intros H. apply add_to_bucket_dates in H as [H|H]; [contradiction|congruence].
Qed.

(** What every bucket of [repayments_by_date] satisfies. *)
Lemma add_to_bucket_sound (P : repayment -> Prop) r bs :
  P r ->
  (forall b, In b bs ->
     b_bankTotal b = amounts (b_repayments b) /\ b_repayments b <> []
     /\ forall x, In x (b_repayments b) -> r_cycleDate x = repaymentDate b /\ P x) ->
  forall b, In b (add_to_bucket r bs) ->
    b_bankTotal b = amounts (b_repayments b) /\ b_repayments b <> []
    /\ forall x, In x (b_repayments b) -> r_cycleDate x = repaymentDate b /\ P x.
Proof.
  intros Hr. induction bs as [|b0 bs IH]; intros Hbs b; cbn [add_to_bucket].
  - intros [<-|[]]. cbn. unfold amounts. cbn. split; [lia|]. split; [discriminate|].
    intros x [<-|[]]. auto.
  - destruct (String.eqb_spec (repaymentDate b0) (r_cycleDate r)) as [He|Hne].
    + intros [<-|Hin]; [|apply Hbs; now right].
      destruct (Hbs b0 (or_introl eq_refl)) as (Hsum & _ & Hall).
      cbn [b_bankTotal b_repayments repaymentDate].
      rewrite amounts_app, Hsum. unfold amounts. cbn. split; [lia|].
      split; [now destruct (b_repayments b0)|].
      intros x Hx. apply in_app_or in Hx as [Hx|[<-|[]]]; [now apply Hall|auto].
    + intros [<-|Hin]; [apply Hbs; now left|].
      apply IH; [|exact Hin]. intros b' Hb'. apply Hbs. now right.
Qed.

Lemma repayments_by_date_sound (P : repayment -> Prop) rows :
  (forall t, In t rows -> P (repayment_of_row t)) ->
  List.NoDup (List.map repaymentDate (Classifier.repayments_by_date rows))
  /\ forall b, In b (Classifier.repayments_by_date rows) ->
       b_bankTotal b = amounts (b_repayments b) /\ b_repayments b <> []
       /\ forall x, In x (b_repayments b) -> r_cycleDate x = repaymentDate b /\ P x.
Proof.
  unfold Classifier.repayments_by_date.
  assert (forall bs : list bucket,
             (forall t, In t rows -> P (repayment_of_row t)) ->
             List.NoDup (List.map repaymentDate bs) ->
             (forall b, In b bs ->
                b_bankTotal b = amounts (b_repayments b) /\ b_repayments b <> []
                /\ forall x, In x (b_repayments b) -> r_cycleDate x = repaymentDate b /\ P x) ->
             List.NoDup (List.map repaymentDate
                           (fold_left (fun bs t => add_to_bucket (repayment_of_row t) bs) rows bs))
             /\ forall b,
                  In b (fold_left (fun bs t => add_to_bucket (repayment_of_row t) bs) rows bs) ->
                  b_bankTotal b = amounts (b_repayments b) /\ b_repayments b <> []
                  /\ forall x, In x (b_repayments b) ->
                               r_cycleDate x = repaymentDate b /\ P x) as Hgen.
  { induction rows as [|t rows IH]; intros bs HP Hnd Hbs; cbn [fold_left]; [auto|].
    apply IH.
    - intros t' Ht'. apply HP. now right.
    - now apply add_to_bucket_NoDup.
    - apply add_to_bucket_sound; [apply HP; now left|exact Hbs]. }
  intros HP. apply Hgen; [exact HP|constructor|intros b []].
Qed.

Lemma repayment_rows_In db bv ba s e limit t :
  In t (repayment_rows db bv ba s e limit) ->
  In t (transactions db) /\ t_vendor t = bv /\ t_price t < 0
  /\ t_status t = "completed"
  /\ String.leb s (substr10 (t_date t)) = true /\ String.leb (substr10 (t_date t)) e = true.
Proof.
  unfold repayment_rows, Py.sql_limit. intros Hin.
  assert (In t (Py.sorted_desc (fun a b => String.ltb (t_date a) (t_date b))
                  (join_repayment_category db
                     (List.filter
                        (fun t => String.eqb (t_vendor t) bv
                                  && String.leb s (substr10 (t_date t))
                                  && String.leb (substr10 (t_date t)) e
                                  && String.eqb (t_status t) "completed"
                                  && (t_price t <? 0)
                                  && account_filter ba t)
                        (transactions db))))) as Hin'.
  { destruct (limit <? 0); [exact Hin|]. eapply firstn_In_In; exact Hin. }
  apply sorted_desc_In in Hin'. unfold join_repayment_category in Hin'.
  apply in_flat_map in Hin' as (t0 & Ht0 & Hmap).
  apply in_map_iff in Hmap as (cd & <- & _).
  apply filter_In in Ht0 as [Hdb Hf].
  repeat (apply andb_prop in Hf as [Hf ?]).
  split; [exact Hdb|]. split; [now apply String.eqb_eq|]. split; [lia|].
  split; [now apply String.eqb_eq|]. auto.
Qed.

Lemma amounts_pos rs :
  rs <> [] -> (forall r, In r rs -> r_price r < 0) -> 0 < amounts rs.
Proof.
  unfold amounts. destruct rs as [|r rs]; [congruence|]. intros _ Hneg.
  assert (0 <= Py.sum (List.map (fun r => Z.abs (r_price r)) rs)) as H0.
  { clear. induction rs as [|x rs IH]; cbn; [lia|]. unfold Py.sum in IH. lia. }
  cbn. unfold Py.sum in H0. specialize (Hneg r (or_introl eq_refl)). lia.
Qed.

Lemma grace_relabel_keeps today earliest c :
  cycleDate (grace_relabel today earliest c) = cycleDate c
  /\ bankTotal (grace_relabel today earliest c) = bankTotal c
  /\ ccTotal (grace_relabel today earliest c) = ccTotal c
  /\ difference (grace_relabel today earliest c) = difference c
  /\ repayments (grace_relabel today earliest c) = repayments c
  /\ matchedAccount (grace_relabel today earliest c) = matchedAccount c
  /\ (status (grace_relabel today earliest c) = status c
      \/ status (grace_relabel today earliest c) = incomplete_history).
Proof.
  destruct (grace_relabel_cases today earliest c) as [->|[_ ->]]; cbn; tauto.
Qed.

Lemma raw_cycles_buckets db bv ba cv ca s e limit :
  let P r := r_price r < 0 /\ r_vendor r = bv
             /\ repayment_matches_cc cv ca (r_name r) = true
             /\ String.leb s (r_cycleDate r) = true /\ String.leb (r_cycleDate r) e = true in
  List.NoDup (List.map cycleDate (raw_cycles db bv ba cv ca s e limit))
  /\ forall c, In c (raw_cycles db bv ba cv ca s e limit) ->
       bankTotal c = amounts (repayments c) /\ repayments c <> []
       /\ forall r, In r (repayments c) -> r_cycleDate r = cycleDate c /\ P r.
Proof.
  intros P. unfold raw_cycles.
  set (rows := List.filter _ (repayment_rows db bv ba s e limit)).
  destruct (repayments_by_date_sound P rows) as [Hnd Hall].
  { intros t Ht. apply filter_In in Ht as [Ht Hm].
    apply repayment_rows_In in Ht as (_ & Hv & Hp & _ & Hs & He).
    unfold P. cbn. auto. }
  split.
  - rewrite List.map_map. cbn [cycle_of_bucket cycleDate]. exact Hnd.
  - intros c Hc. apply in_map_iff in Hc as (b & <- & Hb). cbn [cycle_of_bucket].
    cbn [bankTotal repayments cycleDate]. now apply Hall.
Qed.

(** X13.  In every cycle the classifier reports, [bankTotal] is the sum of
    the absolute prices of the cycle's repayments and is positive; each of
    these repayments is an outgoing transaction of the bank vendor, dated on
    the cycle's day inside the analysis window, whose description matches
    the card. *)
Theorem cycle_total_sums_its_repayments :
  forall db today pairing_id bank_vendor bank_account_number cc_vendor cc_account_number
         months_back limit c,
    In c (result_cycles
            (calculate_discrepancy_app db today pairing_id bank_vendor bank_account_number
               cc_vendor cc_account_number months_back limit)) ->
    bankTotal c = amounts (repayments c)
    /\ 0 < bankTotal c
    /\ String.leb (Calendar.isoformat (Calendar.subtract_calendar_months today months_back))
                  (cycleDate c) = true
    /\ String.leb (cycleDate c) (Calendar.isoformat today) = true
    /\ forall r, In r (repayments c) ->
         r_cycleDate r = cycleDate c /\ r_price r < 0 /\ r_vendor r = bank_vendor
         /\ repayment_matches_cc cc_vendor cc_account_number (r_name r) = true.
Proof.
  intros db today pid bv ba cv ca months limit c Hc.
  apply result_cycles_inv in Hc as (c0 & Hc0 & ->).
  destruct (grace_relabel_keeps today
              (get_cc_earliest_cycle_date db cv ca (get_cc_fees_category_id db)) c0)
    as (-> & -> & _ & _ & -> & _).
  destruct (raw_cycles_buckets db bv ba cv ca
              (Calendar.isoformat (Calendar.subtract_calendar_months today months))
              (Calendar.isoformat today) limit) as [_ Hall].
  destruct (Hall c0 Hc0) as (Hsum & Hne & Hrs).
  split; [exact Hsum|]. split.
  { rewrite Hsum. apply amounts_pos; [exact Hne|]. intros r Hr. now apply Hrs. }
  destruct (repayments c0) as [|r0 rest] eqn:Hreps; [congruence|].
  destruct (Hrs r0 (or_introl eq_refl)) as (Hdate & _ & _ & _ & Hs & He).
  rewrite Hdate in Hs, He. split; [exact Hs|]. split; [exact He|].
  intros r Hr. destruct (Hrs r Hr) as (? & ? & ? & ? & _). auto.
Qed.

Lemma string_ltb_total x y : String.ltb x y = false -> x <> y -> String.ltb y x = true.
Proof.
  unfold String.ltb. rewrite (String.compare_antisym y x).
  destruct (String.compare x y) eqn:E; cbn; try discriminate; [|reflexivity].
  apply String.compare_eq_iff in E. contradiction.
Qed.

Lemma StronglySorted_strict {A} (f : A -> string) (l : list A) :
  StronglySorted (fun a b => String.ltb (f a) (f b) = false) l ->
  List.NoDup (List.map f l) ->
  StronglySorted (fun a b => String.ltb (f b) (f a) = true) l.
Proof.
  induction 1 as [|x l Hl IH Hx]; intros Hnd; constructor.
  - apply IH. now inversion Hnd.
  - inversion Hnd as [|? ? Hnotin _]; subst. rewrite Forall_forall in Hx |- *.
    intros y Hy. apply string_ltb_total; [now apply Hx|].
    intros Heq. apply Hnotin. rewrite Heq. now apply in_map.
Qed.

(** X14.  The cycles the classifier reports are ordered newest first and no
    two of them share a date: there is one cycle per repayment day. *)
Theorem cycles_newest_first_one_per_day :
  forall db today pairing_id bank_vendor bank_account_number cc_vendor cc_account_number
         months_back limit,
    StronglySorted (fun earlier later => String.ltb (cycleDate later) (cycleDate earlier) = true)
      (result_cycles
         (calculate_discrepancy_app db today pairing_id bank_vendor bank_account_number
            cc_vendor cc_account_number months_back limit)).
Proof.
  intros db today pid bv ba cv ca months limit. unfold calculate_discrepancy_app.
  destruct (_ || _); [constructor|].
  destruct (Calendar.subtract_raises _ _); [constructor|].
  destruct (List.filter _ _) eqn:Hf; [constructor|]. cbn [result_cycles cycles aggregate].
  set (raw := raw_cycles db bv ba cv ca _ _ limit).
  set (sorted := Py.sorted_desc (fun a b => String.ltb (cycleDate a) (cycleDate b)) raw).
  set (earliest := get_cc_earliest_cycle_date db cv ca (get_cc_fees_category_id db)).
  assert (StronglySorted (fun a b => String.ltb (cycleDate b) (cycleDate a) = true) sorted)
    as Hsorted.
  { apply (StronglySorted_strict cycleDate).
    - apply (sorted_desc_sorted (fun a b => String.ltb (cycleDate a) (cycleDate b))).
      + intros x y. apply string_ltb_asym.
      + intros x y z. apply string_ge_trans.
    - apply (Permutation_NoDup (l := List.map cycleDate raw)).
      + apply Permutation_map. symmetry. apply sorted_desc_perm.
      + apply raw_cycles_buckets. }
  clearbody sorted. clear raw Hf.
  induction Hsorted as [|x cs Hcs IH Hx]; cbn [List.map]; constructor; [exact IH|].
  rewrite Forall_forall in Hx |- *. intros y Hy.
  apply in_map_iff in Hy as (y0 & <- & Hy0).
  destruct (grace_relabel_keeps today earliest x) as (-> & _).
  destruct (grace_relabel_keeps today earliest y0) as (-> & _).
  now apply Hx.
Qed.

Lemma scan_rows_status bank rows v :
  v_status (scan_rows bank rows v) = v_status v
  \/ v_status (scan_rows bank rows v) = matched
  \/ v_status (scan_rows bank rows v) = fee_candidate.
Proof.
  revert v. induction rows as [|r rows IH]; intros v; cbn [scan_rows]; [now left|].
  cbv zeta. destruct (Amount.le _ EPSILON); [right; now left|].
  destruct (_ && _); [|apply IH].
  destruct (IH {| v_cc_total := Some (row_total r);
                  v_matched_account := cr_account_number r;
                  v_status := fee_candidate |}) as [H|[H|H]]; rewrite H; cbn; auto.
Qed.

Lemma classify_diff_meaning diff :
  (classify_diff diff = large_discrepancy -> MAX_FEE_AMOUNT <= diff)
  /\ (classify_diff diff = cc_over_bank -> diff <= - EPSILON).
Proof.
  pose proof (classify_diff_cases diff) as Hc.
  split; intros H; now rewrite H in Hc.
Qed.

Lemma classify_bucket_fallback bank rows acct :
  v_status (classify_bucket bank rows acct) = large_discrepancy
  \/ v_status (classify_bucket bank rows acct) = cc_over_bank ->
  Py.truthy acct = true
  /\ v_matched_account (classify_bucket bank rows acct) = acct
  /\ exists r, In r rows
               /\ v_cc_total (classify_bucket bank rows acct) = Some (row_total r)
               /\ v_status (classify_bucket bank rows acct)
                  = classify_diff (bank - row_total r).
Proof.
  unfold classify_bucket. destruct rows as [|r0 rows0]; [cbn; intros [H|H]; discriminate|].
  set (rows := r0 :: rows0).
  pose proof (scan_rows_status bank rows no_verdict) as Hscan. cbn [no_verdict v_status] in Hscan.
  destruct (status_eqb (v_status (scan_rows bank rows no_verdict)) missing_cc_cycle) eqn:Hmiss.
  - destruct (Py.truthy acct) eqn:Ht; cbn [andb].
    + destruct (List.filter _ rows) as [|r rest] eqn:Hf.
      * intros [H|H]; destruct Hscan as [Hs|[Hs|Hs]]; congruence.
      * cbn. intros _. split; [reflexivity|]. split; [reflexivity|].
        exists r. split; [|auto].
        assert (In r (List.filter
                        (fun r => Py.opt_str_eqb (Some (Py.str_or (cr_account_number r) "")) acct)
                        rows)) as Hin by (rewrite Hf; now left).
        now apply filter_In in Hin.
    + intros [H|H]; destruct Hscan as [Hs|[Hs|Hs]]; congruence.
  - cbn [andb]. intros [H|H]; destruct Hscan as [Hs|[Hs|Hs]]; congruence.
Qed.

(** X15.  The classifier reports [large_discrepancy] or [cc_over_bank] only
    for a pairing that names a card account: the cycle's card total is then
    the billed total of a row of that day, clamped at zero, the matched
    account is the pairing's, and the bank total exceeds the card total by
    [MAX_FEE_AMOUNT] or more, or falls short of it by [EPSILON] or more
    (the two bounds themselves are reached only when the doubles compared
    put the difference beyond them). *)
Theorem large_discrepancy_needs_the_card_account :
  forall db today pairing_id bank_vendor bank_account_number cc_vendor cc_account_number
         months_back limit c,
    In c (result_cycles
            (calculate_discrepancy_app db today pairing_id bank_vendor bank_account_number
               cc_vendor cc_account_number months_back limit)) ->
    status c = large_discrepancy \/ status c = cc_over_bank ->
    Py.truthy cc_account_number = true
    /\ matchedAccount c = cc_account_number
    /\ exists row,
         In row (cc_rows db
                   (match get_cc_fees_category_id db with Some f => f | None => -1 end)
                   cc_vendor (cycleDate c) cc_account_number)
         /\ ccTotal c = Some (row_total row)
         /\ difference c = Some (bankTotal c - row_total row)
         /\ (status c = large_discrepancy -> MAX_FEE_AMOUNT <= bankTotal c - row_total row)
         /\ (status c = cc_over_bank -> bankTotal c - row_total row <= - EPSILON).
Proof.
  intros db today pid bv ba cv ca months limit c Hc Hst.
  apply result_cycles_inv in Hc as (c0 & Hc0 & ->).
  destruct (grace_relabel_keeps today
              (get_cc_earliest_cycle_date db cv ca (get_cc_fees_category_id db)) c0)
    as (-> & -> & -> & -> & _ & -> & [Hsame|Hinc]);
    [rewrite Hsame in *|rewrite Hinc in Hst; destruct Hst; discriminate].
  clear Hsame. unfold raw_cycles in Hc0. apply in_map_iff in Hc0 as (b & <- & _).
  cbn [cycle_of_bucket status matchedAccount ccTotal difference bankTotal cycleDate] in *.
  set (rows := cc_rows db _ cv (repaymentDate b) ca) in *.
  destruct (classify_bucket_fallback (b_bankTotal b) rows ca Hst) as (Ht & Hacc & r & Hr & Hcc & Hs).
  split; [exact Ht|]. split; [exact Hacc|]. exists r. split; [exact Hr|].
  rewrite Hcc, Hs. split; [reflexivity|]. split; [reflexivity|].
  apply classify_diff_meaning.
Qed.

(** * The modes of the lab script *)

Import Driver.

(** A group whose pairings share one bank account. *)
Lemma uniform_group_returns db today months limit group v a :
  Calendar.subtract_raises today months = false ->
  (forall q, In q group -> bank_vendor q = v /\ bank_account_number q = a) ->
  exists ds,
    calculate_discrepancies_app_for_bank_group db today group months limit = Returned ds
    /\ forall p, In p group -> exists q, In q group /\ p_id q = p_id p
         /\ ds !! p_id p = Some (discrepancy_for db today group months limit q).
Proof.
  intros Hdate Hsame. unfold calculate_discrepancies_app_for_bank_group.
  destruct group as [|first rest] eqn:Hg; [exists ∅; split; [reflexivity|intros p []]|].
  rewrite <- Hg in *. rewrite Hdate.
  assert (forallb (same_bank first) rest = true) as Hall.
  { apply forallb_forall. intros q Hq. unfold same_bank.
    destruct (Hsame q) as [-> ->]; [rewrite Hg; now right|].
    destruct (Hsame first) as [-> ->]; [rewrite Hg; now left|].
    rewrite String.eqb_refl. cbn. now apply opt_str_eqb_eq. }
  rewrite Hall. eexists. split; [reflexivity|].
  intros p Hp. apply fold_insert_present. exact Hp.
Qed.

Lemma bank_key_eqb_eq k p :
  bank_key_eqb k (bank_key p) = true ->
  bank_vendor p = fst k /\ bank_account_number p = snd k.
Proof.
  unfold bank_key_eqb, bank_key. cbn. intros H. apply andb_prop in H as [Hv Ha].
  apply String.eqb_eq in Hv. apply opt_str_eqb_eq in Ha. auto.
Qed.

Lemma add_to_bank_groups p groups :
  (forall k g, In (k, g) groups ->
     forall q, In q g -> bank_vendor q = fst k /\ bank_account_number q = snd k) ->
  (forall k g, In (k, g) (add_to_bank p groups) ->
     forall q, In q g -> bank_vendor q = fst k /\ bank_account_number q = snd k)
  /\ (exists k g, In (k, g) (add_to_bank p groups) /\ In p g)
  /\ forall k g q, In (k, g) groups -> In q g ->
       exists g', In (k, g') (add_to_bank p groups) /\ In q g'.
Proof.
  induction groups as [|[k0 g0] groups IH]; intros Hinv; cbn [add_to_bank].
  - split; [|split].
    + intros k g [[= <- <-]|[]] q [<-|[]]. cbn. auto.
    + exists (bank_key p), [p]. split; now left.
    + intros k g q [].
  - destruct (bank_key_eqb k0 (bank_key p)) eqn:Hk.
    + split; [|split].
      * intros k g [[= <- <-]|Hin] q Hq; [|eapply Hinv; [right|]; eauto].
        apply in_app_or in Hq as [Hq|[<-|[]]]; [eapply Hinv; [left|]; eauto|].
        now apply bank_key_eqb_eq.
      * exists k0, (g0 ++ [p])%list. split; [now left|]. apply in_or_app. right. now left.
      * intros k g q [[= <- <-]|Hin] Hq.
        -- exists (g0 ++ [p])%list. split; [now left|]. apply in_or_app. now left.
        -- exists g. split; [now right|exact Hq].
    + destruct IH as (Hinv' & (k & g & Hin & Hp) & Hkeep).
      { intros k g Hin. apply Hinv. now right. }
      split; [|split].
      * intros k' g' [[= <- <-]|Hin'] q Hq; [eapply Hinv; [left|]; eauto|].
        eapply Hinv'; eauto.
      * exists k, g. split; [now right|exact Hp].
      * intros k' g' q [[= <- <-]|Hin'] Hq.
        -- exists g0. split; [now left|exact Hq].
        -- destruct (Hkeep k' g' q Hin' Hq) as (g'' & ? & ?). exists g''. split; [now right|auto].
Qed.

Lemma pairings_by_bank_groups pairings :
  (forall k g, In (k, g) (pairings_by_bank pairings) ->
     forall q, In q g -> bank_vendor q = fst k /\ bank_account_number q = snd k)
  /\ forall p, In p pairings -> exists k g, In (k, g) (pairings_by_bank pairings) /\ In p g.
Proof.
  unfold pairings_by_bank.
  assert (forall groups : list ((string * option string) * list AccountPairing),
             (forall k g, In (k, g) groups ->
                forall q, In q g -> bank_vendor q = fst k /\ bank_account_number q = snd k) ->
             (forall k g, In (k, g) (fold_left (fun groups p => add_to_bank p groups) pairings groups) ->
                forall q, In q g -> bank_vendor q = fst k /\ bank_account_number q = snd k)
             /\ (forall p, In p pairings ->
                   exists k g, In (k, g) (fold_left (fun groups p => add_to_bank p groups)
                                            pairings groups) /\ In p g)
             /\ forall k g q, In (k, g) groups -> In q g ->
                  exists g', In (k, g') (fold_left (fun groups p => add_to_bank p groups)
                                           pairings groups) /\ In q g') as Hgen.
  { induction pairings as [|p ps IH]; intros groups Hinv; cbn [fold_left].
    - split; [exact Hinv|]. split; [intros p []|]. intros k g q Hin Hq. exists g. auto.
    - destruct (add_to_bank_groups p groups Hinv) as (Hinv' & (k & g & Hin & Hp) & Hkeep).
      destruct (IH (add_to_bank p groups) Hinv') as (Hfinal & Hcover & Hkeep').
      split; [exact Hfinal|]. split.
      + intros q [<-|Hq]; [|now apply Hcover].
        destruct (Hkeep' k g p Hin Hp) as (g' & ? & ?). eauto.
      + intros k' g' q Hin' Hq. destruct (Hkeep k' g' q Hin' Hq) as (g'' & Hin'' & Hq'').
        apply (Hkeep' k' g'' q Hin'' Hq''). }
  destruct (Hgen []) as (H1 & H2 & _); [intros k g []|]. auto.
Qed.

Lemma discrepancies_by_id_returns db today months groups : forall acc,
  Calendar.subtract_raises today months = false ->
  (forall g, In g groups ->
     exists v a, forall q, In q g -> bank_vendor q = v /\ bank_account_number q = a) ->
  exists by_id,
    discrepancies_by_id db today months groups acc = Returned by_id
    /\ (forall k, is_Some (acc !! k) -> is_Some (by_id !! k))
    /\ forall g p, In g groups -> In p g -> is_Some (by_id !! p_id p).
Proof.
  induction groups as [|g groups IH]; intros acc Hdate Huni; cbn [discrepancies_by_id].
  - exists acc. split; [reflexivity|]. split; [auto|intros g p []].
  - destruct (Huni g (or_introl eq_refl)) as (v & a & Hg).
    destruct (uniform_group_returns db today months 2000 g v a Hdate Hg) as (ds & -> & Hds).
    destruct (IH (ds ∪ acc) Hdate) as (by_id & Heq & Hacc & Hrest).
    { intros g' Hg'. apply Huni. now right. }
    exists by_id. split; [exact Heq|]. split.
    + intros k Hk. apply Hacc. rewrite lookup_union. destruct (ds !! k), Hk as [x ->]; cbn; eauto.
    + intros g' p [<-|Hg'] Hp; [|eapply Hrest; eauto].
      apply Hacc. destruct (Hds p Hp) as (q & _ & _ & Hl).
      rewrite lookup_union, Hl. destruct (acc !! p_id p); cbn; eauto.
Qed.

(** X16.  In the mode that goes through every pairing, the pairings are
    grouped by bank account, so the allocator's check that a group shares
    one bank account never fails: when the months asked for do not reach
    back before year 1 from a valid day, the run completes, and the
    discrepancy reported for every pairing is the allocator's, never the
    one of the single-pairing classifier. *)
Theorem all_pairings_mode_reports_allocated :
  forall db today months pairings,
    Calendar.valid_date (Calendar.year today) (Calendar.month today) (Calendar.day today)
    = true ->
    months < 12 * (Calendar.year today - 1) + Calendar.month today ->
    exists reports,
      run_all_pairings db today months pairings = Some reports
      /\ List.map fst reports = pairings
      /\ forall p r, In (p, r) reports -> exists d, r = Allocated d.
Proof.
  intros db today months pairings Hvalid Hreach. unfold run_all_pairings.
  destruct (pairings_by_bank_groups pairings) as [Hinv Hcover].
  destruct (discrepancies_by_id_returns db today months
              (List.map snd (pairings_by_bank pairings)) ∅
              (subtract_in_range _ _ Hvalid Hreach)) as (by_id & -> & _ & Hall).
  { intros g Hg. apply in_map_iff in Hg as ([k g'] & <- & Hin).
    exists (fst k), (snd k). apply (Hinv k g' Hin). }
  eexists. split; [reflexivity|]. split.
  - rewrite List.map_map. cbn. apply List.map_id.
  - intros p r Hin. apply in_map_iff in Hin as (p' & [= <- <-] & Hp).
    destruct (Hcover p' Hp) as (k & g & Hin & Hpg).
    destruct (Hall g p') as [d Hd]; [apply in_map_iff; exists (k, g); auto|exact Hpg|].
    exists d. unfold report_for. now rewrite Hd.
Qed.

(** X17.  In the [--pairing-id] mode the group handed to the allocator
    shares the bank account of the requested pairing and contains a pairing
    with its id: when the months asked for do not reach back before year 1
    from a valid day, the call does not raise, and the discrepancy reported
    is the allocator's for a pairing of the group with the requested id. *)
Theorem pairing_id_mode_reports_allocated :
  forall db today months all_pairings pairing,
    Calendar.valid_date (Calendar.year today) (Calendar.month today) (Calendar.day today)
    = true ->
    months < 12 * (Calendar.year today - 1) + Calendar.month today ->
    exists q,
      In q (group_pairings all_pairings pairing)
      /\ p_id q = p_id pairing
      /\ run_one_pairing db today months all_pairings pairing
         = Some (Allocated (discrepancy_for db today (group_pairings all_pairings pairing)
                              months 2000 q)).
Proof.
  intros db today months all pairing Hvalid Hreach. unfold run_one_pairing.
  assert (forall q, In q (group_pairings all pairing) ->
                    bank_vendor q = bank_vendor pairing
                    /\ bank_account_number q = bank_account_number pairing) as Hsame.
  { unfold group_pairings. intros q Hq.
    assert (In q (List.filter
                    (fun p => String.eqb (bank_vendor p) (bank_vendor pairing)
                              && Py.opt_str_eqb (bank_account_number p)
                                                (bank_account_number pairing)
                              && (is_active p || (p_id p =? p_id pairing))) all)
            \/ q = pairing) as [Hf| ->]; [|apply filter_In in Hf as [_ Hf]|auto].
    { destruct (existsb _ _); [now left|].
      apply in_app_or in Hq as [Hq|[<-|[]]]; auto. }
    apply andb_prop in Hf as [Hf _]. apply andb_prop in Hf as [Hv Ha].
    apply String.eqb_eq in Hv. apply opt_str_eqb_eq in Ha. auto. }
  assert (exists p, In p (group_pairings all pairing) /\ p_id p = p_id pairing) as (p & Hp & Hid).
  { unfold group_pairings. destruct (existsb _ _) eqn:He.
    - apply existsb_exists in He as (p & Hp & Heq). exists p. split; [exact Hp|lia].
    - exists pairing. split; [apply in_or_app; right; now left|reflexivity]. }
  destruct (uniform_group_returns db today months 2000 (group_pairings all pairing) _ _
              (subtract_in_range _ _ Hvalid Hreach) Hsame)
    as (ds & -> & Hds).
  destruct (Hds p Hp) as (q & Hq & Hqid & Hl).
  exists q. split; [exact Hq|]. split; [lia|].
  unfold report_for. rewrite <- Hid, Hl. reflexivity.
Qed.

(** ** The start of the analysis window *)

(** X18.  For a valid anchor date and a positive number of months that
    does not reach back before year 1, [subtract_calendar_months] returns a
    valid date exactly that many calendar months earlier, on the anchor's day
    of the month or on the last day of the month when that month is shorter;
    for zero or a negative number of months it returns the anchor. *)
Theorem subtract_calendar_months_is_calendar_arithmetic :
  forall anchor months,
    Calendar.valid_date (Calendar.year anchor) (Calendar.month anchor) (Calendar.day anchor)
    = true ->
    months < 12 * (Calendar.year anchor - 1) + Calendar.month anchor ->
    let r := Calendar.subtract_calendar_months anchor months in
    (months <= 0 -> r = anchor)
    /\ (0 < months ->
        Calendar.valid_date (Calendar.year r) (Calendar.month r) (Calendar.day r) = true
        /\ 12 * Calendar.year r + Calendar.month r
           = 12 * Calendar.year anchor + Calendar.month anchor - months
        /\ Calendar.day r
           = Z.min (Calendar.day anchor)
                   (Calendar.days_in_month (Calendar.year r) (Calendar.month r))).
Proof.
  intros anchor months Hvalid Hreach r. unfold r, Calendar.subtract_calendar_months.
  split.
  - intros Hle. apply Z.leb_le in Hle. now rewrite Hle.
  - intros Hpos. apply Z.leb_gt in Hpos as Hgt. rewrite Hgt.
    cbn [Calendar.year Calendar.month Calendar.day].
    set (month0 := Calendar.year anchor * 12 + (Calendar.month anchor - 1) - months).
    unfold Calendar.valid_date in Hvalid.
    repeat (apply andb_prop in Hvalid as [Hvalid ?]).
    pose proof (Z.div_mod month0 12 ltac:(lia)) as Hdm.
    pose proof (Z.mod_pos_bound month0 12 ltac:(lia)) as Hmod.
    pose proof (days_in_month_range (month0 / 12) (month0 mod 12 + 1)) as Hdim.
    assert (1 <= month0 / 12 <= 9999) as Hyear.
    { split.
      - apply Z.div_le_lower_bound; unfold month0; lia.
      - apply Z.lt_succ_r. apply Z.div_lt_upper_bound; unfold month0; lia. }
    split; [|split; [unfold month0 in *; lia|reflexivity]].
    unfold Calendar.valid_date. repeat (apply andb_true_intro; split); apply Z.leb_le; lia.
Qed.

(** * The bank account the discoverer suggests *)

Lemma record_row_sound P cc_last4 v t g :
  (exists t0, P t0 /\ t_vendor t0 = bankVendor g /\ t_account_number t0 = bankAccountNumber g) ->
  0 <= matchingLast4Count g <= Z.of_nat (List.length (g_transactions g)) ->
  0 <= matchingVendorCount g <= Z.of_nat (List.length (g_transactions g)) ->
  (0 < matchingLast4Count g ->
   exists e, In e (g_transactions g) /\ has_last4 cc_last4 (e_name e) = true) ->
  (0 < matchingVendorCount g ->
   exists e, In e (g_transactions g)
             /\ Text.name_contains_vendor (Some (e_name e)) (Some v) = true) ->
  group_sound P cc_last4 v (record_row cc_last4 v t g).
Proof.
  intros Hid Hl4 Hvc Hel4 Hevc. unfold group_sound, record_row.
  cbn [bankVendor bankAccountNumber g_transactions matchingLast4Count matchingVendorCount].
  rewrite length_app. cbn [List.length].
  split; [exact Hid|].
  split; [destruct (has_last4 _ _); lia|].
  split; [destruct (Text.name_contains_vendor _ _); lia|].
  split.
  - destruct (has_last4 cc_last4 (Py.str_or (t_name t) "")) eqn:Hh.
    + intros _. eexists. split; [apply in_or_app; right; left; reflexivity|exact Hh].
    + intros Hpos. destruct (Hel4 Hpos) as (e & He & Hhe). exists e.
      split; [apply in_or_app; now left|exact Hhe].
  - destruct (Text.name_contains_vendor (Some (Py.str_or (t_name t) "")) (Some v)) eqn:Hh.
    + intros _. eexists. split; [apply in_or_app; right; left; reflexivity|exact Hh].
    + intros Hpos. destruct (Hevc Hpos) as (e & He & Hhe). exists e.
      split; [apply in_or_app; now left|exact Hhe].
Qed.

Lemma add_row_sound (P : transaction -> Prop) cc_last4 v t groups :
  P t ->
  (forall k g, In (k, g) groups -> group_sound P cc_last4 v g) ->
  forall k g, In (k, g) (add_row cc_last4 v t groups) -> group_sound P cc_last4 v g.
Proof.
  intros Ht. induction groups as [|[k0 g0] groups IH]; intros Hinv k g; cbn [add_row].
  - intros [[= <- <-]|[]]. apply record_row_sound; cbn; try lia.
    exists t. auto.
  - destruct (String.eqb k0 _).
    + intros [[= <- <-]|Hin]; [|apply (Hinv k g); now right].
      destruct (Hinv k0 g0 (or_introl eq_refl)) as (Hid & Hl4 & Hvc & Hel4 & Hevc).
      now apply record_row_sound.
    + intros [[= <- <-]|Hin]; [apply (Hinv k0 g0); now left|].
      apply (IH (fun k' g' H' => Hinv k' g' (or_intror H')) k g Hin).
Qed.

Lemma build_groups_sound (P : transaction -> Prop) cc_last4 v rows :
  (forall t, In t rows -> P t) ->
  forall k g, In (k, g) (build_groups cc_last4 v rows) -> group_sound P cc_last4 v g.
Proof.
  unfold build_groups. intros HP.
  assert (forall groups : list (string * group),
             (forall k g, In (k, g) groups -> group_sound P cc_last4 v g) ->
             forall k g,
               In (k, g) (fold_left (fun gs t => add_row cc_last4 v t gs) rows groups) ->
               group_sound P cc_last4 v g) as Hgen.
  { induction rows as [|t rows IH]; intros groups Hinv; cbn [fold_left]; [exact Hinv|].
    apply IH; [intros t' Ht'; apply HP; now right|].
    apply add_row_sound; [apply HP; now left|exact Hinv]. }
  apply Hgen. intros k g [].
Qed.

Lemma best_candidate_group db v acct bvf baf limit s :
  find_best_bank_account_app db v acct bvf baf limit = Found s ->
  exists best,
    group_sound (fun t => In t (candidate_rows db bvf baf limit))
                (Text.get_account_last4 acct) v best
    /\ referenced best = true
    /\ s_bankVendor s = bankVendor best
    /\ s_bankAccountNumber s = bankAccountNumber best
    /\ transactionCount s = Z.of_nat (List.length (g_transactions best))
    /\ s_matchingLast4Count s = matchingLast4Count best
    /\ s_matchingVendorCount s = matchingVendorCount best
    /\ sampleTransactions s
       = sample_transactions (Text.get_account_last4 acct) v (g_transactions best) 0.
Proof.
  unfold find_best_bank_account_app. destruct (String.eqb v ""); [discriminate|].
  set (rows := candidate_rows db bvf baf limit).
  destruct rows as [|r0 rows0] eqn:Hrows; [discriminate|]. rewrite <- Hrows.
  destruct (candidates_of _) as [|best others] eqn:Hc; [discriminate|].
  intros [= <-]. exists best. cbn.
  assert (In best (candidates_of (build_groups (Text.get_account_last4 acct) v rows))) as Hin
      by (rewrite Hc; now left).
  unfold candidates_of in Hin. apply sorted_desc_In, filter_In in Hin as [Hin Href].
  apply in_map_iff in Hin as ([k g] & <- & Hkg). cbn [snd] in *.
  split; [|auto 10]. eapply build_groups_sound; [|exact Hkg]. auto.
Qed.

(** X19.  A bank account the discoverer suggests is the account of an
    outgoing transaction of the ledger whose vendor is not a credit-card
    vendor and which passes the bank filters given; its two match counters
    lie between zero and its transaction count, and one of them is
    positive. *)
Theorem suggested_account_comes_from_a_bank_row :
  forall db credit_card_vendor credit_card_account bank_vendor_filter bank_account_filter
         limit s,
    find_best_bank_account_app db credit_card_vendor credit_card_account
      bank_vendor_filter bank_account_filter limit = Found s ->
    (exists t, In t (transactions db) /\ t_price t < 0
               /\ t_vendor t = s_bankVendor s
               /\ t_account_number t = s_bankAccountNumber s)
    /\ ~ In (s_bankVendor s) (List.map fst Text.VENDOR_KEYWORDS)
    /\ (Py.truthy bank_vendor_filter = true -> bank_vendor_filter = Some (s_bankVendor s))
    /\ (Py.truthy bank_account_filter = true -> s_bankAccountNumber s = bank_account_filter)
    /\ 0 <= s_matchingLast4Count s <= transactionCount s
    /\ 0 <= s_matchingVendorCount s <= transactionCount s
    /\ (0 < s_matchingLast4Count s \/ 0 < s_matchingVendorCount s).
Proof.
  intros db v acct bvf baf limit s Hfound.
  destruct (best_candidate_group _ _ _ _ _ _ _ Hfound)
    as (best & Hsound & Href & -> & -> & -> & -> & -> & _).
  destruct Hsound as ((t & Ht & <- & <-) & Hl4 & Hvc & _).
  apply candidate_rows_In in Ht as (Hdb & Hneg & Hcc & Hv & Ha).
  split; [exists t; auto|]. split; [exact Hcc|]. split; [exact Hv|]. split; [exact Ha|].
  split; [exact Hl4|]. split; [exact Hvc|].
  unfold referenced in Href. apply orb_prop in Href. lia.
Qed.

Lemma sample_transactions_spec cc_last4 v txns : forall collected,
  (collected < 3)%nat ->
  (List.length (sample_transactions cc_last4 v txns collected) <= 3 - collected)%nat
  /\ (forall x, In x (sample_transactions cc_last4 v txns collected) ->
        (exists l, cc_last4 = Some l /\ Text.contains l (s_name x) = true)
        \/ Text.name_contains_vendor (Some (s_name x)) (Some v) = true)
  /\ ((exists e, In e txns
                 /\ (has_last4 cc_last4 (e_name e) = true
                     \/ Text.name_contains_vendor (Some (e_name e)) (Some v) = true)) ->
      sample_transactions cc_last4 v txns collected <> []).
Proof.
  induction txns as [|t txns IH]; intros collected Hc; cbn [sample_transactions].
  - split; [cbn; lia|]. split; [intros x []|]. intros (e & [] & _).
  - set (has_l4 := match cc_last4 with Some l => Text.contains l (e_name t) | None => false end).
    destruct (has_l4 || Text.name_contains_vendor (Some (e_name t)) (Some v)) eqn:Hev;
      cbn [negb].
    + split; [|split; [|discriminate]].
      * cbn [List.length]. destruct (3 <=? S collected)%nat eqn:Hfull; [cbn; lia|].
        apply Nat.leb_gt in Hfull. destruct (IH (S collected)) as (Hlen & _); lia.
      * intros x [<-|Hx].
        -- cbn. apply orb_prop in Hev as [Hev|Hev]; [left|now right].
           unfold has_l4 in Hev. destruct cc_last4 as [l|]; [eauto|discriminate].
        -- destruct (3 <=? S collected)%nat eqn:Hfull; [destruct Hx|].
           apply Nat.leb_gt in Hfull. destruct (IH (S collected)) as (_ & Hall & _); [lia|].
           now apply Hall.
    + destruct (IH collected Hc) as (Hlen & Hall & Hne).
      split; [exact Hlen|]. split; [exact Hall|].
      intros (e & [<-|He] & Hevidence); [|apply Hne; eauto].
      apply orb_false_elim in Hev as [Hl4 Hvc]. exfalso.
      destruct Hevidence as [H|H]; [|congruence].
      unfold has_last4 in H. unfold has_l4 in Hl4. destruct cc_last4 as [l|]; [|discriminate].
      apply andb_prop in H as [_ H]. congruence.
Qed.

(** X20.  The sample transactions attached to a suggestion are between one
    and three transactions, each of whose descriptions holds the card's
    last four digits or a keyword of the card's vendor. *)
Theorem samples_show_the_evidence :
  forall db credit_card_vendor credit_card_account bank_vendor_filter bank_account_filter
         limit s,
    find_best_bank_account_app db credit_card_vendor credit_card_account
      bank_vendor_filter bank_account_filter limit = Found s ->
    (1 <= List.length (sampleTransactions s) <= 3)%nat
    /\ forall x, In x (sampleTransactions s) ->
         (exists l, Text.get_account_last4 credit_card_account = Some l
                    /\ Text.contains l (s_name x) = true)
         \/ Text.name_contains_vendor (Some (s_name x)) (Some credit_card_vendor) = true.
Proof.
  intros db v acct bvf baf limit s Hfound.
  destruct (best_candidate_group _ _ _ _ _ _ _ Hfound)
    as (best & Hsound & Href & _ & _ & _ & _ & _ & ->).
  destruct Hsound as (_ & _ & _ & Hel4 & Hevc).
  destruct (sample_transactions_spec (Text.get_account_last4 acct) v (g_transactions best) 0)
    as (Hlen & Hall & Hne); [lia|].
  split; [|exact Hall]. split; [|lia].
  assert (sample_transactions (Text.get_account_last4 acct) v (g_transactions best) 0 <> [])
    as Hsome.
  { apply Hne. unfold referenced in Href. apply orb_prop in Href as [Hp|Hp]; apply Z.ltb_lt in Hp.
    - destruct (Hel4 Hp) as (e & He & Hh). eauto.
    - destruct (Hevc Hp) as (e & He & Hh). eauto. }
  destruct (sample_transactions _ _ _ _); [congruence|cbn; lia].
Qed.

(** * The first billing day of a card *)

Lemma min_string_spec l m :
  min_string l = Some m ->
  In m l /\ forall x, In x l -> String.leb m x = true.
Proof.
  destruct l as [|x0 l]; [discriminate|]. cbn [min_string]. intros [= <-].
  assert (forall l m0,
             let m := fold_left (fun m y => if String.ltb y m then y else m) l m0 in
             (m = m0 \/ In m l) /\ String.leb m m0 = true
             /\ forall x, In x l -> String.leb m x = true) as Hfold.
  { clear. induction l as [|y l IH]; intros m0; cbn [fold_left].
    - split; [now left|]. split; [apply string_leb_refl|intros x []].
    - destruct (IH (if String.ltb y m0 then y else m0)) as (Hin & Hle & Hall).
      cbn zeta in *.
      set (m := fold_left _ l _) in *.
      assert (String.leb (if String.ltb y m0 then y else m0) m0 = true
              /\ String.leb (if String.ltb y m0 then y else m0) y = true) as [H0 Hy].
      { destruct (String.ltb y m0) eqn:E.
        - split; [|apply string_leb_refl]. rewrite string_ltb_leb in E.
          apply negb_true_iff in E. destruct (String.leb_total y m0); congruence.
        - split; [apply string_leb_refl|]. rewrite string_ltb_leb in E.
          now apply negb_false_iff in E. }
      split; [|split].
      + destruct Hin as [Hin|Hin]; [|right; now right].
        destruct (String.ltb y m0); [right; left; congruence|now left].
      + eapply string_leb_trans; eauto.
      + intros x [<-|Hx]; [eapply string_leb_trans; eauto|now apply Hall]. }
  destruct (Hfold l x0) as (Hin & Hle & Hall). split.
  - destruct Hin as [->|Hin]; [now left|now right].
  - intros x [<-|Hx]; [exact Hle|now apply Hall].
Qed.

(** X21.  [get_cc_earliest_cycle_date] returns nothing when the card has no
    completed outgoing row to count; a date it returns is the billing day of
    such a row, and no such row is billed on an earlier day. *)
Theorem earliest_cycle_date_is_first_billing_day :
  forall db cc_vendor cc_account_number cc_fees_category_id,
    let counts := counts_for_earliest cc_vendor cc_account_number cc_fees_category_id in
    ((forall t, In t (transactions db) -> counts t = false) ->
     get_cc_earliest_cycle_date db cc_vendor cc_account_number cc_fees_category_id = None)
    /\ forall earliest,
         get_cc_earliest_cycle_date db cc_vendor cc_account_number cc_fees_category_id
         = Some earliest ->
         exists first,
           In first (transactions db) /\ counts first = true
           /\ Calendar.fromisoformat (billing_day first) = Some earliest
           /\ forall t, In t (transactions db) -> counts t = true ->
                        String.leb (billing_day first) (billing_day t) = true.
Proof.
  intros db v acct fees counts. unfold get_cc_earliest_cycle_date.
  change (List.filter _ (transactions db)) with (List.filter counts (transactions db)).
  split.
  - intros Hnone. rewrite (filter_all_false counts) by exact Hnone. reflexivity.
  - intros earliest.
    destruct (min_string (List.map billing_day (List.filter counts (transactions db))))
      as [m|] eqn:Hmin; [|discriminate].
    apply min_string_spec in Hmin as [Hin Hall].
    apply in_map_iff in Hin as (first & <- & Hfirst). apply filter_In in Hfirst as [Hdb Hc].
    destruct (String.eqb _ ""); [discriminate|]. intros Hd.
    exists first. split; [exact Hdb|]. split; [exact Hc|]. split; [exact Hd|].
    intros t Ht Hct. apply Hall. apply in_map. apply filter_In. auto.
Qed.

(** A card with a first billing day has that day as its earliest cycle
    date. *)
Lemma earliest_cycle_date_found db cc_vendor cc_account_number e :
  first_billing_day db cc_vendor cc_account_number e ->
  get_cc_earliest_cycle_date db cc_vendor cc_account_number (get_cc_fees_category_id db)
  = Some e.
Proof.
  intros (first & Hin & Hc & Hd & Hmin). unfold get_cc_earliest_cycle_date.
  set (counts := counts_for_earliest cc_vendor cc_account_number (get_cc_fees_category_id db))
    in *.
  change (List.filter _ (transactions db)) with (List.filter counts (transactions db)).
  assert (In (billing_day first) (List.map billing_day (List.filter counts (transactions db))))
    as Hfirst.
  { apply in_map. apply filter_In. auto. }
  destruct (min_string _) as [m|] eqn:Hm.
  - apply min_string_spec in Hm as [Hmem Hall].
    assert (m = billing_day first) as ->.
    { apply String.leb_antisym; [now apply Hall|].
      apply in_map_iff in Hmem as (t & <- & Ht). apply filter_In in Ht as [Ht Hct].
      now apply Hmin. }
    destruct (String.eqb_spec (billing_day first) "") as [He|_]; [|exact Hd].
    rewrite He in Hd. discriminate Hd.
  - destruct (List.map billing_day (List.filter counts (transactions db)));
      [destruct Hfirst|discriminate Hm].
Qed.

(** The earliest date the allocator keeps under an id whose pairings all
    name one card. *)
Lemma earliest_of_card db pairings id v a p :
  In p pairings -> p_id p = id ->
  (forall q, In q pairings -> p_id q = id ->
             credit_card_vendor q = v /\ credit_card_account_number q = a) ->
  earliest_of db pairings id = get_cc_earliest_cycle_date db v a (get_cc_fees_category_id db).
Proof.
  intros Hp Hid Hcard. unfold earliest_of, earliest_cc_date_by_pairing_id.
  destruct (fold_insert_present
              (fun p => get_cc_earliest_cycle_date db (credit_card_vendor p)
                          (credit_card_account_number p) (get_cc_fees_category_id db))
              pairings ∅ p Hp) as (q & Hq & Hqid & Hl).
  rewrite Hid in Hl, Hqid. rewrite Hl.
  destruct (Hcard q Hq Hqid) as [-> ->]. reflexivity.
Qed.

(** Claim C5.  The classifier's result (with both vendors named and a
    window that does not start before year 1) is its pre-grace cycles,
    sorted, with [grace_relabel] applied to each; that pass turns every
    actionable cycle
    into [incomplete_history] when its date is no more than
    [EARLY_GRACE_DAYS] after the card's first billing day in the ledger, or
    between 0 and [RECENT_GRACE_DAYS] days before today, and leaves a cycle
    that is not actionable as it is.  The allocator's cycles obey the same
    rule: dated inside either window, none keeps an actionable status, and
    one without a card total or with totals more than [EPSILON] apart is
    [incomplete_history]; wherever it is dated, a cycle with totals less
    than [EPSILON] apart stays [matched]. *)
Theorem grace_period_relabels_actionable_cycles :
  (forall db today pairing_id bank_vendor bank_account cc_vendor cc_account months_back limit,
      let earliest :=
        get_cc_earliest_cycle_date db cc_vendor cc_account (get_cc_fees_category_id db) in
      (bank_vendor <> "" -> cc_vendor <> "" ->
       Calendar.subtract_raises today months_back = false ->
       result_cycles (calculate_discrepancy_app db today pairing_id bank_vendor bank_account
                        cc_vendor cc_account months_back limit)
       = List.map (grace_relabel today earliest)
           (Py.sorted_desc (fun a b => String.ltb (cycleDate a) (cycleDate b))
              (raw_cycles db bank_vendor bank_account cc_vendor cc_account
                 (Calendar.isoformat (Calendar.subtract_calendar_months today months_back))
                 (Calendar.isoformat today) limit)))
      /\ (forall c,
            (actionable (status c) = true ->
             forall day, Calendar.fromisoformat (cycleDate c) = Some day ->
               (exists e, first_billing_day db cc_vendor cc_account e
                          /\ Calendar.days_between day e <= EARLY_GRACE_DAYS)
               \/ 0 <= Calendar.days_between today day <= RECENT_GRACE_DAYS ->
               status (grace_relabel today earliest c) = incomplete_history)
            /\ (actionable (status c) = false -> grace_relabel today earliest c = c)))
  /\ (forall db today pairings months_back limit discrepancies id d c,
        Allocator.calculate_discrepancies_app_for_bank_group db today pairings months_back limit
        = Allocator.Returned discrepancies ->
        discrepancies !! id = Some d ->
        In c (cycles d) ->
        (forall day, Calendar.fromisoformat (cycleDate c) = Some day ->
           (exists v a e,
               (forall p, In p pairings -> p_id p = id ->
                          credit_card_vendor p = v /\ credit_card_account_number p = a)
               /\ first_billing_day db v a e
               /\ Calendar.days_between day e <= EARLY_GRACE_DAYS)
           \/ 0 <= Calendar.days_between today day <= RECENT_GRACE_DAYS ->
           actionable (status c) = false
           /\ (ccTotal c = None
               \/ (exists total, ccTotal c = Some total
                                 /\ EPSILON < Z.abs (bankTotal c - total)) ->
               status c = incomplete_history))
        /\ (forall total, ccTotal c = Some total ->
                          Z.abs (bankTotal c - total) < EPSILON -> status c = matched)).
Proof.
  split.
  - intros db today pid bv ba cv ca months limit earliest. split.
    + intros Hbv Hcv Hdate. unfold calculate_discrepancy_app.
      apply String.eqb_neq in Hbv, Hcv. rewrite Hbv, Hcv, Hdate. simpl.
      fold earliest.
      destruct (List.filter _ _) eqn:Hf; [|reflexivity].
      unfold raw_cycles. rewrite Hf. reflexivity.
    + intros c. split.
      * intros Ha day Hday Hw. unfold grace_relabel. rewrite Ha, Hday. simpl.
        destruct Hw as [(e & Hfirst & He)|[H0 H1]].
        -- unfold earliest. rewrite (earliest_cycle_date_found _ _ _ _ Hfirst).
           apply Z.leb_le in He. now rewrite He.
        -- destruct (match earliest with Some e => _ | None => false end); [reflexivity|].
           apply Z.leb_le in H0, H1. now rewrite H0, H1.
      * intros Ha. unfold grace_relabel. now rewrite Ha.
  - intros db today pairings months limit ds id d c Hr Hd Hin.
    destruct (returned_cycle_shape _ _ _ _ _ _ _ _ _ Hr Hd Hin) as [_ Hs].
    destruct (returned_lookup _ _ _ _ _ _ _ _ Hr Hd) as (p & Hp & Hid & _).
    split.
    + intros day Hday Hw.
      assert (forall raw, actionable raw = true ->
                grace_status today (earliest_of db pairings id) (cycleDate c) raw
                = incomplete_history) as Hgrace.
      { intros raw Ha. apply (grace_status_relabels _ _ _ _ day Ha Hday).
        destruct Hw as [(v & a & e & Hcard & Hfirst & He)|Hrecent]; [left|now right].
        exists e. split; [|exact He].
        rewrite (earliest_of_card _ _ _ v a p Hp Hid Hcard).
        now apply earliest_cycle_date_found. }
      split.
      * rewrite Hs.
        destruct (actionable (raw_status (bankTotal c) (ccTotal c))) eqn:Ha.
        -- now rewrite Hgrace.
        -- rewrite grace_status_keeps by exact Ha. exact Ha.
      * intros Hgap. rewrite Hs. apply Hgrace.
        destruct Hgap as [Hnone|(total & Hsome & Hfar)].
        -- rewrite Hnone. reflexivity.
        -- rewrite Hsome. cbn [raw_status].
           pose proof (classify_diff_cases (bankTotal c - total)) as Hc.
           destruct (classify_diff (bankTotal c - total)); (reflexivity || lia || tauto).
    + intros total Hcc Hnear.
      destruct (allocated_shape_agrees _ _ _ _ _
                  (returned_cycle_shape _ _ _ _ _ _ _ _ _ Hr Hd Hin) _ Hcc) as (Hm & _).
      apply Hm. now apply le_of_lt.
Qed.

(** * What the grouped allocator returns *)

(** X22.  The dictionary the grouped allocator returns has an entry for
    exactly the ids of the group's pairings; the cycles of every entry are
    listed newest first, each with a positive bank total, and
    [totalCycles] counts them. *)
Theorem allocator_reports_every_pairing :
  forall db today pairings months_back limit ds,
    calculate_discrepancies_app_for_bank_group db today pairings months_back limit
    = Returned ds ->
    (forall k, is_Some (ds !! k) <-> exists p, In p pairings /\ p_id p = k)
    /\ forall k d, ds !! k = Some d ->
         StronglySorted
           (fun earlier later => String.ltb (cycleDate earlier) (cycleDate later) = false)
           (cycles d)
         /\ totalCycles d = Z.of_nat (List.length (cycles d))
         /\ forall c, In c (cycles d) -> 0 < bankTotal c.
Proof.
  intros db today pairings months limit ds Hret. split.
  - intros k. split.
    + intros [d Hd]. destruct (returned_lookup _ _ _ _ _ _ _ _ Hret Hd) as (p & Hp & Hid & _).
      eauto.
    + intros (p & Hp & <-).
      assert (forall q, In q pairings ->
                        bank_vendor q = match pairings with x :: _ => bank_vendor x | [] => "" end
                        /\ bank_account_number q
                           = match pairings with
                             | x :: _ => bank_account_number x
                             | [] => None
                             end) as Hsame.
      { unfold calculate_discrepancies_app_for_bank_group in Hret.
        destruct pairings as [|first rest]; [intros q []|].
        destruct (forallb (same_bank first) rest) eqn:Hall; [|discriminate Hret].
        rewrite forallb_forall in Hall.
        intros q [<-|Hq]; [auto|]. now apply same_bank_spec, Hall. }
      assert (Calendar.subtract_raises today months = false) as Hdate.
      { unfold calculate_discrepancies_app_for_bank_group in Hret.
        destruct pairings as [|first rest]; [destruct Hp|].
        destruct (forallb (same_bank first) rest); [|discriminate Hret].
        destruct (Calendar.subtract_raises today months); [discriminate Hret|reflexivity]. }
      destruct (uniform_group_returns db today months limit pairings _ _ Hdate Hsame)
        as (ds' & Heq & Hds).
      rewrite Hret in Heq. injection Heq as <-.
      destruct (Hds p Hp) as (q & _ & _ & Hl). eauto.
  - intros k d Hd. split; [|split].
    + destruct (returned_lookup _ _ _ _ _ _ _ _ Hret Hd) as (p & _ & _ & ->).
      unfold discrepancy_for, aggregate. cbn [cycles].
      apply (sorted_desc_sorted (fun a b => String.ltb (cycleDate a) (cycleDate b))).
      * intros x y. apply string_ltb_asym.
      * intros x y z. apply string_ge_trans.
    + destruct (returned_lookup _ _ _ _ _ _ _ _ Hret Hd) as (p & _ & _ & ->). reflexivity.
    + intros c Hc. apply (returned_cycle_shape _ _ _ _ _ _ _ _ _ Hret Hd Hc).
Qed.

(** * Windows that start before year 1 *)

(** X23.  Both discrepancy functions compute the start of their window with
    [subtract_calendar_months] before they read the ledger.  When
    [months_back] reaches back before year 1 from a valid day the
    classifier, called with both vendors named, and the allocator, called
    on a group that shares one bank account, end in the exception of
    [dt.date]; the classifier called without a vendor and the allocator
    called on no pairing return their empty results before that. *)
Theorem window_before_year_one_raises :
  forall db today months_back limit,
    Calendar.valid_date (Calendar.year today) (Calendar.month today) (Calendar.day today)
    = true ->
    12 * (Calendar.year today - 1) + Calendar.month today <= months_back ->
    (forall pairing_id bank_vendor bank_account cc_vendor cc_account,
        (bank_vendor <> "" -> cc_vendor <> "" ->
         calculate_discrepancy_app db today pairing_id bank_vendor bank_account cc_vendor
           cc_account months_back limit = Classifier.DateError)
        /\ (bank_vendor = "" \/ cc_vendor = "" ->
            calculate_discrepancy_app db today pairing_id bank_vendor bank_account cc_vendor
              cc_account months_back limit = NoVendor))
    /\ (forall first rest,
          (forall p, In p rest ->
             bank_vendor p = bank_vendor first
             /\ bank_account_number p = bank_account_number first) ->
          calculate_discrepancies_app_for_bank_group db today (first :: rest) months_back limit
          = Allocator.DateError)
    /\ calculate_discrepancies_app_for_bank_group db today [] months_back limit
       = Allocator.Returned ∅.
Proof.
  intros db today months limit Hvalid Hreach.
  pose proof (subtract_out_of_range _ _ Hvalid Hreach) as Hraise.
  split; [|split; [|reflexivity]].
  - intros pid bv ba cv ca. unfold calculate_discrepancy_app. split.
    + intros Hbv Hcv. apply String.eqb_neq in Hbv, Hcv. rewrite Hbv, Hcv, Hraise. reflexivity.
    + intros [-> | ->]; [reflexivity|]. rewrite String.eqb_refl, orb_true_r. reflexivity.
  - intros first rest Hall. unfold calculate_discrepancies_app_for_bank_group.
    assert (forallb (same_bank first) rest = true) as ->.
    { apply forallb_forall. intros p Hp. now apply same_bank_spec, Hall. }
    rewrite Hraise. reflexivity.
Qed.

End Rounded.

(** * The properties at work on the sample ledgers

    Two sample ledgers hold amounts that meet a threshold exactly; they
    come with the rounding of their own doubles, computed in module
    [Doubles].  On the others no test compares equal amounts, every
    rounding gives the same results, and they are run with
    [Amount.exact]. *)

Section Instances.
#[local] Existing Instance Amount.exact.
Import Store Classifier Allocator Examples Discoverer Matcher Facts Driver.

Lemma matched_within_epsilon_off_the_boundary_witness :
  ((status october_cycle = matched -> Z.abs (bankTotal october_cycle - 350000) <= EPSILON)
   /\ (Z.abs (bankTotal october_cycle - 350000) < EPSILON -> status october_cycle = matched)
   /\ (status october_cycle = fee_candidate ->
       0 < bankTotal october_cycle - 350000
       /\ EPSILON <= bankTotal october_cycle - 350000 <= MAX_FEE_AMOUNT))
  /\ ((status october_cycle = matched -> Z.abs (bankTotal october_cycle - 350000) <= EPSILON)
      /\ (Z.abs (bankTotal october_cycle - 350000) < EPSILON -> status october_cycle = matched)
      /\ (status october_cycle = fee_candidate ->
          0 < bankTotal october_cycle - 350000
          /\ EPSILON <= bankTotal october_cycle - 350000 <= MAX_FEE_AMOUNT)).
Proof.
  split.
  - apply (proj1 matched_within_epsilon_off_the_boundary ledger_cycles today_december None
             "discount" (Some "0162490242") "visaCal" (Some "1456") 6 500 october_cycle 350000).
    + vm_compute. right. left. reflexivity.
    + reflexivity.
  - apply (proj2 matched_within_epsilon_off_the_boundary ledger_cycles today_december
             [pairing_cal; pairing_max] 6 2000
             (Allocator.returned_discrepancies group_outcome) 7
             (Allocator.discrepancy_for ledger_cycles today_december
                [pairing_cal; pairing_max] 6 2000 pairing_cal)
             october_cycle 350000).
    + vm_compute. reflexivity.
    + vm_compute. reflexivity.
    + vm_compute. right. left. reflexivity.
    + reflexivity.
Defined.

(** C1 as the specification states it fails on the boundary.  Repayments of
    2,835.11 and 1,896.33 against 4,730.44 billed: the totals reported are
    exactly 1.00 apart, the doubles compared are more than [1.0] apart, and
    the cycle, dated outside both grace windows, is a [fee_candidate]. *)
Lemma totals_epsilon_apart_reported_as_fee_candidate :
  Doubles.compare
    (Doubles.distance (Doubles.sum [189633; 283511]) (Doubles.of_cents 473044))
    (Doubles.of_cents 100) = Gt
  /\ exists c,
       In c (result_cycles
               (calculate_discrepancy_app (rnd := Samples.on_the_line_rounding)
                  Samples.ledger_on_the_line today_december None "discount"
                  (Some "0162490242") "visaCal" (Some "1456") 6 500))
       /\ bankTotal c = 473144
       /\ ccTotal c = Some 473044
       /\ status c = fee_candidate
       /\ ~ (status c = matched <-> Z.abs (bankTotal c - 473044) <= EPSILON).
Proof.
  split; [vm_compute; reflexivity|].
  exists (nth 0 Samples.on_the_line_cycles october_cycle).
  split; [vm_compute; left; reflexivity|].
  split; [reflexivity|]. split; [reflexivity|]. split; [reflexivity|].
  intros [_ H]. assert (Z.abs (473144 - 473044) <= EPSILON) as Hle by (vm_compute; discriminate).
  specialize (H Hle). discriminate H.
Qed.

Lemma grace_period_relabels_actionable_cycles_witness :
  let june := set_status (nth 0 Samples.june_cycles october_cycle) fee_candidate in
  (first_billing_day Samples.ledger_new_card "visaCal" (Some "1456") (Calendar.mkdate 2025 6 9)
   /\ In (set_status june incomplete_history)
         (result_cycles (calculate_discrepancy_app Samples.ledger_new_card today_december None
                           "discount" (Some "0162490242") "visaCal" (Some "1456") 7 500))
   /\ status (grace_relabel today_december
                (get_cc_earliest_cycle_date Samples.ledger_new_card "visaCal" (Some "1456")
                   (get_cc_fees_category_id Samples.ledger_new_card))
                june) = incomplete_history)
  /\ status (grace_relabel today_october
               (get_cc_earliest_cycle_date ledger_cycles "visaCal" (Some "1456")
                  (get_cc_fees_category_id ledger_cycles))
               october_cycle) = incomplete_history
  /\ actionable (status (set_status october_cycle incomplete_history)) = false.
Proof.
  intros june.
  assert (first_billing_day Samples.ledger_new_card "visaCal" (Some "1456")
            (Calendar.mkdate 2025 6 9)) as Hfirst.
  { exists Samples.first_billed_row.
    split; [right; right; left; reflexivity|].
    split; [vm_compute; reflexivity|]. split; [vm_compute; reflexivity|].
    intros t Hin Hcounts. cbn in Hin.
    destruct Hin as [<-|[<-|[<-|[]]]]; vm_compute in Hcounts |- *;
      (reflexivity || discriminate Hcounts). }
  split; [|split].
  - destruct (proj1 grace_period_relabels_actionable_cycles Samples.ledger_new_card
                today_december None "discount" (Some "0162490242") "visaCal" (Some "1456")
                7 500) as [Heq Hc].
    split; [exact Hfirst|]. split.
    + rewrite Heq; [vm_compute; left; reflexivity|discriminate|discriminate|reflexivity].
    + apply (proj1 (Hc june) eq_refl (Calendar.mkdate 2025 6 15) eq_refl).
      left. exists (Calendar.mkdate 2025 6 9). split; [exact Hfirst|].
      vm_compute. discriminate.
  - destruct (proj1 grace_period_relabels_actionable_cycles ledger_cycles today_october None
                "discount" (Some "0162490242") "visaCal" (Some "1456") 6 500) as [_ Hc].
    apply (proj1 (Hc october_cycle) eq_refl (Calendar.mkdate 2025 10 9) eq_refl).
    right. vm_compute. split; discriminate.
  - assert (calculate_discrepancies_app_for_bank_group ledger_cycles today_october
              [pairing_cal; pairing_max] 6 2000
            = Returned (Allocator.returned_discrepancies october_outcome)) as Hret
        by (vm_compute; reflexivity).
    assert (Allocator.returned_discrepancies october_outcome !! 7
            = Some (Allocator.discrepancy_for ledger_cycles today_october
                      [pairing_cal; pairing_max] 6 2000 pairing_cal)) as Hd
        by (vm_compute; reflexivity).
    assert (In (set_status october_cycle incomplete_history)
               (cycles (Allocator.discrepancy_for ledger_cycles today_october
                          [pairing_cal; pairing_max] 6 2000 pairing_cal))) as Hin
        by (vm_compute; left; reflexivity).
    destruct (proj2 grace_period_relabels_actionable_cycles ledger_cycles today_october
                [pairing_cal; pairing_max] 6 2000 _ 7 _ _ Hret Hd Hin) as [Hwindow _].
    apply (Hwindow (Calendar.mkdate 2025 10 9) eq_refl).
    right. vm_compute. split; discriminate.
Defined.

Lemma missing_cc_cycle_means_no_card_total_witness :
  (status october_cycle = missing_cc_cycle -> ccTotal october_cycle = None)
  /\ ccTotal september_cycle = None
  /\ (status september_cycle = missing_cc_cycle
      \/ status september_cycle = incomplete_history).
Proof.
  split.
  - apply (missing_cc_cycle_means_no_card_total ledger_cycles today_december None "discount"
             (Some "0162490242") "visaCal" (Some "1456") 6 500 october_cycle).
    vm_compute. right. left. reflexivity.
  - destruct (missing_cc_cycle_means_no_card_total ledger_no_account today_december None
                "discount" (Some "0162490242") "max" None 6 500 september_cycle)
      as (_ & _ & _ & Hnone).
    + vm_compute. left. reflexivity.
    + apply Hnone; [reflexivity|].
      intros row Hrow. vm_compute in Hrow. destruct Hrow as [<-|[]].
      right. vm_compute. reflexivity.
Defined.

(** C3 as the specification states it fails: a cycle is labelled
    [missing_cc_cycle], with no card total, on a date for which the card
    has a billing row. *)
Lemma missing_cc_cycle_despite_billing_row :
  In september_cycle
     (result_cycles (calculate_discrepancy_app ledger_no_account today_december None
                       "discount" (Some "0162490242") "max" None 6 500))
  /\ status september_cycle = missing_cc_cycle
  /\ ccTotal september_cycle = None
  /\ cc_rows ledger_no_account
       (match get_cc_fees_category_id ledger_no_account with Some f => f | None => -1 end)
       "max" (cycleDate september_cycle) None
     = [ {| cr_account_number := Some "9921"; cr_total := 50000; cr_txn_count := 1 |} ].
Proof.
  split; [vm_compute; left; reflexivity|].
  split; [reflexivity|]. split; [reflexivity|]. vm_compute. reflexivity.
Qed.

Lemma aggregate_over_comparable_cycles_witness :
  totalBankRepayments december_discrepancy = 1102000
  /\ totalCCExpenses december_discrepancy = 1050000
  /\ d_difference december_discrepancy
     = totalBankRepayments december_discrepancy - totalCCExpenses december_discrepancy
  /\ 2 * Z.abs (differencePercentage december_discrepancy * totalCCExpenses december_discrepancy
                - 10000 * d_difference december_discrepancy)
     <= totalCCExpenses december_discrepancy.
Proof.
  destruct (aggregate_over_comparable_cycles ledger_cycles today_december None "discount"
              (Some "0162490242") "visaCal" (Some "1456") 6 500 december_discrepancy
              ltac:(vm_compute; reflexivity))
    as (_ & Hbank & Hcc & Hdiff & _ & _ & Hpct & _).
  split; [rewrite Hbank; reflexivity|].
  split; [rewrite Hcc; reflexivity|].
  split; [exact Hdiff|].
  apply Hpct. reflexivity.
Defined.

(** C4 as the specification states it fails: a cycle that is not flagged
    [incomplete_history] but has no card total stays out of the totals. *)
Lemma totals_skip_cycles_without_card_total :
  calculate_discrepancy_app ledger_no_account today_december None "discount"
    (Some "0162490242") "max" None 6 500 = Discrepancy no_account_discrepancy
  /\ totalBankRepayments no_account_discrepancy = 0
  /\ Py.sum (List.map bankTotal
               (List.filter (fun c => negb (status_eqb (status c) incomplete_history))
                            (cycles no_account_discrepancy))) = 100000.
Proof. split; [vm_compute; reflexivity|]. split; reflexivity. Qed.

Lemma allocation_partitions_repayments_witness :
  Py.sum
    (List.map
       (fun p =>
          match cycle_for_pairing today_december None (Some 350000) "2025-10-09"
                  (allocate_date [pairing_cal; pairing_max]
                     (fun k => if k =? 7 then Some 350000 else None) [october_repayment])
                  p with
          | Some c => bankTotal c
          | None => 0
          end)
       [pairing_cal; pairing_max])
  = amounts [october_repayment]
    - amounts (unassigned (allocate_date [pairing_cal; pairing_max]
                             (fun k => if k =? 7 then Some 350000 else None)
                             [october_repayment])).
Proof.
  apply (proj2 (proj2 (proj2
           (allocation_partitions_repayments [pairing_cal; pairing_max]
              (fun k => if k =? 7 then Some 350000 else None) [october_repayment])))).
  repeat constructor; simpl; intuition discriminate.
Defined.

Lemma mixed_bank_identities_raise_witness :
  calculate_discrepancies_app_for_bank_group ledger_cycles today_december
    [pairing_cal; pairing_max; pairing_elsewhere] 6 2000
  = Allocator.ValueError "All pairings in a bank group must share bank_vendor + bank_account_number"
  /\ (exists discrepancies,
        calculate_discrepancies_app_for_bank_group ledger_cycles today_december
          [pairing_cal; pairing_max] 6 2000 = Allocator.Returned discrepancies)
  /\ calculate_discrepancies_app_for_bank_group ledger_cycles today_december
       [pairing_cal; pairing_max] 30000 2000 = Allocator.DateError.
Proof.
  split; [|split].
  - apply (proj1 (mixed_bank_identities_raise ledger_cycles today_december pairing_cal
                    [pairing_max; pairing_elsewhere] 6 2000)).
    exists pairing_elsewhere. split; [right; left; reflexivity|left; discriminate].
  - apply (proj2 (mixed_bank_identities_raise ledger_cycles today_december pairing_cal
                    [pairing_max] 6 2000)).
    + intros p [<-|[]]. split; reflexivity.
    + reflexivity.
    + vm_compute. reflexivity.
  - apply (proj2 (mixed_bank_identities_raise ledger_cycles today_december pairing_cal
                    [pairing_max] 30000 2000)).
    + intros p [<-|[]]. split; reflexivity.
    + reflexivity.
    + vm_compute. discriminate.
Defined.

Lemma discoverer_ranks_referenced_groups_witness :
  exists s,
    find_best_bank_account_app ledger_cycles "visaCal" (Some "1456") None None 500 = Found s
    /\ (List.length (otherCandidates s) <= 2)%nat
    /\ List.NoDup (matchPatterns s)
    /\ In "1456" (matchPatterns s).
Proof.
  destruct (discoverer_ranks_referenced_groups ledger_cycles "visaCal" (Some "1456") None None
              500 ltac:(discriminate)) as (_ & _ & _ & _ & _ & _ & _ & H).
  edestruct H as (s & Hs & _ & _ & _ & _ & _ & _ & Hlen & Hnd & _ & Hin).
  - vm_compute. discriminate.
  - vm_compute. reflexivity.
  - exists s. split; [exact Hs|]. split; [exact Hlen|]. split; [exact Hnd|].
    apply Hin. split; [discriminate|]. right. left. reflexivity.
Defined.

Lemma greedy_accumulation_stays_within_tolerance_witness :
  running_sum
    (accumulate (make_match monthly_repayment (Calendar.mkdate 2025 11 9) "1456" auto_chronological)
       100000 (firstn 3 october_expenses) {| running_sum := 0; matches := [] |})
  <= 100000 + TOLERANCE
  /\ matched_sum_of monthly_matches <= Z.abs (t_price monthly_repayment) + TOLERANCE.
Proof.
  destruct greedy_accumulation_stays_within_tolerance as (Hstep & _ & Hall).
  split.
  - apply Hstep. vm_compute. discriminate.
  - apply (Hall ledger_monthly monthly_repayment ∅ 90 monthly_matches monthly_stats).
    vm_compute. reflexivity.
Defined.

Lemma sauvage_repayment_takes_one_near_expense_witness :
  is_sauvage_repayment ledger_sauvage sauvage_repayment "1456" "visaCal" = Some true
  /\ exists chosen,
       match_repayment_to_expenses ledger_sauvage sauvage_repayment ∅ 365
       = Some ([make_match sauvage_repayment (Calendar.mkdate 2025 11 20) "1456"
                  sauvage_payment chosen],
               sauvage_stats (Z.abs (t_price chosen))).
Proof.
  destruct sauvage_repayment_takes_one_near_expense as (Hday & _ & Hone & _ & _).
  assert (is_sauvage_repayment ledger_sauvage sauvage_repayment "1456" "visaCal" = Some true)
    as Hs.
  { apply (Hday ledger_sauvage sauvage_repayment "1456" "visaCal" (Calendar.mkdate 2025 11 20)).
    - vm_compute. reflexivity.
    - simpl. lia. }
  split; [exact Hs|].
  destruct (Hone ledger_sauvage sauvage_repayment ∅ 365 (Calendar.mkdate 2025 11 20) "1456"
              "visaCal" sauvage_expense) as (chosen & Hm & _).
  - vm_compute. reflexivity.
  - vm_compute. reflexivity.
  - discriminate.
  - exact Hs.
  - right. left. reflexivity.
  - reflexivity.
  - reflexivity.
  - vm_compute. reflexivity.
  - vm_compute. reflexivity.
  - vm_compute. reflexivity.
  - vm_compute. reflexivity.
  - vm_compute. reflexivity.
  - apply not_elem_of_empty.
  - exists chosen. exact Hm.
Defined.

(** C8 as the specification states it fails on the boundary: the repayment
    is sauvage, an unmatched expense of the card dated two days earlier is
    1,201.00 against 1,200.00 repaid, the two doubles are exactly [1.0]
    apart, and no [sauvage_payment] match comes out. *)
Lemma one_unit_apart_is_not_a_sauvage_match :
  Doubles.compare (Doubles.distance (Doubles.of_cents 120100) (Doubles.of_cents 120000))
    (Doubles.of_cents 100) = Eq
  /\ is_sauvage_repayment (rnd := Samples.one_apart_rounding) ledger_one_apart
       sauvage_repayment "1456" "visaCal" = Some true
  /\ In one_apart_expense (transactions ledger_one_apart)
  /\ t_vendor one_apart_expense = "visaCal"
  /\ t_account_number one_apart_expense = Some "1456"
  /\ to_datetime (t_date one_apart_expense) = Some (Calendar.mkdate 2025 11 18)
  /\ to_datetime (t_date sauvage_repayment) = Some (Calendar.mkdate 2025 11 20)
  /\ Z.abs (Z.abs (t_price one_apart_expense) - Z.abs (t_price sauvage_repayment)) <= 100
  /\ not_persisted ledger_one_apart "visaCal" one_apart_expense = true
  /\ match_repayment_to_expenses (rnd := Samples.one_apart_rounding) ledger_one_apart
       sauvage_repayment ∅ 365
     = Some ([], no_expenses (Calendar.mkdate 2025 10 1) (Calendar.mkdate 2025 10 31)).
Proof.
  repeat split; try (vm_compute; reflexivity); try (vm_compute; discriminate).
  right. left. reflexivity.
Qed.

Lemma billing_period_is_previous_month_witness :
  fst (get_billing_period (Calendar.mkdate 2025 11 9)) = Calendar.mkdate 2025 10 1
  /\ snd (get_billing_period (Calendar.mkdate 2025 11 9)) = Calendar.mkdate 2025 10 31.
Proof.
  destruct (billing_period_is_previous_month (Calendar.mkdate 2025 11 9)
              ltac:(simpl; lia) ltac:(simpl; lia)) as (Hs & He & _).
  split; [exact Hs|]. rewrite He, Hs. reflexivity.
Defined.

Lemma returned_matches_shape_witness :
  (exists chronological carried,
     monthly_matches = (chronological ++ carried)%list
     /\ (forall m, In m chronological -> match_method_of m = auto_chronological)
     /\ (forall m, In m carried -> match_method_of m = carryover))
  /\ forall m, In m monthly_matches -> repayment_txn_id m = "p1".
Proof.
  assert (match_repayment_to_expenses ledger_monthly monthly_repayment ∅ 90
          = Some (monthly_matches, monthly_stats)) as Hcall by (vm_compute; reflexivity).
  destruct (returned_matches_shape ledger_monthly monthly_repayment ∅ 90
              monthly_matches monthly_stats Hcall)
    as (Hrows & [(m & Hm & _)|(c1 & c2 & Heq & H1 & H2 & _)]).
  - discriminate Hm.
  - split; [exists c1, c2; auto|]. intros m Hin. apply (Hrows m Hin).
Defined.

Lemma one_call_takes_each_expense_once_witness :
  List.NoDup (List.map row_key (transactions ledger_monthly))
  /\ List.NoDup (List.map match_key monthly_matches).
Proof.
  assert (List.NoDup (List.map row_key (transactions ledger_monthly))) as Hnd.
  { cbn. repeat (constructor; [cbn; intuition discriminate|]). constructor. }
  split; [exact Hnd|].
  apply (one_call_takes_each_expense_once ledger_monthly monthly_repayment ∅ 90
           monthly_matches monthly_stats Hnd).
  vm_compute. reflexivity.
Defined.

Lemma run_reuses_no_expense_outside_sauvage_witness :
  exists m' m,
    run ledger_monthly = Some monthly_matches
    /\ monthly_matches !! 0%nat = Some m' /\ monthly_matches !! 1%nat = Some m
    /\ match_method_of m = auto_chronological
    /\ match_key m' <> match_key m.
Proof.
  assert (List.NoDup (List.map row_key (transactions ledger_monthly))) as Hnd.
  { cbn. repeat (constructor; [cbn; intuition discriminate|]). constructor. }
  assert (run ledger_monthly = Some monthly_matches) as Hrun by (vm_compute; reflexivity).
  destruct monthly_matches as [|m' [|m rest]] eqn:Hms; try discriminate Hms.
  exists m', m. split; [exact Hrun|]. split; [reflexivity|]. split; [reflexivity|].
  assert (match_method_of m = auto_chronological) as Hm.
  { injection Hms as _ <- _. reflexivity. }
  split; [exact Hm|].
  apply (run_reuses_no_expense_outside_sauvage ledger_monthly (m' :: m :: rest) 0 1 m' m
           Hnd Hrun); [lia|reflexivity|reflexivity|].
  rewrite Hm. discriminate.
Defined.

Lemma imperfect_match_leaves_only_what_does_not_fit_witness :
  (exists m, In m Samples.short_matches /\ match_key m = row_key Samples.large_purchase)
  \/ Z.abs (t_price Samples.short_repayment) + TOLERANCE
     <= 70000 + Z.abs (t_price Samples.large_purchase).
Proof.
  assert (match_repayment_to_expenses Samples.ledger_short Samples.short_repayment ∅ 90
          = Some (Samples.short_matches,
                  period_stats 2 70000 30000 false
                    (Calendar.mkdate 2025 10 1) (Calendar.mkdate 2025 10 31) false)) as Hcall
    by (vm_compute; reflexivity).
  apply (imperfect_match_leaves_only_what_does_not_fit
           Samples.ledger_short Samples.short_repayment ∅ 90
           (Calendar.mkdate 2025 11 9) "1456" "visaCal" Samples.short_matches
           2 70000 30000 false (Calendar.mkdate 2025 10 1) (Calendar.mkdate 2025 10 31) false
           Samples.large_purchase).
  - vm_compute. reflexivity.
  - vm_compute. reflexivity.
  - exact Hcall.
  - vm_compute. reflexivity.
  - cbn. right. right. now left.
  - reflexivity.
  - reflexivity.
  - vm_compute. reflexivity.
  - vm_compute. reflexivity.
  - apply not_elem_of_empty.
  - left. vm_compute. reflexivity.
Defined.

Lemma repayment_without_signal_needs_exact_fit_witness :
  exists c,
    In c [pairing_cal; pairing_max]
    /\ allocate_one [pairing_cal; pairing_max] Samples.totals_of_the_day
         (initial_state [pairing_cal; pairing_max]) Samples.plain_transfer
       = assign (initial_state [pairing_cal; pairing_max]) c Samples.plain_transfer.
Proof.
  destruct (repayment_without_signal_needs_exact_fit
              [pairing_cal; pairing_max] Samples.totals_of_the_day
              (initial_state [pairing_cal; pairing_max]) Samples.plain_transfer)
    as [[_ Hfar]|(c & t & Hc & _ & _ & _ & Heq)].
  - intros p [<-|[<-|[]]]; vm_compute; reflexivity.
  - exfalso. specialize (Hfar pairing_cal 350000 (or_introl eq_refl) eq_refl).
    vm_compute in Hfar. now apply Hfar.
  - exists c. split; [exact Hc|exact Heq].
Defined.

Lemma cycle_total_sums_its_repayments_witness :
  bankTotal october_cycle = amounts (repayments october_cycle)
  /\ 0 < bankTotal october_cycle.
Proof.
  destruct (cycle_total_sums_its_repayments ledger_cycles today_december None "discount"
              (Some "0162490242") "visaCal" (Some "1456") 6 500 october_cycle)
    as (Hsum & Hpos & _).
  - vm_compute. right. left. reflexivity.
  - split; [exact Hsum|exact Hpos].
Defined.

Lemma large_discrepancy_needs_the_card_account_witness :
  matchedAccount Samples.september_large = Some "1456"
  /\ exists total, ccTotal Samples.september_large = Some total
                   /\ MAX_FEE_AMOUNT <= bankTotal Samples.september_large - total.
Proof.
  destruct (large_discrepancy_needs_the_card_account ledger_cycles today_december None
              "discount" (Some "0162490242") "visaCal" (Some "1456") 6 500
              Samples.september_large)
    as (_ & Hacc & row & _ & Hcc & _ & Hlarge & _).
  - vm_compute. right. right. left. reflexivity.
  - left. reflexivity.
  - split; [exact Hacc|]. exists (row_total row). split; [exact Hcc|]. now apply Hlarge.
Defined.

Lemma all_pairings_mode_reports_allocated_witness :
  exists reports,
    run_all_pairings ledger_cycles today_december 6
      [pairing_cal; pairing_max; pairing_elsewhere] = Some reports
    /\ List.map fst reports = [pairing_cal; pairing_max; pairing_elsewhere].
Proof.
  destruct (all_pairings_mode_reports_allocated ledger_cycles today_december 6
              [pairing_cal; pairing_max; pairing_elsewhere] eq_refl
              ltac:(vm_compute; reflexivity)) as (reports & Hrun & Hmap & _).
  exists reports. split; [exact Hrun|exact Hmap].
Defined.

Lemma pairing_id_mode_reports_allocated_witness :
  exists q,
    In q (group_pairings [pairing_cal; pairing_max; pairing_elsewhere] pairing_cal)
    /\ p_id q = 7
    /\ run_one_pairing ledger_cycles today_december 6
         [pairing_cal; pairing_max; pairing_elsewhere] pairing_cal
       = Some (Allocated
                 (discrepancy_for ledger_cycles today_december
                    (group_pairings [pairing_cal; pairing_max; pairing_elsewhere] pairing_cal)
                    6 2000 q)).
Proof.
  apply (pairing_id_mode_reports_allocated ledger_cycles today_december 6
           [pairing_cal; pairing_max; pairing_elsewhere] pairing_cal eq_refl).
  vm_compute. reflexivity.
Defined.

Lemma subtract_calendar_months_is_calendar_arithmetic_witness :
  let r := Calendar.subtract_calendar_months (Calendar.mkdate 2025 3 31) 1 in
  Calendar.valid_date (Calendar.year r) (Calendar.month r) (Calendar.day r) = true
  /\ 12 * Calendar.year r + Calendar.month r = 12 * 2025 + 3 - 1
  /\ Calendar.day r
     = Z.min 31 (Calendar.days_in_month (Calendar.year r) (Calendar.month r)).
Proof.
  apply (subtract_calendar_months_is_calendar_arithmetic (Calendar.mkdate 2025 3 31) 1).
  - reflexivity.
  - cbn. lia.
  - lia.
Defined.

Lemma suggested_account_comes_from_a_bank_row_witness :
  ~ In (s_bankVendor Samples.cal_suggestion) (List.map fst Text.VENDOR_KEYWORDS)
  /\ (0 < s_matchingLast4Count Samples.cal_suggestion
      \/ 0 < s_matchingVendorCount Samples.cal_suggestion).
Proof.
  assert (find_best_bank_account_app ledger_cycles "visaCal" (Some "1456") None None 500
          = Found Samples.cal_suggestion) as Hfound by (vm_compute; reflexivity).
  destruct (suggested_account_comes_from_a_bank_row _ _ _ _ _ _ _ Hfound)
    as (_ & Hcc & _ & _ & _ & _ & Hpos).
  split; [exact Hcc|exact Hpos].
Defined.

Lemma samples_show_the_evidence_witness :
  (1 <= List.length (sampleTransactions Samples.cal_suggestion) <= 3)%nat.
Proof.
  assert (find_best_bank_account_app ledger_cycles "visaCal" (Some "1456") None None 500
          = Found Samples.cal_suggestion) as Hfound by (vm_compute; reflexivity).
  apply (samples_show_the_evidence _ _ _ _ _ _ _ Hfound).
Defined.

Lemma allocator_reports_every_pairing_witness :
  is_Some (returned_discrepancies group_outcome !! 7)
  /\ is_Some (returned_discrepancies group_outcome !! 8).
Proof.
  assert (calculate_discrepancies_app_for_bank_group ledger_cycles today_december
            [pairing_cal; pairing_max] 6 2000
          = Returned (returned_discrepancies group_outcome)) as Hret
      by (vm_compute; reflexivity).
  destruct (allocator_reports_every_pairing _ _ _ _ _ _ Hret) as [Hkeys _].
  split; apply Hkeys.
  - exists pairing_cal. split; [now left|reflexivity].
  - exists pairing_max. split; [right; now left|reflexivity].
Defined.

Lemma window_before_year_one_raises_witness :
  calculate_discrepancy_app ledger_cycles today_december None "discount" (Some "0162490242")
    "visaCal" (Some "1456") 30000 500 = Classifier.DateError
  /\ calculate_discrepancy_app ledger_cycles today_december None "" (Some "0162490242")
       "visaCal" (Some "1456") 30000 500 = NoVendor.
Proof.
  destruct (window_before_year_one_raises ledger_cycles today_december 30000 500 eq_refl
              ltac:(vm_compute; discriminate)) as (Hclassifier & _ & _).
  split.
  - apply (proj1 (Hclassifier None "discount" (Some "0162490242") "visaCal" (Some "1456")));
      discriminate.
  - apply (proj2 (Hclassifier None "" (Some "0162490242") "visaCal" (Some "1456"))).
    now left.
Defined.


End Instances.
